(** * Market scanner: query construction, retrieval, relevance filter,
      insight extraction and the alert store

    A shallow embedding of [utils/market_scanner.py] (class [MarketScanner])
    and of the alert store kept in the Streamlit session state by
    [modules/smart_markets.py], followed by the properties that the
    specification states about them.

    Conventions of the embedding.
    - Python [str] is [string]; the text is taken to be ASCII, so [lower]
      is ASCII lower-casing and slicing counts bytes.
    - Python dictionaries with a fixed set of keys (the configuration, a
      normalised search hit, an alert) are records; an [option] field is a
      key that may be absent.  Open dictionaries (a JSON object, the
      [pagemap] of a search item, the session state) are [gmap]s.
    - An exception is a value of [pyexn]; code that may raise returns a
      [result].  A [try]/[except] block is written out: the body returns
      what it had appended to the shared list when it stopped, together
      with the exception if there was one.
    - [st.error] and [st.warning] append to a list of messages.
      [st.spinner] and [time.sleep] have no effect on the values computed
      and are left out.
    - The external services ([cse().list(..).execute()], the chat
      completion, [json.loads], [time.time]) are parameters. *)

From Stdlib Require Import Ascii String QArith.
From stdpp Require Import gmap strings list pretty.

Set Warnings "-register-all".
Set Default Proof Using "Type".

Local Open Scope string_scope.
Local Open Scope list_scope.

(** ** Python primitives *)

Module Py.

(** The double quote and the line feed, which a string literal here
    cannot hold. *)
Definition dquote : string := String "034"%char EmptyString.
Definition nl : string := String "010"%char EmptyString.

(** [c.lower()] on one ASCII character. *)
Definition lower_ascii (c : ascii) : ascii :=
  let n := nat_of_ascii c in
  if (65 <=? n)%nat && (n <=? 90)%nat then ascii_of_nat (n + 32) else c.

(** [s.lower()] *)
Fixpoint lower (s : string) : string :=
  match s with
  | EmptyString => EmptyString
  | String c r => String (lower_ascii c) (lower r)
  end.

(** [needle in hay] on strings: [needle] starts at some position of
    [hay]. *)
Fixpoint str_in (needle hay : string) : bool :=
  String.prefix needle hay
  || match hay with
     | EmptyString => false
     | String _ r => str_in needle r
     end.

(** [x in l] on a list of strings. *)
Definition list_in (x : string) (l : list string) : bool :=
  existsb (String.eqb x) l.

(** Truth value of a string and of a list. *)
Definition truthy (s : string) : bool := negb (String.eqb s "").
Definition truthy_list {A} (l : list A) : bool :=
  match l with [] => false | _ :: _ => true end.

(** [sep.join(l)] *)
Definition join (sep : string) (l : list string) : string :=
  String.concat sep l.

(** [s[:n]] *)
Definition slice_to (n : nat) (s : string) : string :=
  String.substring 0 n s.

(** [str(n)] for a non-negative integer. *)
Definition str_nat (n : nat) : string := pretty n.
Definition str_int (z : Z) : string := pretty z.

(** Exceptions: the class and [str(e)]. *)
Inductive exn_class :=
| HttpError
| AttributeError
| TypeError
| IndexError
| JSONDecodeError
| OtherError.

Record pyexn := PyExn { exn_cls : exn_class; exn_msg : string }.

Inductive result (A : Type) :=
| Ok (a : A)
| Raise (e : pyexn).
Arguments Ok {A} a.
Arguments Raise {A} e.

Definition bind {A B} (m : result A) (k : A -> result B) : result B :=
  match m with
  | Ok a => k a
  | Raise e => Raise e
  end.

(** Messages shown to the user. *)
Inductive ui_msg :=
| UiError (s : string)
| UiWarning (s : string).

End Py.
Export Py.

Notation "'try!' x := m 'in' k" := (Py.bind m (fun x => k))
  (at level 10, x name, m at level 100, k at level 200,
   format "'[v' 'try!'  x  :=  m  'in' '/' k ']'").

(** ** JSON values, as [json.loads] returns them

    [JNull] is [None], [JInt] a Python [int], [JFloat] a Python [float]
    given by the rational it stands for (0.85 is [85 # 100]; rounding is
    not modelled), [JArr] a list and [JObj] a dictionary. *)

Inductive json :=
| JNull
| JBool (b : bool)
| JInt (z : Z)
| JFloat (q : Q)
| JStr (s : string)
| JArr (l : list json)
| JObj (m : gmap string json).

Module Json.

Definition type_name (j : json) : string :=
  match j with
  | JNull => "NoneType"
  | JBool _ => "bool"
  | JInt _ => "int"
  | JFloat _ => "float"
  | JStr _ => "str"
  | JArr _ => "list"
  | JObj _ => "dict"
  end.

Definition no_get (j : json) : pyexn :=
  PyExn AttributeError ("'" +:+ type_name j +:+ "' object has no attribute 'get'").

Definition not_iterable (j : json) : pyexn :=
  PyExn TypeError ("'" +:+ type_name j +:+ "' object is not iterable").

(** [j.get(key, dflt)]: only a dictionary has [get]. *)
Definition get (j : json) (key : string) (dflt : json) : result json :=
  match j with
  | JObj m => Ok (default dflt (m !! key))
  | _ => Raise (no_get j)
  end.

(** The characters of a string, each a string of length one. *)
Fixpoint chars (s : string) : list json :=
  match s with
  | EmptyString => []
  | String c r => JStr (String c EmptyString) :: chars r
  end.

(** The elements that [for .. in enumerate(j)] visits.  A dictionary
    yields its keys and a string its characters; numbers, booleans and
    [None] are not iterable. *)
Definition iter (j : json) : result (list json) :=
  match j with
  | JArr l => Ok l
  | JObj m => Ok (JStr <$> (map_to_list m).*1)
  | JStr s => Ok (chars s)
  | _ => Raise (not_iterable j)
  end.

End Json.

(** ** Data model *)

(** The configuration dictionary.  Each function reads its own keys;
    [None] is an absent key. *)
Record Config := {
  geo_focus : option string;
  sub_sectors : option (list string);
  categories : option (list string);
  keywords : option string;
  geographic_scope : option (list string);
  time_range : option string;
  suppliers : option (list string);
  intelligence_types : option (list string);
  market_categories : option (list string)
}.

(** [st.session_state.contextual_trigger_data] when it is not [None]:
    the keys that [construct_search_queries] reads. *)
Record Trigger := {
  t_type : string;
  t_name : string;
  t_category : string
}.

(** One item of the search provider's response: [title], [link],
    [snippet], [displayLink] and the optional [pagemap], a dictionary of
    lists of string dictionaries. *)
Record RawItem := {
  r_title : option string;
  r_link : option string;
  r_snippet : option string;
  r_displayLink : option string;
  r_pagemap : option (gmap string (list (gmap string string)))
}.

(** The response of the search provider; [items] is absent when there
    are no results. *)
Record SearchResponse := { items : option (list RawItem) }.

(** The keyword arguments of [cse().list]. *)
Record SearchParams := {
  sp_q : string;
  sp_cx : string;
  sp_num : nat;
  sp_dateRestrict : string;
  sp_gl : option string;
  sp_hl : option string
}.

(** A normalised search hit, the dictionary built by
    [execute_google_search]. *)
Record SearchHit := {
  h_title : string;
  h_url : string;
  h_snippet : string;
  h_source : string;
  h_date : string;
  h_query : string;
  h_content : string
}.

(** An alert, the dictionary built by [analyze_snippets_with_openai].
    The fields copied from the model's answer hold whatever JSON value
    the answer had. *)
Record AlertRecord := {
  a_id : string;
  a_title : json;
  a_category : json;
  a_impact_level : json;
  a_summary : json;
  a_insights : json;
  a_recommended_actions : json;
  a_suppliers_mentioned : json;
  a_relevance_score : json;
  a_source : string;
  a_url : string;
  a_timestamp : string;
  a_intelligence_type : json
}.

(** The variable parts of the prompt sent to the model; the fixed
    instruction text around them is left out. *)
Record Prompt := {
  p_suppliers : string;
  p_categories : string;
  p_snippets : string
}.

(** The scanner object: the two clients, [None] when the keys are
    missing.  The chat client returns
    [response.choices[0].message.content], which may be [None]. *)
Record MarketScanner := {
  openai_client : option (Prompt -> result (option string));
  google_service : option (SearchParams -> result SearchResponse)
}.

(** ** Query builder: [construct_search_queries] *)

Definition base_components (config : Config) (refinement_keywords : string)
  : list string :=
  (match geo_focus config with
   | Some g => if truthy g then [g] else []
   | None => []
   end)
  ++ (match sub_sectors config with
      | Some l => if truthy_list l then l else []
      | None => []
      end)
  ++ (match categories config with
      | Some l => if truthy_list l then l else []
      | None => []
      end)
  ++ (match keywords config with
      | Some k => if truthy k then [k] else []
      | None => []
      end)
  ++ (if truthy refinement_keywords then [refinement_keywords] else [])
  ++ ["built assets"; "construction"; "infrastructure"].

(** The queries built from the components.  The indices 0 and 1 are in
    range under the guard [len(base_components) > 3]. *)
Definition queries_of_components (bc : list string) : list string :=
  if truthy_list bc then
    let main_query := join " " (take 6 bc) in
    [main_query]
    ++ (if (3 <? length bc)%nat then
          let variation1 :=
            join " " [default "" (bc !! 0%nat); default "" (bc !! 1%nat);
                      "market analysis"; "2024"] in
          let variation2 :=
            join " " [default "" (bc !! 0%nat); "procurement"; "suppliers";
                      "trends"] in
          [variation1; variation2]
        else [])
  else ["UK built assets construction market trends 2024"].

(** The function takes the session's trigger data and returns it as the
    call leaves it. *)
Definition construct_search_queries (config : Config)
    (refinement_keywords : string) (contextual_trigger_data : option Trigger)
  : list string * option Trigger :=
  let standing :=
    take 3 (queries_of_components (base_components config refinement_keywords)) in
  match contextual_trigger_data with
  | Some trigger =>
      if String.eqb (t_type trigger) "sourcing_package" then
        ([t_name trigger +:+ " " +:+ t_category trigger
          +:+ " market trends suppliers UK"], None)
      else (standing, contextual_trigger_data)
  | None => (standing, None)
  end.

(** ** Relevance filter: [_is_uk_relevant] *)

Definition uk_domains : list string :=
  [".gov.uk"; ".ac.uk"; ".co.uk"; ".org.uk"; ".nhs.uk"].

Definition uk_keywords : list string :=
  ["united kingdom"; "uk"; "britain"; "england"; "wales"; "scotland";
   "ofwat"; "defra"].

Definition non_uk_indicators : list string :=
  ["usa"; "united states"; "colorado"; "california"; ".edu"].

Definition item_url (item : RawItem) : string :=
  lower (default "" (r_link item)).

Definition item_title_snippet (item : RawItem) : string :=
  lower (default "" (r_title item) +:+ " " +:+ default "" (r_snippet item)).

Definition _is_uk_relevant (item : RawItem) (geographic_scope : list string)
  : bool :=
  if negb (list_in "UK" geographic_scope) then true
  else
    let url := item_url item in
    let title_snippet := item_title_snippet item in
    if existsb (fun domain => str_in domain url) uk_domains then true
    else if existsb (fun keyword => str_in keyword title_snippet) uk_keywords
    then true
    else if existsb (fun indicator =>
                       str_in indicator url || str_in indicator title_snippet)
                    non_uk_indicators
    then false
    else true.

(** ** Search retrieval: [_extract_date_from_result] and
       [execute_google_search] *)

(** The first of the [fields] whose value in [d] is a non-empty string. *)
Fixpoint first_truthy_field (d : gmap string string) (fields : list string)
  : option string :=
  match fields with
  | [] => None
  | field :: rest =>
      match d !! field with
      | Some v => if truthy v then Some v else first_truthy_field d rest
      | None => first_truthy_field d rest
      end
  end.

(** The second loop of the date extraction.  [pagemap[source][0]] raises
    on an empty list; [a.get(..) or b.get(..)] followed by the truth test
    picks the first non-empty of the two values. *)
Fixpoint date_from_sources (pagemap : gmap string (list (gmap string string)))
    (sources : list string) : result string :=
  match sources with
  | [] => Ok "Recent"
  | source :: rest =>
      match pagemap !! source with
      | Some [] => Raise (PyExn IndexError "list index out of range")
      | Some (entry :: _) =>
          match first_truthy_field entry ["datepublished"; "datemodified"] with
          | Some date_val => Ok date_val
          | None => date_from_sources pagemap rest
          end
      | None => date_from_sources pagemap rest
      end
  end.

Definition _extract_date_from_result (item : RawItem) : result string :=
  let pagemap := default ∅ (r_pagemap item) in
  let metatags := default [∅] (pagemap !! "metatags") in
  let from_metatags :=
    match metatags with
    | [] => None
    | tags :: _ =>
        first_truthy_field tags
          ["article:published_time"; "date"; "pubdate"; "last-modified"]
    end in
  match from_metatags with
  | Some date_val => Ok date_val
  | None => date_from_sources pagemap ["newsarticle"; "article"; "webpage"]
  end.

(** The dictionary appended for a relevant item. *)
Definition search_result (item : RawItem) (date query : string) : SearchHit :=
  {| h_title := default "" (r_title item);
     h_url := default "" (r_link item);
     h_snippet := default "" (r_snippet item);
     h_source := default "" (r_displayLink item);
     h_date := date;
     h_query := query;
     h_content := default "" (r_snippet item) |}.

(** The loop over [result['items']].  [all_results] is the list the
    loop appends to; an exception leaves in it what was appended
    before. *)
Fixpoint collect_items (geographic_scope : list string) (query : string)
    (its : list RawItem) (all_results : list SearchHit)
  : list SearchHit * option pyexn :=
  match its with
  | [] => (all_results, None)
  | item :: rest =>
      if _is_uk_relevant item geographic_scope then
        match _extract_date_from_result item with
        | Ok date =>
            collect_items geographic_scope query rest
              (all_results ++ [search_result item date query])
        | Raise e => (all_results, Some e)
        end
      else collect_items geographic_scope query rest all_results
  end.

Definition enhanced_query (geographic_scope : list string) (query : string)
  : string :=
  if list_in "UK" geographic_scope then
    query +:+ " (site:gov.uk OR site:ac.uk OR site:co.uk) "
    +:+ dquote +:+ "United Kingdom" +:+ dquote +:+ " OR "
    +:+ dquote +:+ "UK" +:+ dquote
  else query.

Definition search_params (geographic_scope : list string)
    (date_restrict api_google_cx query : string) : SearchParams :=
  let uk := list_in "UK" geographic_scope in
  {| sp_q := enhanced_query geographic_scope query;
     sp_cx := api_google_cx;
     sp_num := Nat.min 10 10;
     sp_dateRestrict := date_restrict;
     sp_gl := if uk then Some "uk" else None;
     sp_hl := if uk then Some "en-GB" else None |}.

(** The two [except] clauses of the loop body. *)
Definition search_error (query : string) (e : pyexn) : ui_msg :=
  match exn_cls e with
  | HttpError =>
      UiError ("Google Search API error for query '" +:+ query +:+ "': "
               +:+ exn_msg e)
  | _ => UiError ("Unexpected error during search: " +:+ exn_msg e)
  end.

(** One iteration of the loop over the queries: the [try] body and its
    handlers. *)
Definition search_query (service : SearchParams -> result SearchResponse)
    (geographic_scope : list string) (date_restrict api_google_cx : string)
    (query : string) (all_results : list SearchHit) (log : list ui_msg)
  : list SearchHit * list ui_msg :=
  match service (search_params geographic_scope date_restrict api_google_cx query) with
  | Raise e => (all_results, log ++ [search_error query e])
  | Ok response =>
      match items response with
      | None => (all_results, log)
      | Some its =>
          match collect_items geographic_scope query its all_results with
          | (all_results', None) => (all_results', log)
          | (all_results', Some e) =>
              (all_results', log ++ [search_error query e])
          end
      end
  end.

Fixpoint search_queries (service : SearchParams -> result SearchResponse)
    (geographic_scope : list string) (date_restrict api_google_cx : string)
    (queries : list string) (all_results : list SearchHit) (log : list ui_msg)
  : list SearchHit * list ui_msg :=
  match queries with
  | [] => (all_results, log)
  | query :: rest =>
      let '(all_results', log') :=
        search_query service geographic_scope date_restrict api_google_cx
          query all_results log in
      search_queries service geographic_scope date_restrict api_google_cx
        rest all_results' log'
  end.

Definition scope_of (config : Config) : list string :=
  default ["UK"] (geographic_scope config).

Definition date_restrict_of (config : Config) : string :=
  if String.eqb (default "Last 6 months" (time_range config)) "Last 6 months"
  then "m6" else "m3".

(** [api_google_cx] is [st.session_state.api_google_cx].  The result is
    the returned list and the messages shown. *)
Definition execute_google_search (self : MarketScanner)
    (api_google_cx : string) (queries : list string) (config : Config)
  : list SearchHit * list ui_msg :=
  match google_service self with
  | None => ([], [UiError "Google Search API not configured"])
  | Some service =>
      search_queries service (scope_of config) (date_restrict_of config)
        api_google_cx queries [] []
  end.

(** ** Insight extractor: [analyze_snippets_with_openai] *)

Definition snippet_block (item : SearchHit) : string :=
  "Title: " +:+ h_title item +:+ nl
  +:+ "Source: " +:+ h_source item +:+ nl
  +:+ "Date: " +:+ h_date item +:+ nl
  +:+ "Content: " +:+ h_content item.

Definition snippet_text (snippet_data : list SearchHit) : string :=
  join (nl +:+ nl) (snippet_block <$> snippet_data).

(** [context_categories] and [analysis_focus]. *)
Definition analysis_context (config : Config) : string * string :=
  let intelligence_types := default [] (intelligence_types config) in
  let market_categories := default [] (market_categories config) in
  if truthy_list market_categories then
    (join ", " market_categories, "market intelligence across sectors")
  else if truthy_list intelligence_types then
    (join ", " intelligence_types, "supplier intelligence insights")
  else ("All categories", "market intelligence").

Definition build_prompt (config : Config) (snippet_data : list SearchHit)
  : Prompt :=
  let suppliers := default [] (suppliers config) in
  {| p_suppliers :=
       if truthy_list suppliers then join ", " suppliers
       else "Any suppliers mentioned";
     p_categories := fst (analysis_context config);
     p_snippets := snippet_text snippet_data |}.

(** [{"insights": []}] *)
Definition no_insights : json := JObj {[ "insights" := JArr [] ]}.

Definition source_field (source_data : option SearchHit)
    (field : SearchHit -> string) (dflt : string) : string :=
  match source_data with
  | Some hit => field hit
  | None => dflt
  end.

(** [item['content'][:200] + '...'] *)
Definition fallback_summary (item : SearchHit) : string :=
  slice_to 200 (h_content item) +:+ "...".

(** The dictionary built in the [except] handler for item [i]; [now] is
    [int(time.time())]. *)
Definition fallback_result (now : Z) (i : nat) (item : SearchHit)
  : AlertRecord :=
  {| a_id := "fallback_" +:+ str_int now +:+ "_" +:+ str_nat i;
     a_title := JStr (h_title item);
     a_category := JStr "Market Trends";
     a_impact_level := JStr "Medium";
     a_summary := JStr (fallback_summary item);
     a_insights := JArr [JStr "Market information available"];
     a_recommended_actions := JArr [JStr "Review detailed source information"];
     a_suppliers_mentioned := JArr [];
     a_relevance_score := JFloat (6 # 10);
     a_source := h_source item;
     a_url := h_url item;
     a_timestamp := h_date item;
     a_intelligence_type := JStr "Market Trends" |}.

(** The dictionary built for the insight at position [i].  The source
    hit is chosen by position; the [id] is formatted first, then every
    [insight.get] may raise. *)
Definition processed_result (snippet_data : list SearchHit) (now : Z)
    (i : nat) (insight : json) : result AlertRecord :=
  let source_index :=
    if truthy_list snippet_data then (i mod length snippet_data)%nat
    else 0%nat in
  let source_data :=
    if truthy_list snippet_data then snippet_data !! source_index else None in
  let id := "insight_" +:+ str_int now +:+ "_" +:+ str_nat i in
  try! title :=
    Json.get insight "title"
      (JStr ("Market Intelligence #" +:+ str_nat (i + 1))) in
  try! category := Json.get insight "category" (JStr "Market Trends") in
  try! impact_level := Json.get insight "impact_level" (JStr "Medium") in
  try! summary := Json.get insight "summary" (JStr "") in
  try! insights := Json.get insight "insights" (JArr []) in
  try! recommended_actions :=
    Json.get insight "recommended_actions" (JArr []) in
  try! suppliers_mentioned :=
    Json.get insight "suppliers_mentioned" (JArr []) in
  try! relevance_score :=
    Json.get insight "relevance_score" (JFloat (7 # 10)) in
  try! intelligence_type :=
    Json.get insight "category" (JStr "Market Trends") in
  Ok {| a_id := id;
        a_title := title;
        a_category := category;
        a_impact_level := impact_level;
        a_summary := summary;
        a_insights := insights;
        a_recommended_actions := recommended_actions;
        a_suppliers_mentioned := suppliers_mentioned;
        a_relevance_score := relevance_score;
        a_source := source_field source_data h_source "Market Intelligence";
        a_url := source_field source_data h_url "";
        a_timestamp := source_field source_data h_date "Recent";
        a_intelligence_type := intelligence_type |}.

Section Extractor.

(** [json.loads], and the clock: [clock n] is [int(time.time())] at the
    [n]-th reading made by the call. *)
Variable json_loads : string -> result json.
Variable clock : nat -> Z.

(** The [try] body up to the loop: the call, the parse and the value
    iterated by the loop. *)
Definition model_insights (client : Prompt -> result (option string))
    (prompt : Prompt) : result (list json) :=
  try! content := client prompt in
  try! parsed :=
    match content with
    | Some text => if truthy text then json_loads text else Ok no_insights
    | None => Ok no_insights
    end in
  try! insights := Json.get parsed "insights" (JArr []) in
  Json.iter insights.

(** The loop over the insights.  [analyzed_results] is the list the
    loop appends to and [ticks] the number of clock readings made. *)
Fixpoint process_insights (snippet_data : list SearchHit) (i : nat)
    (insights : list json) (analyzed_results : list AlertRecord)
    (ticks : nat) : list AlertRecord * nat * option pyexn :=
  match insights with
  | [] => (analyzed_results, ticks, None)
  | insight :: rest =>
      match processed_result snippet_data (clock ticks) i insight with
      | Ok processed =>
          process_insights snippet_data (S i) rest
            (analyzed_results ++ [processed]) (S ticks)
      | Raise e => (analyzed_results, S ticks, Some e)
      end
  end.

(** The loop of the [except] handler; it appends to the same list. *)
Fixpoint fallback_results (i : nat) (snippet_data : list SearchHit)
    (analyzed_results : list AlertRecord) (ticks : nat)
  : list AlertRecord :=
  match snippet_data with
  | [] => analyzed_results
  | item :: rest =>
      fallback_results (S i) rest
        (analyzed_results ++ [fallback_result (clock ticks) i item])
        (S ticks)
  end.

Definition analysis_error (e : pyexn) : ui_msg :=
  UiError ("OpenAI analysis error: " +:+ exn_msg e).

Definition analyze_snippets_with_openai (self : MarketScanner)
    (snippet_data : list SearchHit) (config : Config)
  : list AlertRecord * list ui_msg :=
  match openai_client self with
  | None => ([], [UiError "OpenAI API not configured"])
  | Some client =>
      match model_insights client (build_prompt config snippet_data) with
      | Raise e =>
          (fallback_results 0 snippet_data [] 0, [analysis_error e])
      | Ok insights =>
          match process_insights snippet_data 0 insights [] 0 with
          | (analyzed_results, _, None) => (analyzed_results, [])
          | (analyzed_results, ticks, Some e) =>
              (fallback_results 0 snippet_data analyzed_results ticks,
               [analysis_error e])
          end
      end
  end.

End Extractor.

(** ** Alert store: the session state of [smart_markets.py] *)

Module AlertStore.

(** The part of [st.session_state] that holds alert lists. *)
Definition alerts_key (category : string) : string :=
  "market_alerts_" +:+ category.

Definition supplier_alerts_key (intel_type : string) : string :=
  "supplier_alerts_" +:+ intel_type.

(** [st.session_state[alerts_key] = analyzed_results] in
    [generate_market_category_alerts]. *)
Definition store_alerts (category : string)
    (analyzed_results : list AlertRecord)
    (session_state : gmap string (list AlertRecord))
  : gmap string (list AlertRecord) :=
  <[alerts_key category := analyzed_results]> session_state.

(** The storing branch of [generate_market_category_alerts]: nothing is
    stored when the search found nothing. *)
Definition store_if_results (category : string)
    (search_results : list SearchHit) (analyzed_results : list AlertRecord)
    (session_state : gmap string (list AlertRecord))
  : gmap string (list AlertRecord) :=
  if truthy_list search_results
  then store_alerts category analyzed_results session_state
  else session_state.

(** The branch [render_current_intelligence_view] takes: the list it
    reads from the session state and hands to
    [render_enhanced_summary_insights] and [render_category_alerts], or
    the placeholder.  The renderers themselves, which may raise on a
    record whose summary is [None], are outside the model. *)
Inductive view :=
| Alerts (alerts : list AlertRecord)
| Placeholder (category : string).

Definition render_current_intelligence_view (category : string)
    (session_state : gmap string (list AlertRecord)) : view :=
  match session_state !! alerts_key category with
  | Some alerts =>
      if truthy_list alerts then Alerts alerts else Placeholder category
  | None => Placeholder category
  end.

(** The records a view reads from the store and hands to its
    renderers. *)
Definition displayed (v : view) : list AlertRecord :=
  match v with
  | Alerts alerts => alerts
  | Placeholder _ => []
  end.

End AlertStore.

(** ** Notions used by the properties *)

(** [needle] occurs in [hay]: some text before it, some text after. *)
Definition occurs_in (needle hay : string) : Prop :=
  exists pre post, hay = pre +:+ needle +:+ post.

(** The invariants that the specification's data model puts on an
    alert: relevance score in [0,1], impact level among three, category in
    the enumeration of the scan's context. *)
Definition impact_levels : list string := ["High"; "Medium"; "Low"].

Definition market_category_enum : list string :=
  ["Infrastructure"; "Technology"; "Services"; "Materials"; "Equipment";
   "Market Trends"; "Regulatory & Compliance"; "Financial Intelligence";
   "Government Programs"; "Innovation Tracking"; "Competitive Intelligence"].

Definition supplier_category_enum : list string :=
  ["Financial Intelligence"; "Regulatory & Compliance";
   "Government Programs"; "Innovation Tracking"; "Competitive Intelligence"].

(** The context of a scan, decided as [analysis_context] decides it. *)
Definition context_enum (config : Config) : list string :=
  if truthy_list (default [] (market_categories config))
  then market_category_enum
  else if truthy_list (default [] (intelligence_types config))
  then supplier_category_enum
  else market_category_enum.

Definition score_in_unit (j : json) : Prop :=
  match j with
  | JInt z => (0 <= z <= 1)%Z
  | JFloat q => (0 <= q)%Q /\ (q <= 1)%Q
  | _ => False
  end.

Definition one_of (enum : list string) (j : json) : Prop :=
  match j with
  | JStr s => s ∈ enum
  | _ => False
  end.

Definition well_formed (enum : list string) (r : AlertRecord) : Prop :=
  score_in_unit (a_relevance_score r)
  /\ one_of impact_levels (a_impact_level r)
  /\ one_of enum (a_category r).

(** An insight of the model's answer whose score, impact level and
    category, where given, are valid; a missing key is read as the
    extractor's default for it. *)
Definition valid_insight (enum : list string) (insight : json) : Prop :=
  forall m, insight = JObj m ->
    score_in_unit (default (JFloat (7 # 10)) (m !! "relevance_score"))
    /\ one_of impact_levels (default (JStr "Medium") (m !! "impact_level"))
    /\ one_of enum (default (JStr "Market Trends") (m !! "category")).


(** ** Example inputs *)

Definition ambiguous_item : RawItem :=
  {| r_title := Some "Pipe relining";
     r_link := Some "https://www.example.com/pipes";
     r_snippet := Some "Trenchless methods for sewer mains";
     r_displayLink := Some "www.example.com";
     r_pagemap := None |}.

Definition ukraine_item : RawItem :=
  {| r_title := Some "Ukraine grain exports";
     r_link := Some "https://news.example.com/grain";
     r_snippet := Some "Shipments to the United States rise";
     r_displayLink := Some "news.example.com";
     r_pagemap := None |}.


(** A configuration with no key at all, and one for a UK market scan. *)
Definition empty_config : Config :=
  {| geo_focus := None; sub_sectors := None; categories := None;
     keywords := None; geographic_scope := None; time_range := None;
     suppliers := None; intelligence_types := None;
     market_categories := None |}.

Definition uk_config : Config :=
  {| geo_focus := Some "UK"; sub_sectors := None;
     categories := Some ["Infrastructure"];
     keywords := None; geographic_scope := Some ["UK"]; time_range := None;
     suppliers := None; intelligence_types := None;
     market_categories := Some ["Infrastructure"] |}.

Definition supplier_config : Config :=
  {| geo_focus := None; sub_sectors := None; categories := None;
     keywords := None; geographic_scope := Some ["UK"]; time_range := None;
     suppliers := Some ["Acme Pumps"];
     intelligence_types := Some ["Financial Intelligence"];
     market_categories := None |}.

(** Two triggers: a sourcing package, and one of another type. *)
Definition package_trigger : Trigger :=
  {| t_type := "sourcing_package";
     t_name := "Mains Renewal Lot 2";
     t_category := "Civils" |}.

Definition review_trigger : Trigger :=
  {| t_type := "supplier_review";
     t_name := "Mains Renewal Lot 2";
     t_category := "Civils" |}.

(** Two raw items: one under [.gov.uk], one under [.us] whose title and
    snippet hold no UK keyword. *)
Definition gov_item : RawItem :=
  {| r_title := Some "Water resources planning guideline";
     r_link := Some "https://www.gov.uk/guidance/water-resources";
     r_snippet := Some "Guidance for water companies on long term plans";
     r_displayLink := Some "www.gov.uk";
     r_pagemap := None |}.

Definition us_item : RawItem :=
  {| r_title := Some "Pipe relining";
     r_link := Some "https://www.waterworld.us/pipes";
     r_snippet := Some "Trenchless methods for sewer mains";
     r_displayLink := Some "www.waterworld.us";
     r_pagemap := None |}.

(** An item whose [pagemap] dates it, and one whose [pagemap] has an
    empty [article] list. *)
Definition dated_item : RawItem :=
  {| r_title := Some "Ofwat final determinations";
     r_link := Some "https://www.ofwat.gov.uk/pr24";
     r_snippet := Some "Price review";
     r_displayLink := Some "www.ofwat.gov.uk";
     r_pagemap :=
       Some {[ "metatags" := [ {[ "date" := "" ]} ];
               "article" := [ {[ "datemodified" := "2024-12-19" ]} ] ]} |}.

Definition broken_item : RawItem :=
  {| r_title := Some "Ofwat final determinations";
     r_link := Some "https://www.ofwat.gov.uk/pr24";
     r_snippet := Some "Price review";
     r_displayLink := Some "www.ofwat.gov.uk";
     r_pagemap := Some {[ "article" := [] ]} |}.

(** A scanner whose search service answers every query with the two
    items above, and one whose service fails on the queries that mention
    an outage. *)
Definition two_hit_scanner : MarketScanner :=
  {| openai_client := None;
     google_service :=
       Some (fun _ => Ok {| items := Some [gov_item; us_item] |}) |}.

Definition flaky_scanner : MarketScanner :=
  {| openai_client := None;
     google_service :=
       Some (fun params =>
               if str_in "outage" (sp_q params)
               then Raise (PyExn HttpError "quota exceeded")
               else Ok {| items := Some [gov_item] |}) |}.

(** Two hits, as retrieval returns them. *)
Definition example_hits : list SearchHit :=
  [search_result gov_item "Recent" "water infrastructure";
   search_result us_item "2024-05-01" "water infrastructure"].

Definition fixed_clock : nat -> Z := fun _ => 1717000000%Z.

(** [json.loads] on the one text of an example. *)
Definition loads_table (text : string) (value : json)
  : string -> result json :=
  fun s =>
    if String.eqb s text then Ok value
    else Raise (PyExn JSONDecodeError
                  "Expecting value: line 1 column 1 (char 0)").

Definition quoted (s : string) : string := dquote +:+ s +:+ dquote.

(** An answer whose only insight has a category outside both
    enumerations, an impact level outside the three and a score of 5. *)
Definition bad_answer_text : string :=
  "{" +:+ quoted "insights" +:+ ": [{"
  +:+ quoted "category" +:+ ": " +:+ quoted "Sports" +:+ ", "
  +:+ quoted "impact_level" +:+ ": " +:+ quoted "Critical" +:+ ", "
  +:+ quoted "relevance_score" +:+ ": 5}]}".

Definition bad_answer : json :=
  JObj {[ "insights" :=
            JArr [JObj {[ "category" := JStr "Sports";
                          "impact_level" := JStr "Critical";
                          "relevance_score" := JInt 5 ]}] ]}.

(** An answer with three valid insights. *)
Definition good_answer_text : string :=
  "{" +:+ quoted "insights" +:+ ": [{"
  +:+ quoted "category" +:+ ": " +:+ quoted "Infrastructure" +:+ ", "
  +:+ quoted "impact_level" +:+ ": " +:+ quoted "High" +:+ ", "
  +:+ quoted "relevance_score" +:+ ": 1}, {"
  +:+ quoted "category" +:+ ": " +:+ quoted "Technology" +:+ "}, {"
  +:+ quoted "impact_level" +:+ ": " +:+ quoted "Low" +:+ "}]}".

Definition good_insights : list json :=
  [JObj {[ "category" := JStr "Infrastructure";
           "impact_level" := JStr "High";
           "relevance_score" := JInt 1 ]};
   JObj {[ "category" := JStr "Technology" ]};
   JObj {[ "impact_level" := JStr "Low" ]}].

Definition good_answer : json :=
  JObj {[ "insights" := JArr good_insights ]}.

(** Scanners whose model returns a given text, or fails. *)
Definition scanner_answering (text : string) : MarketScanner :=
  {| openai_client := Some (fun _ => Ok (Some text));
     google_service := None |}.

Definition failing_model_scanner : MarketScanner :=
  {| openai_client :=
       Some (fun _ => Raise (PyExn OtherError "Connection error."));
     google_service := None |}.

(** An item whose first meta tag dates it, although its [article] list
    is empty. *)
Definition tagged_item : RawItem :=
  {| r_title := Some "Thames Tideway update";
     r_link := Some "https://www.tideway.london/news";
     r_snippet := Some "Tunnel commissioning";
     r_displayLink := Some "www.tideway.london";
     r_pagemap :=
       Some {[ "metatags" :=
                 [ {[ "article:published_time" := "2024-03-01";
                      "date" := "2023-01-01" ]} ];
               "article" := [] ]} |}.

(** A scanner whose search service answers with a dated item, an item
    that breaks the date extraction, and a third item. *)
Definition breaking_scanner : MarketScanner :=
  {| openai_client := None;
     google_service :=
       Some (fun _ =>
               Ok {| items := Some [dated_item; broken_item; gov_item] |}) |}.

(** A configuration with eight sub-sectors. *)
Definition wide_config : Config :=
  {| geo_focus := None;
     sub_sectors :=
       Some ["water"; "wastewater"; "energy"; "rail"; "roads"; "ports";
             "airports"; "telecoms"];
     categories := Some ["Infrastructure"];
     keywords := Some "resilience";
     geographic_scope := Some ["UK"]; time_range := None;
     suppliers := None; intelligence_types := None;
     market_categories := None |}.

(** [c in s] for one character. *)
Fixpoint has_char (c : ascii) (s : string) : bool :=
  match s with
  | EmptyString => false
  | String c' r => Ascii.eqb c c' || has_char c r
  end.

(** A scanner whose model returns no content, and an answer whose second
    insight is a string. *)
Definition silent_scanner : MarketScanner :=
  {| openai_client := Some (fun _ => Ok None);
     google_service := None |}.

Definition mixed_answer_text : string :=
  "{" +:+ quoted "insights" +:+ ": [{"
  +:+ quoted "category" +:+ ": " +:+ quoted "Technology" +:+ "}, "
  +:+ quoted "see above" +:+ "]}".

Definition mixed_answer : json :=
  JObj {[ "insights" :=
            JArr [JObj {[ "category" := JStr "Technology" ]};
                  JStr "see above"] ]}.

(** A scanner whose search service answers with an item under [.gov.uk]
    whose date cannot be read, followed by the item under [.us]. *)
Definition unreadable_date_scanner : MarketScanner :=
  {| openai_client := None;
     google_service :=
       Some (fun _ => Ok {| items := Some [broken_item; us_item] |}) |}.

(** A hit whose content has 248 characters. *)
Definition long_hit : SearchHit :=
  let snippet :=
    "Ofwat has published its final determinations for the 2024 price "
    +:+ "review, setting out the allowed expenditure of each water company "
    +:+ "for the five years from April 2025, with enhancement funding for "
    +:+ "storm overflows, nutrient removal and new reservoirs." in
  {| h_title := "Ofwat final determinations";
     h_url := "https://www.ofwat.gov.uk/pr24";
     h_snippet := snippet;
     h_source := "www.ofwat.gov.uk";
     h_date := "2024-12-19";
     h_query := "water infrastructure";
     h_content := snippet |}.

(** ** Crawling: [crawl_urls]

    Whitespace is Python's on ASCII text: tab to carriage return, the
    four separators 28 to 31, and the space. *)

Definition is_space (c : ascii) : bool :=
  let n := nat_of_ascii c in
  ((9 <=? n)%nat && (n <=? 13)%nat)
  || ((28 <=? n)%nat && (n <=? 31)%nat)
  || (n =? 32)%nat.

Fixpoint lstrip (s : string) : string :=
  match s with
  | EmptyString => EmptyString
  | String c r => if is_space c then lstrip r else s
  end.

Fixpoint rstrip (s : string) : string :=
  match s with
  | EmptyString => EmptyString
  | String c r =>
      match rstrip r with
      | EmptyString => if is_space c then EmptyString else String c EmptyString
      | r' => String c r'
      end
  end.

(** [s.strip()] *)
Definition strip (s : string) : string := lstrip (rstrip s).

Definition starts_word (s : string) : bool :=
  match s with
  | EmptyString => false
  | String c _ => negb (is_space c)
  end.

(** [s.split()]: the maximal runs of non-whitespace characters. *)
Fixpoint split_ws (s : string) : list string :=
  match s with
  | EmptyString => []
  | String c r =>
      if is_space c then split_ws r
      else if starts_word r then
        match split_ws r with
        | w :: ws => String c w :: ws
        | [] => [String c EmptyString]
        end
      else String c EmptyString :: split_ws r
  end.

(** An entry of the list given to [crawl_urls]: a dictionary with [url]
    and perhaps [title] and [query], or a bare url. *)
Inductive UrlInfo :=
| UrlDict (url : string) (title query : option string)
| UrlStr (url : string).

Definition info_url (info : UrlInfo) : string :=
  match info with
  | UrlDict url _ _ => url
  | UrlStr url => url
  end.

Definition info_title (info : UrlInfo) : string :=
  match info with
  | UrlDict _ title _ => default "" title
  | UrlStr _ => ""
  end.

Definition info_query (info : UrlInfo) : string :=
  match info with
  | UrlDict _ _ query => default "" query
  | UrlStr _ => ""
  end.

(** A crawled page, the dictionary appended by [crawl_urls]. *)
Record CrawledPage := {
  c_url : string;
  c_title : string;
  c_content : string;
  c_query : string;
  c_word_count : nat
}.

Section Crawler.

(** [get_website_text_content] reaches the network, and
    [_extract_title_from_url] rests on [urlparse]; both are parameters.
    The second never raises: its body is under a bare [except]. *)
Variable get_website_text_content : string -> result string.
Variable _extract_title_from_url : string -> string.

Definition crawled_page (info : UrlInfo) (content : string) : CrawledPage :=
  {| c_url := info_url info;
     c_title :=
       if truthy (info_title info) then info_title info
       else _extract_title_from_url (info_url info);
     c_content := content;
     c_query := info_query info;
     c_word_count := length (split_ws content) |}.

(** The loop of [crawl_urls]: [processed_urls] is the set of urls seen,
    [crawled_content] the list appended to. *)
Fixpoint crawl_loop (urls : list UrlInfo) (processed_urls : gset string)
    (crawled_content : list CrawledPage) (log : list ui_msg)
  : list CrawledPage * list ui_msg :=
  match urls with
  | [] => (crawled_content, log)
  | url_info :: rest =>
      let url := info_url url_info in
      if bool_decide (url ∈ processed_urls) then
        crawl_loop rest processed_urls crawled_content log
      else
        let processed_urls' := processed_urls ∪ {[url]} in
        match get_website_text_content url with
        | Ok content =>
            if truthy content
               && (100 <? String.length (strip content))%nat
            then
              crawl_loop rest processed_urls'
                (crawled_content ++ [crawled_page url_info content]) log
            else
              crawl_loop rest processed_urls' crawled_content
                (log ++ [UiWarning
                           ("Insufficient content extracted from " +:+ url)])
        | Raise e =>
            crawl_loop rest processed_urls' crawled_content
              (log ++ [UiWarning
                         ("Failed to crawl " +:+ url +:+ ": " +:+ exn_msg e)])
        end
  end.

(** [crawl_depth] is accepted and not used. *)
Definition crawl_urls (urls : list UrlInfo) (crawl_depth : nat)
  : list CrawledPage * list ui_msg :=
  crawl_loop urls ∅ [] [].

End Crawler.

(** Example pages: a long text, the same text padded, and a short one. *)
Definition long_text : string :=
  "Thames Water has confirmed the shortlist for its capital delivery "
  +:+ "framework, covering treatment, networks and tunnelling works "
  +:+ "across the region for the next regulatory period.".

Definition example_fetch : string -> result string :=
  fun url =>
    if String.eqb url "https://a.example/long" then Ok long_text
    else if String.eqb url "https://b.example/short" then Ok "Too short."
    else if String.eqb url "https://c.example/long" then
      Ok ("   " +:+ long_text +:+ nl)
    else Raise (PyExn OtherError
                  ("Network error accessing " +:+ url +:+ ": timed out")).

Definition example_title : string -> string := fun url => "page".

Definition example_urls : list UrlInfo :=
  [UrlDict "https://a.example/long" (Some "") (Some "Direct URL");
   UrlStr "https://down.example/";
   UrlDict "https://b.example/short" (Some "Short") None;
   UrlStr "https://a.example/long";
   UrlDict "https://c.example/long" (Some "Framework") (Some "capital")].

(** ** Page analysis: [analyze_with_openai] *)

(** The three requests made for a page.  Each carries the page's text
    cut to 8000 characters inside a fixed prompt; the token limit, the
    temperature and the JSON mode are fixed by the kind. *)
Inductive ChatKind :=
| SummaryRequest
| EntityRequest
| SentimentRequest.

Record ChatRequest := {
  chat_kind : ChatKind;
  chat_text : string
}.

(** The result for a page: the analysis, or the error record appended by
    the handler. *)
Record Analysis := {
  an_url : string;
  an_title : string;
  an_query : string;
  an_word_count : nat;
  an_summary : option string;
  an_entities : json;
  an_sentiment : json;
  an_timestamp : string
}.

Record AnalysisError := {
  ae_url : string;
  ae_title : string;
  ae_error : string;
  ae_timestamp : string
}.

Inductive AnalysisResult :=
| Analysed (a : Analysis)
| Failed (e : AnalysisError).

Definition result_url (r : AnalysisResult) : string :=
  match r with
  | Analysed a => an_url a
  | Failed e => ae_url e
  end.

Definition result_title (r : AnalysisResult) : string :=
  match r with
  | Analysed a => an_title a
  | Failed e => ae_title e
  end.

(** [response.choices[0].message.content]: a response is the list of the
    contents of its choices. *)
Definition first_choice (choices : list (option string))
  : result (option string) :=
  match choices with
  | content :: _ => Ok content
  | [] => Raise (PyExn IndexError "list index out of range")
  end.

Definition entities_empty : json :=
  JObj {[ "error" := JStr "Empty response from entity extraction" ]}.
Definition entities_failed : json :=
  JObj {[ "error" := JStr "Failed to parse entity extraction" ]}.
Definition sentiment_empty : json :=
  JObj {[ "sentiment" := JStr "Neutral";
          "justification" := JStr "Empty response";
          "confidence" := JFloat 0 ]}.
Definition sentiment_failed : json :=
  JObj {[ "sentiment" := JStr "Neutral";
          "justification" := JStr "Analysis failed";
          "confidence" := JFloat 0 ]}.

Section PageAnalysis.

(** The chat client, [json.loads], and the clock: [strftime n] is
    [time.strftime('%Y-%m-%d %H:%M:%S')] at the [n]-th reading. *)
Variable chat : ChatRequest -> result (list (option string)).
Variable json_loads : string -> result json.
Variable strftime : nat -> string.

(** The two inner [try] blocks: any exception gives the second value,
    an empty content the first. *)
Definition parse_or (empty failed : json) (choices : list (option string))
  : json :=
  match first_choice choices with
  | Ok (Some text) =>
      if truthy text then
        match json_loads text with
        | Ok parsed => parsed
        | Raise _ => failed
        end
      else empty
  | Ok None => empty
  | Raise _ => failed
  end.

(** The [try] body for one page. *)
#[warnings="-abstract-large-number"]
Definition analyze_page (now : string) (item : CrawledPage)
  : result Analysis :=
  let content := slice_to 8000 (c_content item) in
  try! summary_response :=
    chat {| chat_kind := SummaryRequest; chat_text := content |} in
  try! entity_response :=
    chat {| chat_kind := EntityRequest; chat_text := content |} in
  try! sentiment_response :=
    chat {| chat_kind := SentimentRequest; chat_text := content |} in
  let entities := parse_or entities_empty entities_failed entity_response in
  let sentiment :=
    parse_or sentiment_empty sentiment_failed sentiment_response in
  try! summary := first_choice summary_response in
  Ok {| an_url := c_url item;
        an_title := c_title item;
        an_query := c_query item;
        an_word_count := c_word_count item;
        an_summary := summary;
        an_entities := entities;
        an_sentiment := sentiment;
        an_timestamp := now |}.

(** The loop: one result per page, and one clock reading per page. *)
Fixpoint analyze_pages (crawled_data : list CrawledPage) (ticks : nat)
    (analyzed_results : list AnalysisResult) (log : list ui_msg)
  : list AnalysisResult * list ui_msg :=
  match crawled_data with
  | [] => (analyzed_results, log)
  | item :: rest =>
      match analyze_page (strftime ticks) item with
      | Ok a =>
          analyze_pages rest (S ticks) (analyzed_results ++ [Analysed a]) log
      | Raise e =>
          analyze_pages rest (S ticks)
            (analyzed_results
             ++ [Failed {| ae_url := c_url item;
                           ae_title := c_title item;
                           ae_error := exn_msg e;
                           ae_timestamp := strftime ticks |}])
            (log ++ [UiError ("Failed to analyze content from "
                              +:+ c_title item +:+ ": " +:+ exn_msg e)])
      end
  end.

End PageAnalysis.

(** [client] is [self.openai_client] as this function uses it. *)
Definition analyze_with_openai
    (client : option (ChatRequest -> result (list (option string))))
    (json_loads : string -> result json) (strftime : nat -> string)
    (crawled_data : list CrawledPage)
  : list AnalysisResult * list ui_msg :=
  match client with
  | None => ([], [UiError "OpenAI API not configured"])
  | Some chat => analyze_pages chat json_loads strftime crawled_data 0 [] []
  end.

(** ** The scan: [validate_api_keys] and [execute_market_scan] *)

(** The three keys as the secrets, or else the environment, give them. *)
Record ApiKeys := {
  key_openai : option string;
  key_google : option string;
  key_google_cx : option string
}.

Definition key_present (key : option string) : bool :=
  match key with
  | Some k => truthy k
  | None => false
  end.

Definition validate_api_keys (keys : ApiKeys) : bool * list ui_msg :=
  if key_present (key_openai keys) && key_present (key_google keys)
     && key_present (key_google_cx keys)
  then (true, [])
  else (false,
        [UiError "API keys are missing. Please ensure Google Search and OpenAI API keys are configured."]).

(** [s.split(sep)] for a one-character separator. *)
Fixpoint split_on (sep : ascii) (s : string) : list string :=
  match s with
  | EmptyString => [EmptyString]
  | String c r =>
      if Ascii.eqb c sep then EmptyString :: split_on sep r
      else match split_on sep r with
           | w :: ws => String c w :: ws
           | [] => [String c EmptyString]
           end
  end.

(** The entries made from the [direct_urls] text, one url per line. *)
Definition direct_url_list (direct_urls : string) : list UrlInfo :=
  (fun url => UrlDict (strip url) (Some "") (Some "Direct URL"))
  <$> List.filter (fun url => truthy (strip url))
        (split_on "010"%char direct_urls).

(** [execute_google_search(queries, num_results)]: the second argument
    is the integer [num_results] where the function expects the
    configuration, so after the guard on the service, [config.get]
    raises. *)
Definition execute_google_search_with_int (self : MarketScanner)
  : result (list SearchHit) * list ui_msg :=
  match google_service self with
  | None => (Ok [], [UiError "Google Search API not configured"])
  | Some _ =>
      (Raise (PyExn AttributeError "'int' object has no attribute 'get'"), [])
  end.

Definition hit_info (hit : SearchHit) : UrlInfo :=
  UrlDict (h_url hit) (Some (h_title hit)) (Some (h_query hit)).

(** The loop that removes duplicates: the first entry of each url. *)
Fixpoint unique_urls (all_urls : list UrlInfo) (seen_urls : gset string)
  : list UrlInfo :=
  match all_urls with
  | [] => []
  | url_info :: rest =>
      let url := info_url url_info in
      if bool_decide (url ∈ seen_urls) then unique_urls rest seen_urls
      else url_info :: unique_urls rest (seen_urls ∪ {[url]})
  end.

Section Scan.

Variable get_website_text_content : string -> result string.
Variable _extract_title_from_url : string -> string.
Variable chat : option (ChatRequest -> result (list (option string))).
Variable json_loads : string -> result json.
Variable strftime : nat -> string.

(** The whole scan.  The result is the returned list or the exception
    that leaves the function, the messages shown, and the session's
    trigger data as the call leaves it. *)
Definition execute_market_scan (self : MarketScanner) (keys : ApiKeys)
    (config : Config) (refinement_keywords direct_urls : string)
    (num_results crawl_depth : nat) (trigger : option Trigger)
  : result (list AnalysisResult) * list ui_msg * option Trigger :=
  let '(valid, log0) := validate_api_keys keys in
  if negb valid then (Ok [], log0, trigger)
  else
    let direct :=
      if truthy direct_urls then direct_url_list direct_urls else [] in
    let '(searched, log1, trigger1) :=
      if negb (truthy direct_urls) || (length direct <? num_results)%nat
      then
        let '(queries, trigger') :=
          construct_search_queries config refinement_keywords trigger in
        if truthy_list queries then
          let '(found, msgs) := execute_google_search_with_int self in
          (found, log0 ++ msgs, trigger')
        else (Ok [], log0, trigger')
      else (Ok [], log0, trigger) in
    match searched with
    | Raise e => (Raise e, log1, trigger1)
    | Ok search_results =>
        let all_urls := direct ++ (hit_info <$> search_results) in
        if negb (truthy_list all_urls) then
          (Ok [], log1 ++ [UiWarning "No URLs found to crawl"], trigger1)
        else
          let '(crawled_content, log2) :=
            crawl_urls get_website_text_content _extract_title_from_url
              (take num_results (unique_urls all_urls ∅)) crawl_depth in
          if negb (truthy_list crawled_content) then
            (Ok [],
             log1 ++ log2 ++ [UiWarning "No content successfully crawled"],
             trigger1)
          else
            let '(analyzed_results, log3) :=
              analyze_with_openai chat json_loads strftime crawled_content in
            (Ok analyzed_results, log1 ++ log2 ++ log3, trigger1)
    end.

End Scan.

(** The result appended for one page: the analysis, or the error record
    of the handler. *)
Definition page_result (chat : ChatRequest -> result (list (option string)))
    (json_loads : string -> result json) (now : string) (item : CrawledPage)
  : AnalysisResult :=
  match analyze_page chat json_loads now item with
  | Ok a => Analysed a
  | Raise e =>
      Failed {| ae_url := c_url item;
                ae_title := c_title item;
                ae_error := exn_msg e;
                ae_timestamp := now |}
  end.

(** A url is unproductive when its fetch raises or returns a text that
    is empty or has at most 100 characters once stripped. *)
Definition unproductive (fetch : string -> result string) (url : string)
  : Prop :=
  match fetch url with
  | Ok content =>
      content = "" \/ (String.length (strip content) <= 100)%nat
  | Raise _ => True
  end.

(** Example clients, pages and keys for the analysis and the scan. *)
Definition example_chat : ChatRequest -> result (list (option string)) :=
  fun request =>
    match chat_kind request with
    | SummaryRequest => Ok [Some "Framework shortlist confirmed."]
    | EntityRequest => Ok [Some "not json"]
    | SentimentRequest => Ok []
    end.

Definition refusing_loads : string -> result json :=
  fun _ => Raise (PyExn JSONDecodeError
                    "Expecting value: line 1 column 1 (char 0)").

Definition example_strftime : nat -> string :=
  fun _ => "2024-06-01 09:00:00".


Definition full_keys : ApiKeys :=
  {| key_openai := Some "sk-test"; key_google := Some "g-test";
     key_google_cx := Some "cx-1" |}.

Definition example_direct_urls : string :=
  "https://a.example/long" +:+ nl +:+ "  " +:+ nl
  +:+ " https://c.example/long ".

Definition missing_model_key : ApiKeys :=
  {| key_openai := Some ""; key_google := Some "g-test";
     key_google_cx := Some "cx-1" |}.

(** A scanner with both clients configured. *)
Definition configured_scanner : MarketScanner :=
  {| openai_client := Some (fun _ => Ok None);
     google_service := Some (fun _ => Ok {| items := None |}) |}.

(** ** [smart_markets.py]: query builders and alert generation *)

Module SmartMarkets.

(** Messages of the page: those of the scanner, and [st.success]. *)
Inductive page_msg :=
| Shown (m : ui_msg)
| Success (s : string).

Definition geo_filter (config : Config) : string :=
  if list_in "UK" (scope_of config)
  then "site:gov.uk OR site:co.uk OR site:ac.uk"
  else "".

(** [industry_sector] is the key of that name in the configuration
    dictionary, absent from [Config]. *)
Definition build_market_category_queries (category : string)
    (industry_sector : option string) (config : Config) : list string :=
  let industry := default "infrastructure" industry_sector in
  let geo := geo_filter config in
  let queries :=
    if String.eqb category "Infrastructure" then
      [industry +:+ " infrastructure projects UK 2024 " +:+ geo;
       "major infrastructure investment UK " +:+ industry +:+ " " +:+ geo;
       "infrastructure capacity constraints UK " +:+ geo]
    else if String.eqb category "Technology" then
      [industry +:+ " technology innovation UK 2024 " +:+ geo;
       "digital transformation " +:+ industry +:+ " UK " +:+ geo;
       "emerging technology " +:+ industry +:+ " UK " +:+ geo]
    else if String.eqb category "Services" then
      [industry +:+ " consulting services UK market " +:+ geo;
       "service delivery models " +:+ industry +:+ " UK " +:+ geo]
    else if String.eqb category "Materials" then
      [industry +:+ " materials supply chain UK " +:+ geo;
       "material pricing trends UK " +:+ industry +:+ " " +:+ geo]
    else if String.eqb category "Equipment" then
      [industry +:+ " equipment technology UK " +:+ geo;
       "equipment suppliers UK " +:+ industry +:+ " " +:+ geo]
    else [] in
  take 3 queries.

(** The query of one supplier for an intelligence type, if the type is
    one of the five. *)
Definition supplier_query (intel_type supplier geo : string)
  : option string :=
  let name := dquote +:+ supplier +:+ dquote in
  if String.eqb intel_type "Financial Intelligence" then
    Some (name +:+ " investment funding acquisition UK " +:+ geo)
  else if String.eqb intel_type "Regulatory & Compliance" then
    Some (name +:+ " regulation compliance standards UK " +:+ geo)
  else if String.eqb intel_type "Government Programs" then
    Some (name +:+ " government framework tender UK " +:+ geo)
  else if String.eqb intel_type "Innovation Tracking" then
    Some (name +:+ " innovation R&D technology UK " +:+ geo)
  else if String.eqb intel_type "Competitive Intelligence" then
    Some (name +:+ " contract award wins UK " +:+ geo)
  else None.

Definition build_supplier_intelligence_queries (intel_type : string)
    (config : Config) : list string :=
  let suppliers := default [] (suppliers config) in
  let geo := geo_filter config in
  let queries :=
    omap (fun supplier => supplier_query intel_type supplier geo)
      (take 2 suppliers) in
  take 3 queries.

Section Generation.

Variable json_loads : string -> result json.
Variable clock : nat -> Z.

(** The loop that searches one query per call and joins the hits. *)
Fixpoint search_each (scanner : MarketScanner) (api_google_cx : string)
    (queries : list string) (config : Config)
    (search_results : list SearchHit) (log : list page_msg)
  : list SearchHit * list page_msg :=
  match queries with
  | [] => (search_results, log)
  | query :: rest =>
      let '(results, msgs) :=
        execute_google_search scanner api_google_cx [query] config in
      search_each scanner api_google_cx rest config
        (search_results ++ results) (log ++ (Shown <$> msgs))
  end.

(** The body shared by the two generators: search, and when there are
    hits, analyse and store under [alerts_key].  [kind] is the word of
    the messages.  Neither the search nor the analysis raises, so the
    handler of the [try] is never entered. *)
Definition generate_alerts (alerts_key kind : string)
    (queries : list string) (scanner : MarketScanner)
    (api_google_cx : string) (config : Config)
    (session_state : gmap string (list AlertRecord))
  : gmap string (list AlertRecord) * list page_msg :=
  let '(search_results, log) :=
    search_each scanner api_google_cx queries config [] [] in
  if truthy_list search_results then
    let '(analyzed_results, msgs) :=
      analyze_snippets_with_openai json_loads clock scanner search_results
        config in
    (<[alerts_key := analyzed_results]> session_state,
     log ++ (Shown <$> msgs)
     ++ [Success ("Generated " +:+ str_nat (length analyzed_results)
                  +:+ " " +:+ kind +:+ " intelligence alerts")])
  else
    (session_state,
     log ++ [Shown (UiWarning ("No search results found for " +:+ kind
                               +:+ " intelligence"))]).

Definition generate_market_category_alerts (category : string)
    (industry_sector : option string) (scanner : MarketScanner)
    (api_google_cx : string) (config : Config)
    (session_state : gmap string (list AlertRecord))
  : gmap string (list AlertRecord) * list page_msg :=
  generate_alerts (AlertStore.alerts_key category) category
    (build_market_category_queries category industry_sector config)
    scanner api_google_cx config session_state.

Definition generate_supplier_intelligence_alerts (intel_type : string)
    (scanner : MarketScanner) (api_google_cx : string) (config : Config)
    (session_state : gmap string (list AlertRecord))
  : gmap string (list AlertRecord) * list page_msg :=
  generate_alerts (AlertStore.supplier_alerts_key intel_type) intel_type
    (build_supplier_intelligence_queries intel_type config)
    scanner api_google_cx config session_state.

End Generation.

End SmartMarkets.

(** The five market categories that have queries. *)
Definition market_categories_with_queries : list string :=
  ["Infrastructure"; "Technology"; "Services"; "Materials"; "Equipment"].

(** A configuration whose scope is the EU. *)
Definition eu_config : Config :=
  {| geo_focus := None; sub_sectors := None; categories := None;
     keywords := None; geographic_scope := Some ["EU"]; time_range := None;
     suppliers := Some ["Acme Pumps"; "Bolt Valves"; "Crest Pipes"];
     intelligence_types := Some ["Financial Intelligence"];
     market_categories := Some ["Services"] |}.


(** ** [smart_markets.py]: keyword classification of scan results *)

Module Classify.

(** [result.get('content', '').lower()]: only a string has [lower]. *)
Definition content_lower (scan_result : gmap string json) : result string :=
  match default (JStr "") (scan_result !! "content") with
  | JStr s => Ok (lower s)
  | j => Raise (PyExn AttributeError
                  ("'" +:+ Json.type_name j
                   +:+ "' object has no attribute 'lower'"))
  end.

Definition any_term (terms : list string) (content : string) : bool :=
  existsb (fun term => str_in term content) terms.

(** The configuration is accepted and not used. *)
Definition determine_alert_category (scan_result : gmap string json)
  : result string :=
  try! content := content_lower scan_result in
  Ok (if any_term ["regulation"; "compliance"; "standard"; "policy"] content
      then "Regulatory & Compliance"
      else if any_term ["acquisition"; "merger"; "funding"; "investment"]
                content
      then "Financial Intelligence"
      else if any_term ["innovation"; "technology"; "patent"; "r&d"] content
      then "Innovation Tracking"
      else if any_term ["government"; "framework"; "tender"; "procurement"]
                content
      then "Government Programs"
      else "Market Trends").

Definition determine_impact_level (scan_result : gmap string json)
  : result string :=
  try! content := content_lower scan_result in
  let high_impact_terms :=
    ["crisis"; "major"; "significant"; "critical"; "urgent"; "breaking"] in
  let medium_impact_terms :=
    ["important"; "notable"; "update"; "change"; "announcement"] in
  Ok (if any_term high_impact_terms content then "High"
      else if any_term medium_impact_terms content then "Medium"
      else "Low").

(** The alert built by [process_scan_results_to_alerts]. *)
Record ScanAlert := {
  sa_id : nat;
  sa_title : json;
  sa_category : string;
  sa_impact_level : string;
  sa_relevance_score : json;
  sa_timestamp : json;
  sa_source : json;
  sa_summary : json;
  sa_insights : json;
  sa_recommended_actions : json;
  sa_suppliers_mentioned : json;
  sa_url : json
}.

Definition scan_alert (id : nat) (scan_result : gmap string json)
  : result ScanAlert :=
  try! category := determine_alert_category scan_result in
  try! impact_level := determine_impact_level scan_result in
  Ok {| sa_id := id;
        sa_title :=
          default (JStr "Market Intelligence Alert") (scan_result !! "title");
        sa_category := category;
        sa_impact_level := impact_level;
        sa_relevance_score :=
          default (JFloat (7 # 10)) (scan_result !! "relevance_score");
        sa_timestamp := default (JStr "Recent") (scan_result !! "date");
        sa_source :=
          default (JStr "Market Intelligence") (scan_result !! "source");
        sa_summary :=
          default (JStr "Market intelligence update")
            (scan_result !! "summary");
        sa_insights := default (JArr []) (scan_result !! "insights");
        sa_recommended_actions :=
          default (JArr []) (scan_result !! "recommended_actions");
        sa_suppliers_mentioned :=
          default (JArr []) (scan_result !! "suppliers_mentioned");
        sa_url := default (JStr "") (scan_result !! "url") |}.

(** The loop: [i] is the index of the entry, [alerts] the list built so
    far.  An exception leaves the function with the messages shown before
    it. *)
Fixpoint process_entries (i : nat) (entries : list json)
    (alerts : list ScanAlert) (log : list ui_msg)
  : result (list ScanAlert) * list ui_msg :=
  match entries with
  | [] => (Ok alerts, log)
  | entry :: rest =>
      match entry with
      | JObj scan_result =>
          match scan_alert (length alerts + 1) scan_result with
          | Ok alert => process_entries (S i) rest (alerts ++ [alert]) log
          | Raise e => (Raise e, log)
          end
      | _ =>
          process_entries (S i) rest alerts
            (log ++ [UiWarning
                       ("Skipping invalid result at index " +:+ str_nat i
                        +:+ ": <class '" +:+ Json.type_name entry +:+ "'>")])
      end
  end.

Definition process_scan_results_to_alerts (results : json)
  : result (list ScanAlert) * list ui_msg :=
  match results with
  | JArr entries => process_entries 0 entries [] []
  | _ => (Ok [], [UiError "Invalid scan results format"])
  end.

Definition categories_of_classifier : list string :=
  ["Regulatory & Compliance"; "Financial Intelligence";
   "Innovation Tracking"; "Government Programs"; "Market Trends"].

Definition is_dict (j : json) : bool :=
  match j with JObj _ => true | _ => false end.

(** The content of an entry, when it is a dictionary, is a string or is
    absent. *)
Definition content_is_text (j : json) : Prop :=
  forall m, j = JObj m ->
    m !! "content" = None \/ exists s, m !! "content" = Some (JStr s).

Definition example_entries : list json :=
  [JObj {[ "title" := JStr "Ofwat update";
           "content" := JStr "Major REGULATION change announced" ]};
   JStr "stray";
   JObj {[ "title" := JStr "Quiet week" ]};
   JNull;
   JObj {[ "content" := JStr "New funding round for exchange" ]}].

Definition example_scan_results : json := JArr example_entries.

End Classify.

(** ** [smart_markets.py]: pinning, the timeline archive and the view by
       impact *)

Module Pins.

(** [pin_alert]: [pinned] is [st.session_state.pinned_market_alerts],
    [None] when the key is absent.  The result is the list after the
    call and the message shown. *)
Definition pin_alert (alert : AlertRecord)
    (pinned : option (list AlertRecord))
  : list AlertRecord * SmartMarkets.page_msg :=
  let pinned_market_alerts := default [] pinned in
  let alert_id := a_id alert in
  if negb (existsb (fun p => String.eqb (a_id p) alert_id)
             pinned_market_alerts)
  then (pinned_market_alerts ++ [alert],
        SmartMarkets.Success
          ("Intelligence insight #" +:+ alert_id +:+ " pinned!"))
  else (pinned_market_alerts,
        SmartMarkets.Shown (UiWarning "Intelligence insight already pinned!")).

End Pins.

Module Timeline.

(** A timeline entry; the timestamp is a [datetime], here the number of
    microseconds since an epoch. *)
Record TimelineEntry := {
  te_id : string;
  te_timestamp : Z;
  te_title : string;
  te_summary : string;
  te_impact_level : string;
  te_source : string;
  te_category : string;
  te_supplier : string;
  te_url : string;
  te_content : string;
  te_tags : list string
}.

Definition timeline_key (category_name : string) : string :=
  "market_timeline_" +:+ category_name.

Definition archive_key (category_name : string) : string :=
  "archived_timeline_" +:+ category_name.

(** [timedelta(days=90)] in microseconds. *)
Definition ninety_days : Z := 90 * 24 * 60 * 60 * 1000000.

(** [st.session_state[archive_key]] after the initialisation of the
    key. *)
Definition with_archive (category_name : string)
    (session_state : gmap string (list TimelineEntry))
  : gmap string (list TimelineEntry) :=
  match session_state !! archive_key category_name with
  | Some _ => session_state
  | None => <[archive_key category_name := []]> session_state
  end.

Definition append_to_archive (category_name : string) (entry : TimelineEntry)
    (session_state : gmap string (list TimelineEntry))
  : gmap string (list TimelineEntry) :=
  <[archive_key category_name :=
      default [] (session_state !! archive_key category_name) ++ [entry]]>
    session_state.

Definition archive_timeline_entry (entry : TimelineEntry)
    (category_name : string)
    (session_state : gmap string (list TimelineEntry))
  : gmap string (list TimelineEntry) :=
  let state1 :=
    append_to_archive category_name entry
      (with_archive category_name session_state) in
  match state1 !! timeline_key category_name with
  | Some timeline =>
      <[timeline_key category_name :=
          filter (fun item => te_id item <> te_id entry) timeline]> state1
  | None => state1
  end.

(** The loop of [archive_old_entries]. *)
Fixpoint archive_loop (cutoff_date : Z) (category_name : string)
    (timeline_data : list TimelineEntry) (archived_count : nat)
    (session_state : gmap string (list TimelineEntry))
  : nat * gmap string (list TimelineEntry) :=
  match timeline_data with
  | [] => (archived_count, session_state)
  | entry :: rest =>
      if (te_timestamp entry <? cutoff_date)%Z then
        archive_loop cutoff_date category_name rest (S archived_count)
          (append_to_archive category_name entry session_state)
      else
        archive_loop cutoff_date category_name rest archived_count
          session_state
  end.

(** [now] is [datetime.now()]. *)
Definition archive_old_entries (now : Z)
    (timeline_data : list TimelineEntry) (category_name : string)
    (session_state : gmap string (list TimelineEntry))
  : nat * gmap string (list TimelineEntry) :=
  archive_loop (now - ninety_days) category_name timeline_data 0
    (with_archive category_name session_state).

Definition clear_timeline_data (category_name : string)
    (session_state : gmap string (list TimelineEntry))
  : gmap string (list TimelineEntry) :=
  match session_state !! timeline_key category_name with
  | Some _ => <[timeline_key category_name := []]> session_state
  | None => session_state
  end.

Definition is_old (now : Z) (entry : TimelineEntry) : bool :=
  (te_timestamp entry <? now - ninety_days)%Z.

End Timeline.

Module Views.

(** [impact in impact_levels]: the key must be hashable, which a list
    and a dictionary are not. *)
Definition impact_group (impact : json) : result (option string) :=
  match impact with
  | JArr _ => Raise (PyExn TypeError "unhashable type: 'list'")
  | JObj _ => Raise (PyExn TypeError "unhashable type: 'dict'")
  | JStr s => Ok (if list_in s ["High"; "Medium"; "Low"] then Some s else None)
  | _ => Ok None
  end.

(** The grouping loop of [render_alerts_by_impact]: the lists of the
    three levels. *)
Fixpoint group_by_impact (alerts : list AlertRecord)
    (high medium low : list AlertRecord)
  : result (list AlertRecord * list AlertRecord * list AlertRecord) :=
  match alerts with
  | [] => Ok (high, medium, low)
  | alert :: rest =>
      try! group := impact_group (a_impact_level alert) in
      match group with
      | Some level =>
          if String.eqb level "High" then
            group_by_impact rest (high ++ [alert]) medium low
          else if String.eqb level "Medium" then
            group_by_impact rest high (medium ++ [alert]) low
          else group_by_impact rest high medium (low ++ [alert])
      | None => group_by_impact rest high medium low
      end
  end.

(** The sections shown: a level and its alerts, for the levels that have
    alerts, in the order High, Medium, Low. *)
Definition render_alerts_by_impact (alerts : list AlertRecord)
  : result (list (string * list AlertRecord)) :=
  try! groups := group_by_impact alerts [] [] [] in
  let '(high, medium, low) := groups in
  Ok (List.filter (fun section => truthy_list (snd section))
        [("High", high); ("Medium", medium); ("Low", low)]).

Definition shown_alerts (sections : list (string * list AlertRecord))
  : list AlertRecord :=
  concat (snd <$> sections).

End Views.

(** The alert's impact level is the string [level]. *)
Definition has_level (level : string) (alert : AlertRecord) : bool :=
  match a_impact_level alert with
  | JStr s => String.eqb s level
  | _ => false
  end.

(** Example alerts and timeline entries. *)
Definition critical_alert : AlertRecord :=
  {| a_id := "insight_1717000000_0"; a_title := JStr "Tariff shock";
     a_category := JStr "Sports"; a_impact_level := JStr "Critical";
     a_summary := JStr ""; a_insights := JArr [];
     a_recommended_actions := JArr []; a_suppliers_mentioned := JArr [];
     a_relevance_score := JInt 5; a_source := "www.gov.uk";
     a_url := "https://www.gov.uk/guidance/water-resources";
     a_timestamp := "Recent"; a_intelligence_type := JStr "Sports" |}.

Definition low_alert : AlertRecord :=
  fallback_result 1717000000 1
    (search_result us_item "2024-05-01" "water infrastructure").

Definition timeline_entry (id : string) (timestamp : Z)
  : Timeline.TimelineEntry :=
  {| Timeline.te_id := id; Timeline.te_timestamp := timestamp;
     Timeline.te_title := "Kier Group - Contract Win";
     Timeline.te_summary := "Important intelligence";
     Timeline.te_impact_level := "High";
     Timeline.te_source := "Construction News";
     Timeline.te_category := "Infrastructure";
     Timeline.te_supplier := "Kier Group";
     Timeline.te_url := "https://example.com/news/0";
     Timeline.te_content := "Detailed analysis";
     Timeline.te_tags := ["infrastructure"] |}.

(** ** [smart_markets.py]: the report's [analyze_market_intelligence] *)

Module Report.

Record MarketData := {
  total_sources : nat;
  successful_analyses : nat;
  companies : list json;
  technologies : list json;
  financial_figures : list json;
  risks_opportunities : list json;
  market_challenges : list string;
  positive_indicators : list string;
  negative_indicators : list string;
  key_projects : list json;
  market_sentiment : string
}.

(** [j == s] for a string [s]. *)
Definition is_str (j : json) (s : string) : bool :=
  match j with
  | JStr t => String.eqb t s
  | _ => false
  end.

(** [entities.get(key, [])] as [list.extend] iterates it. *)
Definition entity_list (entities : json) (key : string)
  : result (list json) :=
  try! value := Json.get entities key (JArr []) in
  Json.iter value.

(** [result.get('summary', '')] and its [lower()]: the key is there, and
    holds [None] when the model returned no content. *)
Definition summary_lower (a : Analysis) : result string :=
  match an_summary a with
  | Some s => Ok (lower s)
  | None => Raise (PyExn AttributeError
                     "'NoneType' object has no attribute 'lower'")
  end.

Definition challenge_words : list string :=
  ["shortage"; "challenge"; "decline"; "pressure"; "risk"].

(** The body of the first loop for one analysed result. *)
Definition add_result (a : Analysis) (md : MarketData) : result MarketData :=
  try! new_companies := entity_list (an_entities a) "companies" in
  try! new_technologies := entity_list (an_entities a) "technologies" in
  try! new_figures := entity_list (an_entities a) "financial_figures" in
  try! new_risks := entity_list (an_entities a) "risks_opportunities" in
  try! new_projects := entity_list (an_entities a) "projects" in
  try! summary := summary_lower a in
  let text := default "" (an_summary a) in
  try! sentiment := Json.get (an_sentiment a) "sentiment" JNull in
  Ok {| total_sources := total_sources md;
        successful_analyses := successful_analyses md;
        companies := companies md ++ new_companies;
        technologies := technologies md ++ new_technologies;
        financial_figures := financial_figures md ++ new_figures;
        risks_opportunities := risks_opportunities md ++ new_risks;
        market_challenges :=
          if existsb (fun word => str_in word summary) challenge_words
          then market_challenges md ++ [text] else market_challenges md;
        positive_indicators :=
          if is_str sentiment "Positive"
          then positive_indicators md ++ [text] else positive_indicators md;
        negative_indicators :=
          if is_str sentiment "Positive" then negative_indicators md
          else if is_str sentiment "Negative"
          then negative_indicators md ++ [text] else negative_indicators md;
        key_projects := key_projects md ++ new_projects;
        market_sentiment := market_sentiment md |}.

Fixpoint add_results (results : list AnalysisResult) (md : MarketData)
  : result MarketData :=
  match results with
  | [] => Ok md
  | Analysed a :: rest =>
      try! md' := add_result a md in
      add_results rest md'
  | Failed _ :: rest => add_results rest md
  end.

Definition is_analysed (r : AnalysisResult) : bool :=
  match r with Analysed _ => true | Failed _ => false end.

(** The list [sentiments] of the second part. *)
Fixpoint sentiments_of (results : list AnalysisResult)
  : result (list json) :=
  match results with
  | [] => Ok []
  | Analysed a :: rest =>
      try! sentiment := Json.get (an_sentiment a) "sentiment" (JStr "Neutral") in
      try! others := sentiments_of rest in
      Ok (sentiment :: others)
  | Failed _ :: rest => sentiments_of rest
  end.

Definition count_str (s : string) (l : list json) : nat :=
  length (List.filter (fun j => is_str j s) l).

Definition analyze_market_intelligence (results : list AnalysisResult)
  : result MarketData :=
  let market_data :=
    {| total_sources := length results;
       successful_analyses := length (List.filter is_analysed results);
       companies := []; technologies := []; financial_figures := [];
       risks_opportunities := []; market_challenges := [];
       positive_indicators := []; negative_indicators := [];
       key_projects := []; market_sentiment := "Neutral" |} in
  try! md := add_results results market_data in
  try! sentiments := sentiments_of results in
  let positive_count := count_str "Positive" sentiments in
  let negative_count := count_str "Negative" sentiments in
  let overall :=
    if truthy_list sentiments then
      if (negative_count <? positive_count)%nat then "Positive"
      else if (positive_count <? negative_count)%nat then "Negative"
      else market_sentiment md
    else market_sentiment md in
  Ok {| total_sources := total_sources md;
        successful_analyses := successful_analyses md;
        companies := companies md;
        technologies := technologies md;
        financial_figures := financial_figures md;
        risks_opportunities := risks_opportunities md;
        market_challenges := market_challenges md;
        positive_indicators := positive_indicators md;
        negative_indicators := negative_indicators md;
        key_projects := key_projects md;
        market_sentiment := overall |}.

End Report.

(** Example analysis results: two analysed pages and a failed one. *)
Definition example_analysis (summary : option string) (sentiment : json)
  : AnalysisResult :=
  Analysed {| an_url := "https://a.example/long"; an_title := "page";
              an_query := "Direct URL"; an_word_count := 25;
              an_summary := summary;
              an_entities :=
                JObj {[ "companies" := JArr [JStr "Kier"; JStr "Skanska"] ]};
              an_sentiment := sentiment;
              an_timestamp := "2024-06-01 09:00:00" |}.

Definition example_failure : AnalysisResult :=
  Failed {| ae_url := "https://down.example/"; ae_title := "down";
            ae_error := "Connection error.";
            ae_timestamp := "2024-06-01 09:00:00" |}.

Definition example_report_input : list AnalysisResult :=
  [example_analysis (Some "Supply pressure is easing")
     (JObj {[ "sentiment" := JStr "Positive" ]});
   example_failure;
   example_analysis (Some "Orders decline") sentiment_failed;
   example_analysis (Some "Framework awarded")
     (JObj {[ "sentiment" := JStr "Positive" ]})].
(** * Properties *)

(** ** The primitives on examples *)

Example lower_example : lower "Thames Water (UK) 2024" = "thames water (uk) 2024".
Proof. reflexivity. Qed.

Example str_in_example :
  str_in "uk" (lower "Ukraine") = true /\ str_in "usa" "waterworld.us/p" = false.
Proof. split; reflexivity. Qed.

Example join_example : join ", " ["a"; "b"; "c"] = "a, b, c".
Proof. reflexivity. Qed.

Example slice_to_example :
  slice_to 3 "abcdef" = "abc" /\ slice_to 200 "abc" = "abc".
Proof. split; reflexivity. Qed.

Example str_int_example : str_int 1717000000 = "1717000000".
Proof. reflexivity. Qed.

Example enhanced_query_example :
  String.length (enhanced_query ["UK"] "pumps") = 72%nat
  /\ enhanced_query ["EU"] "pumps" = "pumps".
Proof. split; reflexivity. Qed.

(** ** Substring test *)


Lemma append_cons (c : ascii) (s t : string) :
  String c s +:+ t = String c (s +:+ t).
Proof. reflexivity. Qed.

Lemma prefix_spec (needle hay : string) :
  String.prefix needle hay = true <-> exists post, hay = needle +:+ post.
Proof.
  revert hay. induction needle as [|a needle IH]; intros hay.
  - destruct hay; split; eauto.
  - destruct hay as [|b hay]; cbn [String.prefix].
    + split; [discriminate | intros [post H]; discriminate].
    + destruct (ascii_dec a b) as [->|Hne].
      * rewrite IH. split; intros [post H]; exists post;
          rewrite append_cons in *; congruence.
      * split; [discriminate|].
        intros [post H]. rewrite append_cons in H. congruence.
Qed.

Lemma str_in_spec (needle hay : string) :
  str_in needle hay = true <-> occurs_in needle hay.
Proof.
  unfold occurs_in. induction hay as [|c hay IH].
  - cbn [str_in]. rewrite orb_false_r, prefix_spec. split.
    + intros [post H]. exists "", post. exact H.
    + intros [[|c pre] [post H]]; [eauto | discriminate].
  - cbn [str_in]. rewrite orb_true_iff, prefix_spec, IH. split.
    + intros [[post H] | (pre & post & H)].
      * exists "", post. exact H.
      * exists (String c pre), post. rewrite append_cons. congruence.
    + intros ([|c' pre] & post & H).
      * left. eauto.
      * right. exists pre, post. rewrite append_cons in H. congruence.
Qed.

Lemma list_in_spec (x : string) (l : list string) :
  list_in x l = true <-> x ∈ l.
Proof.
  unfold list_in. rewrite existsb_exists. split.
  - intros (y & Hy & Heq). apply String.eqb_eq in Heq. subst.
    apply list_elem_of_In. exact Hy.
  - intros Hx. exists x. split; [apply list_elem_of_In; exact Hx|].
    apply String.eqb_refl.
Qed.

Lemma list_in_false (x : string) (l : list string) :
  list_in x l = false <-> x ∉ l.
Proof.
  rewrite <- list_in_spec. destruct (list_in x l); split; intros H; congruence.
Qed.

Lemma str_in_false (needle hay : string) :
  str_in needle hay = false <-> ~ occurs_in needle hay.
Proof.
  rewrite <- str_in_spec. destruct (str_in needle hay); split; intros H; congruence.
Qed.

Lemma existsb_str_in_false (tokens : list string) (hay : string) :
  Forall (fun token => ~ occurs_in token hay) tokens ->
  existsb (fun token => str_in token hay) tokens = false.
Proof.
  induction 1 as [|token tokens Hno _ IH]; simpl; [reflexivity|].
  apply str_in_false in Hno. rewrite Hno, IH. reflexivity.
Qed.


(** ** Relevance filter *)

Lemma uk_scope_active (scope : list string) :
  "UK" ∈ scope -> negb (list_in "UK" scope) = false.
Proof. intros H. apply list_in_spec in H. rewrite H. reflexivity. Qed.

Lemma existsb_indicator_false (url text : string) :
  Forall (fun indicator =>
            ~ occurs_in indicator url /\ ~ occurs_in indicator text)
    non_uk_indicators ->
  existsb (fun indicator => str_in indicator url || str_in indicator text)
    non_uk_indicators = false.
Proof.
  induction 1 as [|indicator rest [Hu Ht] _ IH]; simpl; [reflexivity|].
  apply str_in_false in Hu, Ht. rewrite Hu, Ht, IH. reflexivity.
Qed.

(** C3.  With the UK scope active, a hit whose url holds no UK domain,
    whose title and snippet hold no UK keyword, and whose url and text
    hold no exclusion token is kept: the filter's default is [true]. *)
Theorem ambiguous_hit_is_kept (item : RawItem) (scope : list string) :
  "UK" ∈ scope ->
  Forall (fun domain => ~ occurs_in domain (item_url item)) uk_domains ->
  Forall (fun keyword => ~ occurs_in keyword (item_title_snippet item))
    uk_keywords ->
  Forall (fun indicator =>
            ~ occurs_in indicator (item_url item)
            /\ ~ occurs_in indicator (item_title_snippet item))
    non_uk_indicators ->
  _is_uk_relevant item scope = true.
Proof.
  intros Hscope Hdom Hkey Hind. unfold _is_uk_relevant.
  rewrite (uk_scope_active _ Hscope).
  rewrite (existsb_str_in_false _ _ Hdom), (existsb_str_in_false _ _ Hkey).
  rewrite (existsb_indicator_false _ _ Hind). reflexivity.
Qed.

Lemma ambiguous_hit_is_kept_witness :
  _is_uk_relevant ambiguous_item ["UK"] = true.
Proof.
  apply ambiguous_hit_is_kept.
  - apply list_in_spec. reflexivity.
  - repeat constructor; apply str_in_false; reflexivity.
  - repeat constructor; apply str_in_false; reflexivity.
  - repeat constructor; apply str_in_false; reflexivity.
Defined.

(** C10.  With the UK scope active, a hit whose lower-cased title and
    snippet hold the two characters [uk] anywhere is kept, whatever else
    the hit holds; the keyword test comes before the exclusion test, so an
    exclusion token in the same text does not drop it. *)
Theorem uk_substring_is_kept (item : RawItem) (scope : list string) :
  "UK" ∈ scope ->
  occurs_in "uk" (item_title_snippet item) ->
  _is_uk_relevant item scope = true.
Proof.
  intros Hscope Huk. unfold _is_uk_relevant.
  rewrite (uk_scope_active _ Hscope).
  destruct (existsb _ uk_domains); [reflexivity|].
  assert (existsb (fun keyword => str_in keyword (item_title_snippet item))
            uk_keywords = true) as ->; [|reflexivity].
  apply existsb_exists. exists "uk". split.
  - unfold uk_keywords. simpl. tauto.
  - apply str_in_spec. exact Huk.
Qed.


Lemma uk_substring_is_kept_witness :
  occurs_in "united states" (item_title_snippet ukraine_item)
  /\ _is_uk_relevant ukraine_item ["UK"] = true.
Proof.
  split.
  - apply str_in_spec. reflexivity.
  - apply uk_substring_is_kept.
    + apply list_in_spec. reflexivity.
    + exists "", "raine grain exports shipments to the united states rise".
      reflexivity.
Defined.

(** ** Query builder *)

(** The component list always ends with the three fixed terms, so the
    branch of the default query is never taken. *)
Lemma base_components_truthy (config : Config) (kw : string) :
  truthy_list (base_components config kw) = true.
Proof.
  unfold base_components.
  repeat match goal with
         | |- truthy_list (?l ++ _) = true => destruct l; [simpl|reflexivity]
         end.
  reflexivity.
Qed.

(** With no geography, sectors, categories, keywords or refinement
    keywords, the builder returns the three fixed terms joined, and
    nothing else. *)
Lemma zero_components_single_query (config : Config) :
  geo_focus config = None \/ geo_focus config = Some "" ->
  sub_sectors config = None \/ sub_sectors config = Some [] ->
  categories config = None \/ categories config = Some [] ->
  keywords config = None \/ keywords config = Some "" ->
  construct_search_queries config "" None
  = (["built assets construction infrastructure"], None).
Proof.
  intros [Hg|Hg] [Hs|Hs] [Hc|Hc] [Hk|Hk];
    unfold construct_search_queries, base_components;
    rewrite Hg, Hs, Hc, Hk; reflexivity.
Qed.

(** C4.  On the configuration with no component the builder returns one
    query, [built assets construction infrastructure]: it names the domain
    terms but no geography.  The default query that names the UK sits in a
    branch which [base_components_truthy] shows is never taken. *)
Theorem empty_config_query_lacks_geography :
  construct_search_queries empty_config "" None
  = (["built assets construction infrastructure"], None)
  /\ ~ occurs_in "UK" "built assets construction infrastructure"
  /\ ~ occurs_in "uk" (lower "built assets construction infrastructure").
Proof.
  split; [reflexivity|].
  split; apply str_in_false; reflexivity.
Qed.

(** C9, as stated, fails: a trigger whose type is not [sourcing_package]
    is present, yet the builder returns the three queries of the standing
    configuration, none built from the trigger's name, and leaves the
    trigger in place. *)
Lemma trigger_of_other_type_is_not_used :
  construct_search_queries uk_config "" (Some review_trigger)
  = (["UK Infrastructure built assets construction infrastructure";
      "UK Infrastructure market analysis 2024";
      "UK procurement suppliers trends"],
     Some review_trigger)
  /\ construct_search_queries uk_config "" (Some review_trigger)
     = (fst (construct_search_queries uk_config "" None), Some review_trigger).
Proof. split; reflexivity. Qed.

(** C9, amended.  A trigger of type [sourcing_package] yields exactly one
    query, built from its name and category, and is cleared; the next call
    then builds its queries from the standing configuration. *)
Theorem sourcing_package_trigger_fires_once (config : Config) (kw : string)
    (trigger : Trigger) :
  t_type trigger = "sourcing_package" ->
  let first_call := construct_search_queries config kw (Some trigger) in
  let second_call := construct_search_queries config kw (snd first_call) in
  first_call
  = ([t_name trigger +:+ " " +:+ t_category trigger
      +:+ " market trends suppliers UK"], None)
  /\ second_call
     = (take 3 (queries_of_components (base_components config kw)), None).
Proof.
  intros Htype. unfold construct_search_queries.
  rewrite Htype. simpl. split; reflexivity.
Qed.

Lemma sourcing_package_trigger_fires_once_witness :
  construct_search_queries uk_config "" (Some package_trigger)
  = (["Mains Renewal Lot 2 Civils market trends suppliers UK"], None)
  /\ construct_search_queries uk_config ""
       (snd (construct_search_queries uk_config "" (Some package_trigger)))
     = (["UK Infrastructure built assets construction infrastructure";
         "UK Infrastructure market analysis 2024";
         "UK procurement suppliers trends"], None).
Proof.
  destruct (sourcing_package_trigger_fires_once uk_config "" package_trigger)
    as [H1 H2]; [reflexivity|].
  split; [exact H1 | exact H2].
Defined.

(** ** Search retrieval *)

Example extract_date_examples :
  _extract_date_from_result gov_item = Ok "Recent"
  /\ _extract_date_from_result dated_item = Ok "2024-12-19"
  /\ _extract_date_from_result broken_item
     = Raise (PyExn IndexError "list index out of range").
Proof. repeat split; reflexivity. Qed.

(** A failure while an item is processed ends that query only, and keeps
    the hits appended before it. *)
Example item_failure_example :
  collect_items ["UK"] "price review" [dated_item; broken_item; gov_item] []
  = ([search_result dated_item "2024-12-19" "price review"],
     Some (PyExn IndexError "list index out of range")).
Proof. reflexivity. Qed.

Section Retrieval.

Variable service : SearchParams -> result SearchResponse.
Variables (scope : list string) (date_restrict cx : string).

(** The item loop only appends to the list it is given. *)
Lemma collect_items_acc (query : string) (its : list RawItem)
    (acc : list SearchHit) :
  collect_items scope query its acc
  = (acc ++ fst (collect_items scope query its []),
     snd (collect_items scope query its [])).
Proof.
  revert acc. induction its as [|item rest IH]; intros acc; simpl.
  - rewrite app_nil_r. reflexivity.
  - destruct (_is_uk_relevant item scope); [|apply IH].
    destruct (_extract_date_from_result item) as [date|e]; simpl.
    + rewrite IH, (IH [_]). simpl. rewrite <- app_assoc. reflexivity.
    + rewrite app_nil_r. reflexivity.
Qed.

Lemma search_query_acc (query : string) (acc : list SearchHit)
    (log : list ui_msg) :
  search_query service scope date_restrict cx query acc log
  = (acc ++ fst (search_query service scope date_restrict cx query [] []),
     log ++ snd (search_query service scope date_restrict cx query [] [])).
Proof.
  unfold search_query.
  destruct (service _) as [response|e]; simpl.
  - destruct (items response) as [its|]; simpl.
    + rewrite collect_items_acc.
      destruct (collect_items scope query its []) as [found [e|]]; simpl;
        rewrite ?app_nil_r; reflexivity.
    + rewrite !app_nil_r. reflexivity.
  - rewrite app_nil_r. reflexivity.
Qed.

Lemma search_queries_acc (queries : list string) (acc : list SearchHit)
    (log : list ui_msg) :
  search_queries service scope date_restrict cx queries acc log
  = (acc ++ fst (search_queries service scope date_restrict cx queries [] []),
     log ++ snd (search_queries service scope date_restrict cx queries [] [])).
Proof.
  revert acc log. induction queries as [|query rest IH]; intros acc log.
  - simpl. rewrite !app_nil_r. reflexivity.
  - cbn [search_queries].
    rewrite (search_query_acc query acc log).
    destruct (search_query service scope date_restrict cx query [] [])
      as [found msgs] eqn:Hq.
    cbn [fst snd]. rewrite IH, (IH found msgs). cbn [fst snd].
    rewrite !app_assoc. reflexivity.
Qed.

(** Retrieval works query by query: the hits and the messages of a
    batch are those of its parts, in order. *)
Lemma search_queries_app (qs1 qs2 : list string) :
  search_queries service scope date_restrict cx (qs1 ++ qs2) [] []
  = (fst (search_queries service scope date_restrict cx qs1 [] [])
     ++ fst (search_queries service scope date_restrict cx qs2 [] []),
     snd (search_queries service scope date_restrict cx qs1 [] [])
     ++ snd (search_queries service scope date_restrict cx qs2 [] [])).
Proof.
  induction qs1 as [|query rest IH].
  - simpl. destruct (search_queries _ _ _ _ qs2 [] []). reflexivity.
  - cbn [app search_queries].
    destruct (search_query service scope date_restrict cx query [] [])
      as [found msgs] eqn:Hq.
    rewrite (search_queries_acc (rest ++ qs2)), (search_queries_acc rest).
    rewrite IH. cbn [fst snd]. rewrite !app_assoc. reflexivity.
Qed.


End Retrieval.





(** Without a UK domain or keyword, the hit is dropped exactly when an
    exclusion token occurs in its url or text. *)
Lemma exclusion_decides (item : RawItem) (scope : list string) :
  "UK" ∈ scope ->
  Forall (fun domain => ~ occurs_in domain (item_url item)) uk_domains ->
  Forall (fun keyword => ~ occurs_in keyword (item_title_snippet item))
    uk_keywords ->
  _is_uk_relevant item scope = false
  <-> Exists (fun indicator =>
                occurs_in indicator (item_url item)
                \/ occurs_in indicator (item_title_snippet item))
        non_uk_indicators.
Proof.
  intros Hscope Hdom Hkey. unfold _is_uk_relevant.
  rewrite (uk_scope_active _ Hscope).
  rewrite (existsb_str_in_false _ _ Hdom), (existsb_str_in_false _ _ Hkey).
  rewrite Exists_exists.
  destruct (existsb _ non_uk_indicators) eqn:Hex.
  - split; [intros _|reflexivity].
    apply existsb_exists in Hex as (indicator & Hin & Hor).
    exists indicator. split; [apply list_elem_of_In; exact Hin|].
    apply orb_true_iff in Hor. rewrite !str_in_spec in Hor. exact Hor.
  - split; [discriminate|]. intros (indicator & Hin & Hor).
    assert (existsb (fun indicator =>
                       str_in indicator (item_url item)
                       || str_in indicator (item_title_snippet item))
              non_uk_indicators = true) as Htrue; [|congruence].
    apply existsb_exists. exists indicator.
    split; [apply list_elem_of_In; exact Hin|].
    apply orb_true_iff. rewrite !str_in_spec. exact Hor.
Qed.



(** The hit under [.gov.uk] is lost when its date cannot be read: its
    [pagemap] maps [article] to an empty list, the query ends there, and
    the hit under [.us] is not reached. *)
Lemma unreadable_date_loses_the_hits :
  occurs_in ".gov.uk" (item_url broken_item)
  /\ _is_uk_relevant broken_item ["UK"] = true
  /\ execute_google_search unreadable_date_scanner "cx-1"
       ["water infrastructure"] uk_config
     = ([],
        [UiError "Unexpected error during search: list index out of range"]).
Proof.
  split; [apply str_in_spec; reflexivity|]. split; reflexivity.
Qed.

(** ** Insight extractor *)

(** A built record comes from an object, and copies its fields. *)
Lemma processed_result_ok (hits : list SearchHit) (now : Z) (i : nat)
    (insight : json) (r : AlertRecord) :
  processed_result hits now i insight = Ok r ->
  exists m,
    insight = JObj m
    /\ a_relevance_score r = default (JFloat (7 # 10)) (m !! "relevance_score")
    /\ a_impact_level r = default (JStr "Medium") (m !! "impact_level")
    /\ a_category r = default (JStr "Market Trends") (m !! "category")
    /\ (hits <> [] ->
        exists hit,
          hits !! (i mod length hits)%nat = Some hit
          /\ a_source r = h_source hit
          /\ a_url r = h_url hit
          /\ a_timestamp r = h_date hit).
Proof.
  intros H. destruct insight; try discriminate H.
  exists m. split; [reflexivity|].
  unfold processed_result in H. cbn [Json.get Py.bind] in H.
  injection H as <-. cbn.
  repeat split; try reflexivity.
  intros Hne. destruct hits as [|hit0 rest]; [contradiction|].
  cbn [truthy_list].
  destruct (lookup_lt_is_Some_2 (hit0 :: rest) (i mod length (hit0 :: rest))%nat)
    as [hit Hhit].
  { apply Nat.mod_upper_bound. discriminate. }
  exists hit. rewrite Hhit. repeat split; reflexivity.
Qed.

Lemma processed_result_object (hits : list SearchHit) (now : Z) (i : nat)
    (m : gmap string json) :
  exists r, processed_result hits now i (JObj m) = Ok r.
Proof. eexists. reflexivity. Qed.

Section ExtractorFacts.

Variable json_loads : string -> result json.
Variable clock : nat -> Z.

(** The handler appends one fallback record per hit. *)
Lemma fallback_results_spec (hits : list SearchHit) (i : nat)
    (acc : list AlertRecord) (ticks : nat) :
  fallback_results clock i hits acc ticks
  = acc ++ imap (fun k hit =>
                   fallback_result (clock (ticks + k)) (i + k) hit) hits.
Proof.
  revert i acc ticks. induction hits as [|hit rest IH]; intros i acc ticks.
  - simpl. rewrite app_nil_r. reflexivity.
  - cbn [fallback_results imap]. rewrite IH, <- app_assoc. cbn [app].
    rewrite !Nat.add_0_r. do 2 f_equal.
    apply imap_ext. intros k x _. cbn.
    rewrite !Nat.add_succ_r. reflexivity.
Qed.

(** Whatever the loop returns, it is the list it was given followed by
    records built from insights of the answer. *)
Lemma process_insights_sound (hits : list SearchHit) (insights : list json)
    (i : nat) (acc : list AlertRecord) (ticks : nat) :
  exists built,
    (process_insights clock hits i insights acc ticks).1.1 = acc ++ built
    /\ Forall (fun r => exists insight now idx,
                  insight ∈ insights
                  /\ processed_result hits now idx insight = Ok r) built.
Proof.
  revert i acc ticks.
  induction insights as [|insight rest IH]; intros i acc ticks.
  - exists []. simpl. rewrite app_nil_r. split; constructor.
  - cbn [process_insights].
    destruct (processed_result hits (clock ticks) i insight) as [r|e] eqn:Hr.
    + destruct (IH (S i) (acc ++ [r]) (S ticks)) as (built & Heq & Hall).
      exists (r :: built). split.
      * rewrite Heq, <- app_assoc. reflexivity.
      * constructor.
        -- exists insight, (clock ticks), i. split; [left|exact Hr].
        -- eapply Forall_impl; [exact Hall|].
           intros r' (j & now & idx & Hin & Hok).
           exists j, now, idx. split; [right; exact Hin|exact Hok].
    + exists []. simpl. rewrite app_nil_r. split; constructor.
Qed.


End ExtractorFacts.

Lemma fallback_result_well_formed (enum : list string) (now : Z) (i : nat)
    (hit : SearchHit) :
  "Market Trends" ∈ enum -> well_formed enum (fallback_result now i hit).
Proof.
  intros Henum. unfold well_formed. cbn. repeat split.
  - unfold Qle. simpl. lia.
  - unfold Qle. simpl. lia.
  - apply list_in_spec. reflexivity.
  - exact Henum.
Qed.

(** C1, as stated, fails: the model's answer is copied without any
    check.  An answer whose insight has score 5, impact level [Critical]
    and category [Sports] gives an alert with exactly these values. *)
Lemma model_values_are_not_validated :
  exists r,
    fst (analyze_snippets_with_openai
           (loads_table bad_answer_text bad_answer) fixed_clock
           (scanner_answering bad_answer_text) example_hits uk_config)
    = [r]
    /\ a_relevance_score r = JInt 5
    /\ a_impact_level r = JStr "Critical"
    /\ a_category r = JStr "Sports"
    /\ ~ score_in_unit (a_relevance_score r)
    /\ ~ one_of impact_levels (a_impact_level r)
    /\ ~ one_of (context_enum uk_config) (a_category r)
    /\ ~ well_formed (context_enum uk_config) r.
Proof.
  eexists. split; [vm_compute; reflexivity|]. cbn.
  split; [reflexivity|]. split; [reflexivity|]. split; [reflexivity|].
  assert (~ (0 <= 5 <= 1)%Z) as Hscore by lia.
  split; [exact Hscore|].
  split; [apply list_in_false; reflexivity|].
  split; [apply list_in_false; reflexivity|].
  intros [H _]. exact (Hscore H).
Qed.

(** The fallback category is outside the supplier enumeration: in a
    supplier scan every fallback record breaks the category invariant. *)
Lemma fallback_category_not_supplier (now : Z) (i : nat) (hit : SearchHit) :
  ~ one_of (context_enum supplier_config)
      (a_category (fallback_result now i hit)).
Proof. apply list_in_false. reflexivity. Qed.

(** C1, amended.  The extractor is a total function: for every hit list,
    configuration, client, parser and clock it returns a list of alerts.
    The alerts satisfy the invariants, for an enumeration that holds
    [Market Trends], whenever every insight object of the model's answer
    does: the fallback records carry 0.6, [Medium] and [Market Trends],
    and the others carry the answer's values, or 0.7, [Medium] and
    [Market Trends] for a missing key. *)
Theorem extraction_well_formed_when_answer_is
    (json_loads : string -> result json) (clock : nat -> Z)
    (self : MarketScanner) (hits : list SearchHit) (config : Config)
    (enum : list string) :
  "Market Trends" ∈ enum ->
  (forall client insights,
      openai_client self = Some client ->
      model_insights json_loads client (build_prompt config hits)
      = Ok insights ->
      Forall (valid_insight enum) insights) ->
  Forall (well_formed enum)
    (fst (analyze_snippets_with_openai json_loads clock self hits config)).
Proof.
  intros Henum Hvalid. unfold analyze_snippets_with_openai.
  destruct (openai_client self) as [client|]; [|constructor].
  assert (Forall (well_formed enum)
            (imap (fun k hit => fallback_result (clock k) k hit) hits))
    as Hfb0.
  { apply Forall_lookup. intros k r Hk. rewrite list_lookup_imap in Hk.
    destruct (hits !! k) as [hit|]; [|discriminate].
    injection Hk as <-. apply fallback_result_well_formed, Henum. }
  destruct (model_insights json_loads client (build_prompt config hits))
    as [insights|e] eqn:Hmodel.
  - specialize (Hvalid client insights eq_refl Hmodel).
    destruct (process_insights_sound clock hits insights 0 [] 0)
      as (built & Hbuilt & Hfrom).
    assert (Forall (well_formed enum) built) as Hwf.
    { eapply Forall_impl; [exact Hfrom|].
      intros r (insight & now & idx & Hin & Hok).
      destruct (processed_result_ok _ _ _ _ _ Hok)
        as (m & -> & Hs & Hi & Hc & _).
      rewrite Forall_forall in Hvalid.
      destruct (Hvalid _ Hin m eq_refl) as (Vs & Vi & Vc).
      unfold well_formed. rewrite Hs, Hi, Hc. auto. }
    destruct (process_insights clock hits 0 insights [] 0)
      as [[done ticks] [e|]]; cbn [fst snd] in *; subst done.
    + rewrite fallback_results_spec. apply Forall_app. split; [exact Hwf|].
      apply Forall_lookup. intros k r Hk. rewrite list_lookup_imap in Hk.
      destruct (hits !! k) as [hit|]; [|discriminate].
      injection Hk as <-. apply fallback_result_well_formed, Henum.
    + exact Hwf.
  - cbn [fst]. rewrite fallback_results_spec. exact Hfb0.
Qed.

Lemma extraction_well_formed_when_answer_is_witness :
  Forall (well_formed market_category_enum)
    (fst (analyze_snippets_with_openai
            (loads_table good_answer_text good_answer) fixed_clock
            (scanner_answering good_answer_text) example_hits uk_config)).
Proof.
  apply extraction_well_formed_when_answer_is.
  - apply list_in_spec. reflexivity.
  - intros client insights Hclient Hmodel.
    injection Hclient as <-. vm_compute in Hmodel. injection Hmodel as <-.
    unfold good_insights.
    repeat (apply List.Forall_cons;
            [intros m Hm; injection Hm as <-; vm_compute;
             repeat split; try discriminate;
             try (apply list_in_spec; reflexivity)|]).
    apply List.Forall_nil.
Defined.

(** Whenever the [try] body raises before the loop (the call fails, the
    text does not parse, the parsed value is not an object, or its
    [insights] cannot be iterated), the result is the fallback list. *)
Lemma fallback_when_answer_unusable
    (json_loads : string -> result json) (clock : nat -> Z)
    (self : MarketScanner) (client : Prompt -> result (option string))
    (hits : list SearchHit) (config : Config) (e : pyexn) :
  openai_client self = Some client ->
  model_insights json_loads client (build_prompt config hits) = Raise e ->
  analyze_snippets_with_openai json_loads clock self hits config
  = (imap (fun i hit => fallback_result (clock i) i hit) hits,
     [analysis_error e]).
Proof.
  intros Hclient He. unfold analyze_snippets_with_openai.
  rewrite Hclient, He, fallback_results_spec. reflexivity.
Qed.

(** An empty answer is not a failure: no alert is returned, and no
    fallback record either. *)
Lemma empty_answer_gives_no_alert
    (json_loads : string -> result json) (clock : nat -> Z)
    (self : MarketScanner) (client : Prompt -> result (option string))
    (hits : list SearchHit) (config : Config) :
  openai_client self = Some client ->
  client (build_prompt config hits) = Ok None
  \/ client (build_prompt config hits) = Ok (Some "") ->
  analyze_snippets_with_openai json_loads clock self hits config = ([], []).
Proof.
  intros Hclient Hempty. unfold analyze_snippets_with_openai, model_insights.
  rewrite Hclient. destruct Hempty as [-> | ->]; reflexivity.
Qed.

(** An exception raised inside the loop leaves the records built so far
    in the list, ahead of the fallback records. *)
Lemma loop_failure_keeps_built_records
    (json_loads : string -> result json) (clock : nat -> Z)
    (self : MarketScanner) (client : Prompt -> result (option string))
    (hits : list SearchHit) (config : Config) (text junk : string)
    (m : gmap string json) :
  openai_client self = Some client ->
  client (build_prompt config hits) = Ok (Some text) ->
  truthy text = true ->
  json_loads text = Ok (JObj {[ "insights" := JArr [JObj m; JStr junk] ]}) ->
  exists r,
    processed_result hits (clock 0%nat) 0 (JObj m) = Ok r
    /\ analyze_snippets_with_openai json_loads clock self hits config
       = (r :: imap (fun i hit => fallback_result (clock (2 + i)%nat) i hit)
                 hits,
          [analysis_error (Json.no_get (JStr junk))]).
Proof.
  intros Hclient Hanswer Htext Hloads.
  destruct (processed_result_object hits (clock 0%nat) 0 m) as [r Hr].
  exists r. split; [exact Hr|].
  unfold analyze_snippets_with_openai, model_insights.
  rewrite Hclient, Hanswer. cbn [Py.bind]. rewrite Htext, Hloads.
  cbn [Py.bind Json.get]. rewrite lookup_singleton_eq.
  cbn [default id Json.iter Py.bind process_insights]. rewrite Hr.
  cbn [process_insights]. unfold processed_result at 1.
  cbn [Json.get Py.bind app]. rewrite fallback_results_spec. reflexivity.
Qed.

(** [s[:n]] is the first [n] characters of [s], or the whole of [s]. *)
Lemma slice_to_length (n : nat) (s : string) :
  String.length (slice_to n s) = Nat.min n (String.length s).
Proof.
  unfold slice_to. revert s.
  induction n as [|n IH]; intros [|c s];
    cbn [String.substring String.length Nat.min]; try reflexivity.
  rewrite IH. reflexivity.
Qed.

Lemma slice_to_prefix (n : nat) (s : string) :
  exists rest, s = slice_to n s +:+ rest.
Proof.
  unfold slice_to. revert s.
  induction n as [|n IH]; intros [|c s]; cbn [String.substring].
  - exists "". reflexivity.
  - exists (String c s). reflexivity.
  - exists "". reflexivity.
  - destruct (IH s) as [rest Hrest]. exists rest.
    rewrite append_cons, <- Hrest. reflexivity.
Qed.

(** C5, as stated, fails for an empty response: with two hits and a
    model that returns no content, or the empty text, the extractor
    returns no record and shows no message.  The empty text is never
    handed to [json.loads]. *)
Lemma empty_response_yields_no_fallback :
  length example_hits = 2%nat
  /\ analyze_snippets_with_openai
       (loads_table good_answer_text good_answer) fixed_clock
       silent_scanner example_hits uk_config
     = ([], [])
  /\ analyze_snippets_with_openai
       (loads_table good_answer_text good_answer) fixed_clock
       (scanner_answering "") example_hits uk_config
     = ([], []).
Proof. repeat split; reflexivity. Qed.

(** C5, amended.  When the model call raises, or the model returns a
    non-empty text that does not parse, the extractor returns exactly
    one fallback record per hit, in the hits' order, each with impact
    level [Medium], relevance score 0.6 and, as its summary, the hit's
    content cut to its first 200 characters (the whole content when it
    is shorter) and followed by three dots. *)
Theorem failure_yields_one_fallback_per_hit
    (json_loads : string -> result json) (clock : nat -> Z)
    (self : MarketScanner) (client : Prompt -> result (option string))
    (hits : list SearchHit) (config : Config) :
  openai_client self = Some client ->
  (exists e, client (build_prompt config hits) = Raise e)
  \/ (exists text e,
        client (build_prompt config hits) = Ok (Some text)
        /\ truthy text = true
        /\ json_loads text = Raise e) ->
  let rs :=
    fst (analyze_snippets_with_openai json_loads clock self hits config) in
  rs = imap (fun i hit => fallback_result (clock i) i hit) hits
  /\ length rs = length hits
  /\ forall i hit, hits !! i = Some hit ->
       exists r head rest,
         rs !! i = Some r
         /\ a_impact_level r = JStr "Medium"
         /\ a_relevance_score r = JFloat (6 # 10)
         /\ a_summary r = JStr (head +:+ "...")
         /\ head = slice_to 200 (h_content hit)
         /\ h_content hit = head +:+ rest
         /\ String.length head = Nat.min 200 (String.length (h_content hit))
         /\ a_source r = h_source hit
         /\ a_url r = h_url hit
         /\ a_timestamp r = h_date hit.
Proof.
  intros Hclient Hfail rs.
  assert (exists e, model_insights json_loads client (build_prompt config hits)
                    = Raise e) as [e He].
  { unfold model_insights.
    destruct Hfail as [[e ->] | (text & e & -> & Htext & Hloads)].
    - exists e. reflexivity.
    - exists e. cbn [Py.bind]. rewrite Htext, Hloads. reflexivity. }
  assert (rs = imap (fun i hit => fallback_result (clock i) i hit) hits) as Hrs.
  { unfold rs. rewrite (fallback_when_answer_unusable _ _ _ _ _ _ _ Hclient He).
    reflexivity. }
  split; [exact Hrs|]. rewrite Hrs. split; [apply length_imap|].
  intros i hit Hhit.
  destruct (slice_to_prefix 200 (h_content hit)) as [rest Hrest].
  exists (fallback_result (clock i) i hit), (slice_to 200 (h_content hit)), rest.
  rewrite list_lookup_imap, Hhit.
  split; [reflexivity|]. split; [reflexivity|]. split; [reflexivity|].
  split; [reflexivity|]. split; [reflexivity|]. split; [exact Hrest|].
  split; [apply slice_to_length|]. repeat split; reflexivity.
Qed.

Lemma failure_yields_one_fallback_per_hit_witness :
  fst (analyze_snippets_with_openai
         (loads_table good_answer_text good_answer) fixed_clock
         failing_model_scanner (example_hits ++ [long_hit]) uk_config)
  = [fallback_result 1717000000 0
       (search_result gov_item "Recent" "water infrastructure");
     fallback_result 1717000000 1
       (search_result us_item "2024-05-01" "water infrastructure");
     fallback_result 1717000000 2 long_hit].
Proof.
  refine (proj1 (failure_yields_one_fallback_per_hit
                   (loads_table good_answer_text good_answer) fixed_clock
                   failing_model_scanner _ (example_hits ++ [long_hit])
                   uk_config eq_refl _)).
  left. eexists. reflexivity.
Defined.

(** The summary of a fallback record: a content of more than 200
    characters is cut to 200, a shorter one is kept whole. *)
Lemma fallback_summary_example :
  String.length (h_content long_hit) = 248%nat
  /\ String.length (fallback_summary long_hit) = 203%nat
  /\ fallback_summary
       (search_result us_item "2024-05-01" "water infrastructure")
     = "Trenchless methods for sewer mains...".
Proof. repeat split; vm_compute; reflexivity. Qed.



(** ** Alert store *)

(** C8.  Storing a list of records under a category and then reading
    the category gives back exactly those records, in the same order; a
    second store under the same category replaces the first. *)
Theorem store_then_read (category : string)
    (first second : list AlertRecord)
    (session_state : gmap string (list AlertRecord)) :
  AlertStore.displayed
    (AlertStore.render_current_intelligence_view category
       (AlertStore.store_alerts category first session_state))
  = first
  /\ AlertStore.displayed
       (AlertStore.render_current_intelligence_view category
          (AlertStore.store_alerts category second
             (AlertStore.store_alerts category first session_state)))
     = second
  /\ AlertStore.store_alerts category second
       (AlertStore.store_alerts category first session_state)
     = AlertStore.store_alerts category second session_state.
Proof.
  unfold AlertStore.render_current_intelligence_view, AlertStore.store_alerts.
  rewrite !lookup_insert_eq, insert_insert_eq.
  repeat split.
  - destruct first; reflexivity.
  - destruct second; reflexivity.
Qed.

(** Categories do not share a key, so a store under one category leaves
    the other categories as they were. *)
Lemma alerts_key_inj (c1 c2 : string) :
  AlertStore.alerts_key c1 = AlertStore.alerts_key c2 -> c1 = c2.
Proof. unfold AlertStore.alerts_key. intros H. injection H as H. exact H. Qed.

Lemma store_leaves_other_categories (category other : string)
    (records : list AlertRecord)
    (session_state : gmap string (list AlertRecord)) :
  category <> other ->
  AlertStore.render_current_intelligence_view other
    (AlertStore.store_alerts category records session_state)
  = AlertStore.render_current_intelligence_view other session_state.
Proof.
  intros Hne.
  unfold AlertStore.render_current_intelligence_view, AlertStore.store_alerts.
  rewrite lookup_insert_ne; [reflexivity|].
  intros Heq. apply Hne, alerts_key_inj, Heq.
Qed.

(** Nothing is stored when the search found nothing. *)
Lemma no_results_no_store (category : string)
    (records : list AlertRecord)
    (session_state : gmap string (list AlertRecord)) :
  AlertStore.store_if_results category [] records session_state
  = session_state.
Proof. reflexivity. Qed.

(** * Further properties of the scanner *)

Set Warnings "-clear-no-such-hyp,-abstract-large-number".

(** ** Relevance filter: the complete decision *)

Lemma existsb_str_in_false_inv (tokens : list string) (hay : string) :
  existsb (fun token => str_in token hay) tokens = false ->
  Forall (fun token => ~ occurs_in token hay) tokens.
Proof.
  induction tokens as [|token tokens IH]; simpl; intros H; constructor.
  - apply str_in_false. apply orb_false_iff in H. tauto.
  - apply IH. apply orb_false_iff in H. tauto.
Qed.

(** A hit is dropped exactly when the UK scope is active, its url holds
    no UK domain, its title and snippet hold no UK keyword, and its url or
    text holds an exclusion token.  In every other case it is kept. *)
Theorem hit_dropped_iff (item : RawItem) (scope : list string) :
  _is_uk_relevant item scope = false
  <-> "UK" ∈ scope
      /\ Forall (fun domain => ~ occurs_in domain (item_url item)) uk_domains
      /\ Forall (fun keyword => ~ occurs_in keyword (item_title_snippet item))
           uk_keywords
      /\ Exists (fun indicator =>
                   occurs_in indicator (item_url item)
                   \/ occurs_in indicator (item_title_snippet item))
           non_uk_indicators.
Proof.
  split.
  - intros Hdrop. unfold _is_uk_relevant in Hdrop.
    destruct (list_in "UK" scope) eqn:Hscope; [|discriminate].
    cbn [negb] in Hdrop.
    destruct (existsb _ uk_domains) eqn:Hdom; [discriminate|].
    destruct (existsb _ uk_keywords) eqn:Hkey; [discriminate|].
    apply list_in_spec in Hscope.
    apply existsb_str_in_false_inv in Hdom, Hkey.
    split; [exact Hscope|]. split; [exact Hdom|]. split; [exact Hkey|].
    apply (exclusion_decides item scope Hscope Hdom Hkey).
    unfold _is_uk_relevant. rewrite (uk_scope_active _ Hscope).
    rewrite (existsb_str_in_false _ _ Hdom), (existsb_str_in_false _ _ Hkey).
    exact Hdrop.
  - intros (Hscope & Hdom & Hkey & Hind).
    apply (exclusion_decides item scope Hscope Hdom Hkey). exact Hind.
Qed.

(** ** Date extraction *)

Lemma first_truthy_field_some (d : gmap string string) (fields : list string)
    (v : string) :
  first_truthy_field d fields = Some v ->
  v <> "" /\ exists field, field ∈ fields /\ d !! field = Some v.
Proof.
  induction fields as [|field rest IH]; simpl; [discriminate|].
  destruct (d !! field) as [w|] eqn:Hw.
  - destruct (truthy w) eqn:Ht.
    + intros [= <-]. split.
      * intros ->. discriminate Ht.
      * exists field. split; [left|exact Hw].
    + intros H. destruct (IH H) as (Hne & f & Hf & Hd).
      split; [exact Hne|]. exists f. split; [right; exact Hf|exact Hd].
  - intros H. destruct (IH H) as (Hne & f & Hf & Hd).
    split; [exact Hne|]. exists f. split; [right; exact Hf|exact Hd].
Qed.

Lemma date_from_sources_ok (pagemap : gmap string (list (gmap string string)))
    (sources : list string) (date : string) :
  date_from_sources pagemap sources = Ok date -> date <> "".
Proof.
  induction sources as [|source rest IH]; cbn [date_from_sources].
  - intros [= <-]. discriminate.
  - destruct (pagemap !! source) as [[|entry entries]|]; [discriminate| |exact IH].
    destruct (first_truthy_field entry _) as [v|] eqn:Hv; [|exact IH].
    intros [= <-]. apply (first_truthy_field_some _ _ _ Hv).
Qed.

Lemma date_from_sources_raise
    (pagemap : gmap string (list (gmap string string)))
    (sources : list string) (e : pyexn) :
  date_from_sources pagemap sources = Raise e ->
  e = PyExn IndexError "list index out of range"
  /\ exists source, source ∈ sources /\ pagemap !! source = Some [].
Proof.
  induction sources as [|source rest IH]; cbn [date_from_sources];
    [discriminate|].
  destruct (pagemap !! source) as [[|entry entries]|] eqn:Hs.
  - intros [= <-]. split; [reflexivity|].
    exists source. split; [left|exact Hs].
  - destruct (first_truthy_field entry _); [discriminate|].
    intros H. destruct (IH H) as (He & s & Hin & Hempty).
    split; [exact He|]. exists s. split; [right; exact Hin|exact Hempty].
  - intros H. destruct (IH H) as (He & s & Hin & Hempty).
    split; [exact He|]. exists s. split; [right; exact Hin|exact Hempty].
Qed.

Lemma extracted_date_not_empty_aux (item : RawItem) (date : string) :
  _extract_date_from_result item = Ok date -> date <> "".
Proof.
  unfold _extract_date_from_result.
  destruct (default [∅] (default ∅ (r_pagemap item) !! "metatags"))
    as [|tags rest].
  - apply date_from_sources_ok.
  - destruct (first_truthy_field tags _) as [v|] eqn:Hv.
    + intros [= <-]. apply (first_truthy_field_some _ _ _ Hv).
    + apply date_from_sources_ok.
Qed.

(** The date of a hit is never the empty string: it is a non-empty
    metadata value or the word [Recent], and in the latter case no meta
    tag field and no source entry of the item gave a non-empty date. *)
Theorem extracted_date_not_empty (item : RawItem) (date : string) :
  _extract_date_from_result item = Ok date ->
  date <> ""
  /\ (r_pagemap item = None -> date = "Recent").
Proof.
  intros H. split; [exact (extracted_date_not_empty_aux item date H)|].
  intros Hnone. unfold _extract_date_from_result in H. rewrite Hnone in H.
  vm_compute in H. congruence.
Qed.

Lemma extracted_date_not_empty_witness :
  _extract_date_from_result dated_item = Ok "2024-12-19"
  /\ "2024-12-19" <> "".
Proof.
  split; [reflexivity|].
  exact (proj1 (extracted_date_not_empty dated_item "2024-12-19" eq_refl)).
Defined.

(** The extraction raises only [IndexError], and only for an item whose
    [pagemap] maps [newsarticle], [article] or [webpage] to an empty
    list. *)
Theorem date_extraction_raises_only_on_empty_list (item : RawItem)
    (e : pyexn) :
  _extract_date_from_result item = Raise e ->
  e = PyExn IndexError "list index out of range"
  /\ exists source,
       source ∈ ["newsarticle"; "article"; "webpage"]
       /\ default ∅ (r_pagemap item) !! source = Some [].
Proof.
  unfold _extract_date_from_result.
  destruct (default [∅] (default ∅ (r_pagemap item) !! "metatags"))
    as [|tags rest].
  - apply date_from_sources_raise.
  - destruct (first_truthy_field tags _); [discriminate|].
    apply date_from_sources_raise.
Qed.

Lemma date_extraction_raises_only_on_empty_list_witness :
  exists source,
    source ∈ ["newsarticle"; "article"; "webpage"]
    /\ default ∅ (r_pagemap broken_item) !! source = Some [].
Proof.
  exact (proj2 (date_extraction_raises_only_on_empty_list broken_item
                  (PyExn IndexError "list index out of range") eq_refl)).
Defined.

(** A non-empty [article:published_time] in the first meta tag is the
    date, whatever the rest of the [pagemap] holds; the other fields and
    the source lists are not looked at. *)
Theorem published_time_comes_first (item : RawItem)
    (pagemap : gmap string (list (gmap string string)))
    (tags : gmap string string) (rest : list (gmap string string))
    (date : string) :
  r_pagemap item = Some pagemap ->
  pagemap !! "metatags" = Some (tags :: rest) ->
  tags !! "article:published_time" = Some date ->
  date <> "" ->
  _extract_date_from_result item = Ok date.
Proof.
  intros Hpm Hmeta Htag Hne. unfold _extract_date_from_result.
  rewrite Hpm. change (default ∅ (Some pagemap)) with pagemap.
  rewrite Hmeta. change (default [∅] (Some (tags :: rest))) with (tags :: rest).
  cbn [first_truthy_field]. rewrite Htag.
  assert (truthy date = true) as ->; [|reflexivity].
  unfold truthy. destruct (String.eqb_spec date ""); [contradiction|reflexivity].
Qed.

Lemma published_time_comes_first_witness :
  _extract_date_from_result tagged_item = Ok "2024-03-01".
Proof.
  eapply published_time_comes_first.
  - reflexivity.
  - reflexivity.
  - reflexivity.
  - discriminate.
Defined.

(** ** Retrieval: where the hits come from *)

Lemma collect_items_from (scope : list string) (query : string)
    (its : list RawItem) (acc : list SearchHit) (h : SearchHit) :
  h ∈ fst (collect_items scope query its acc) ->
  h ∈ acc
  \/ exists item date,
       item ∈ its
       /\ _is_uk_relevant item scope = true
       /\ _extract_date_from_result item = Ok date
       /\ h = search_result item date query.
Proof.
  revert acc. induction its as [|item rest IH]; intros acc; cbn [collect_items].
  - cbn [fst]. auto.
  - destruct (_is_uk_relevant item scope) eqn:Hrel.
    + destruct (_extract_date_from_result item) as [date|e] eqn:Hdate.
      * intros Hin. destruct (IH _ Hin) as [Hacc|(it & d & Hit & Hr & Hd & Hh)].
        -- apply elem_of_app in Hacc as [Hacc|Hnew]; [left; exact Hacc|].
           apply list_elem_of_singleton in Hnew. right.
           exists item, date. split; [left|]. auto.
        -- right. exists it, d. split; [right; exact Hit|]. auto.
      * cbn [fst]. auto.
    + intros Hin. destruct (IH _ Hin) as [Hacc|(it & d & Hit & Hr & Hd & Hh)].
      * left. exact Hacc.
      * right. exists it, d. split; [right; exact Hit|]. auto.
Qed.

Lemma search_queries_from (service : SearchParams -> result SearchResponse)
    (scope : list string) (date_restrict cx : string) (queries : list string)
    (acc : list SearchHit) (log : list ui_msg) (h : SearchHit) :
  h ∈ fst (search_queries service scope date_restrict cx queries acc log) ->
  h ∈ acc
  \/ exists query its item date,
       query ∈ queries
       /\ service (search_params scope date_restrict cx query)
          = Ok {| items := Some its |}
       /\ item ∈ its
       /\ _is_uk_relevant item scope = true
       /\ _extract_date_from_result item = Ok date
       /\ h = search_result item date query.
Proof.
  revert acc log.
  induction queries as [|query rest IH]; intros acc log; cbn [search_queries].
  - cbn [fst]. auto.
  - destruct (search_query service scope date_restrict cx query acc log)
      as [acc' log'] eqn:Hq.
    intros Hin. destruct (IH _ _ Hin) as [Hacc|(q & its & it & d & Hq' & Hrest)].
    + unfold search_query in Hq.
      destruct (service _) as [[[its|]]|e] eqn:Hsvc; cbn [items] in Hq.
      * destruct (collect_items scope query its acc) as [found oe] eqn:Hc.
        assert (acc' = found) as -> by (destruct oe; congruence).
        assert (h ∈ fst (collect_items scope query its acc)) as Hfound
          by (rewrite Hc; exact Hacc).
        destruct (collect_items_from _ _ _ _ _ Hfound)
          as [Hold|(it & d & Hit & Hr & Hd & Hh)]; [left; exact Hold|].
        right. exists query, its, it, d. split; [left|]. auto.
      * left. congruence.
      * left. congruence.
    + right. exists q, its, it, d. split; [right; exact Hq'|exact Hrest].
Qed.

(** Every hit that retrieval returns was built from an item of the
    response to one of the queries, an item that passed the relevance
    filter and whose date could be extracted; the hit carries that query,
    its content is its snippet, and its date is not empty. *)
Theorem returned_hit_provenance (self : MarketScanner) (cx : string)
    (queries : list string) (config : Config) (h : SearchHit) :
  h ∈ fst (execute_google_search self cx queries config) ->
  exists service query its item date,
    google_service self = Some service
    /\ query ∈ queries
    /\ service (search_params (scope_of config) (date_restrict_of config)
                  cx query)
       = Ok {| items := Some its |}
    /\ item ∈ its
    /\ _is_uk_relevant item (scope_of config) = true
    /\ h = search_result item date query
    /\ h_query h = query
    /\ h_content h = h_snippet h
    /\ h_date h <> "".
Proof.
  unfold execute_google_search.
  destruct (google_service self) as [service|]; [|intros H; inversion H].
  intros Hin.
  destruct (search_queries_from _ _ _ _ _ _ _ _ Hin)
    as [Hnil|(q & its & it & d & Hq & Hsvc & Hit & Hr & Hd & ->)];
    [inversion Hnil|].
  exists service, q, its, it, d. repeat split; try assumption.
  cbn. apply (extracted_date_not_empty_aux it d Hd).
Qed.

Lemma returned_hit_provenance_witness :
  exists query,
    query ∈ ["water infrastructure"]
    /\ h_query (search_result us_item "Recent" "water infrastructure") = query.
Proof.
  destruct (returned_hit_provenance two_hit_scanner "cx-1"
              ["water infrastructure"] uk_config
              (search_result us_item "Recent" "water infrastructure"))
    as (service & query & its & item & date & _ & Hq & _ & _ & _ & _ & Hhq & _).
  - right. left.
  - exists query. split; [exact Hq|exact Hhq].
Defined.

(** Searching the queries one call at a time and joining the results, as
    the alert generators do, gives the hits and the messages of one call
    on the whole list. *)
Theorem one_call_per_query_is_the_batch (self : MarketScanner) (cx : string)
    (queries : list string) (config : Config) :
  google_service self <> None ->
  execute_google_search self cx queries config
  = (concat ((fun query =>
                fst (execute_google_search self cx [query] config))
             <$> queries),
     concat ((fun query =>
                snd (execute_google_search self cx [query] config))
             <$> queries)).
Proof.
  unfold execute_google_search.
  destruct (google_service self) as [service|]; [|contradiction].
  intros _. induction queries as [|query rest IH]; [reflexivity|].
  change (query :: rest) with ([query] ++ rest).
  rewrite search_queries_app, IH. reflexivity.
Qed.

Lemma one_call_per_query_is_the_batch_witness :
  execute_google_search flaky_scanner "cx-1"
    ["water mains"; "pump outage"; "sewer lining"] uk_config
  = (concat ((fun query =>
                fst (execute_google_search flaky_scanner "cx-1" [query]
                       uk_config))
             <$> ["water mains"; "pump outage"; "sewer lining"]),
     concat ((fun query =>
                snd (execute_google_search flaky_scanner "cx-1" [query]
                       uk_config))
             <$> ["water mains"; "pump outage"; "sewer lining"])).
Proof.
  apply one_call_per_query_is_the_batch. discriminate.
Defined.

Lemma collect_items_app (scope : list string) (query : string)
    (pre post : list RawItem) (acc : list SearchHit) :
  snd (collect_items scope query pre acc) = None ->
  collect_items scope query (pre ++ post) acc
  = collect_items scope query post (fst (collect_items scope query pre acc)).
Proof.
  revert acc. induction pre as [|item rest IH]; intros acc; cbn [app collect_items].
  - reflexivity.
  - destruct (_is_uk_relevant item scope); [|apply IH].
    destruct (_extract_date_from_result item) as [date|e]; [apply IH|].
    discriminate.
Qed.

(** When the date extraction raises on a relevant item, the query ends
    there: the hits built from the items before it are kept, and the
    items after it are never looked at, whatever they are. *)
Theorem item_failure_discards_later_items (self : MarketScanner)
    (service : SearchParams -> result SearchResponse) (cx query : string)
    (config : Config) (pre post : list RawItem) (bad : RawItem) (e : pyexn) :
  google_service self = Some service ->
  service (search_params (scope_of config) (date_restrict_of config) cx query)
  = Ok {| items := Some (pre ++ bad :: post) |} ->
  snd (collect_items (scope_of config) query pre []) = None ->
  _is_uk_relevant bad (scope_of config) = true ->
  _extract_date_from_result bad = Raise e ->
  execute_google_search self cx [query] config
  = (fst (collect_items (scope_of config) query pre []),
     [search_error query e]).
Proof.
  intros Hsvc Hresp Hpre Hrel Hbad.
  unfold execute_google_search. rewrite Hsvc.
  cbn [search_queries]. unfold search_query. rewrite Hresp. cbn [items].
  rewrite (collect_items_app _ _ _ _ _ Hpre).
  cbn [collect_items]. rewrite Hrel, Hbad. reflexivity.
Qed.

Lemma item_failure_discards_later_items_witness :
  execute_google_search breaking_scanner "cx-1" ["price review"] uk_config
  = ([search_result dated_item "2024-12-19" "price review"],
     [UiError "Unexpected error during search: list index out of range"]).
Proof.
  eapply (item_failure_discards_later_items breaking_scanner _ "cx-1"
            "price review" uk_config [dated_item] [gov_item] broken_item
            (PyExn IndexError "list index out of range")).
  - reflexivity.
  - reflexivity.
  - reflexivity.
  - reflexivity.
  - reflexivity.
Defined.

(** ** Query builder: how many queries, and from what *)

Lemma base_components_split (config : Config) (kw : string) :
  exists front,
    base_components config kw
    = front ++ ["built assets"; "construction"; "infrastructure"].
Proof.
  unfold base_components. eexists. rewrite !app_assoc. reflexivity.
Qed.

(** The builder returns one to three queries, never none.  Without a
    sourcing-package trigger it returns one query when nothing is
    configured (the component list is the three fixed terms) and three
    queries as soon as one component is. *)
Theorem query_count (config : Config) (kw : string)
    (trigger : option Trigger) :
  let queries := fst (construct_search_queries config kw trigger) in
  (1 <= length queries <= 3)%nat
  /\ ((forall t, trigger = Some t -> t_type t <> "sourcing_package") ->
      length queries
      = if (length (base_components config kw) =? 3)%nat then 1%nat
        else 3%nat).
Proof.
  assert (length (take 3 (queries_of_components (base_components config kw)))
          = if (length (base_components config kw) =? 3)%nat then 1%nat
            else 3%nat) as Hstanding.
  { unfold queries_of_components. rewrite base_components_truthy.
    destruct (base_components_split config kw) as [front ->].
    rewrite length_app. cbn [length].
    destruct front as [|c front]; [reflexivity|].
    cbn [length Nat.add].
    replace (3 <? S (length front + 3))%nat with true
      by (symmetry; apply Nat.ltb_lt; lia).
    replace (S (length front + 3) =? 3)%nat with false
      by (symmetry; apply Nat.eqb_neq; lia).
    reflexivity. }
  cbn zeta. unfold construct_search_queries.
  destruct trigger as [t|].
  - destruct (String.eqb_spec (t_type t) "sourcing_package") as [Heq|Hne];
      cbn [fst].
    + split; [cbn; lia|]. intros H. destruct (H t eq_refl Heq).
    + rewrite Hstanding. split; [|reflexivity].
      destruct (_ =? 3)%nat; lia.
  - cbn [fst]. rewrite Hstanding. split; [|reflexivity].
    destruct (_ =? 3)%nat; lia.
Qed.

(** The main query joins the first six components only.  With six or
    more sub-sectors and no geography, the three queries are made of
    sub-sectors alone: the categories, the keywords, the refinement
    keywords and the three fixed terms do not reach any query. *)
Theorem six_sub_sectors_fill_the_queries (config : Config) (kw : string)
    (sectors : list string) :
  geo_focus config = None ->
  sub_sectors config = Some sectors ->
  (6 <= length sectors)%nat ->
  fst (construct_search_queries config kw None)
  = [join " " (take 6 sectors);
     join " " [default "" (sectors !! 0%nat); default "" (sectors !! 1%nat);
               "market analysis"; "2024"];
     join " " [default "" (sectors !! 0%nat); "procurement"; "suppliers";
               "trends"]].
Proof.
  intros Hgeo Hsec Hlen.
  unfold construct_search_queries. cbn [fst].
  unfold queries_of_components. rewrite base_components_truthy.
  unfold base_components. rewrite Hgeo, Hsec.
  assert (truthy_list sectors = true) as ->
    by (destruct sectors; [simpl in Hlen; lia|reflexivity]).
  cbn [app].
  match goal with |- context [sectors ++ ?r] => set (rest := r) end.
  rewrite (take_app_le sectors rest 6) by exact Hlen.
  rewrite !(lookup_app_l sectors rest) by lia.
  replace (3 <? length (sectors ++ rest))%nat with true
    by (symmetry; apply Nat.ltb_lt; rewrite length_app; lia).
  reflexivity.
Qed.

Lemma six_sub_sectors_fill_the_queries_witness :
  fst (construct_search_queries wide_config "tunnelling" None)
  = ["water wastewater energy rail roads ports";
     "water wastewater market analysis 2024";
     "water procurement suppliers trends"].
Proof.
  apply (six_sub_sectors_fill_the_queries wide_config "tunnelling"
           ["water"; "wastewater"; "energy"; "rail"; "roads"; "ports";
            "airports"; "telecoms"]).
  - reflexivity.
  - reflexivity.
  - simpl. lia.
Defined.

(** ** Insight extractor: what every returned record satisfies *)

Lemma processed_result_fields (hits : list SearchHit) (now : Z) (i : nat)
    (insight : json) (r : AlertRecord) :
  processed_result hits now i insight = Ok r ->
  a_id r = "insight_" +:+ str_int now +:+ "_" +:+ str_nat i
  /\ a_intelligence_type r = a_category r.
Proof.
  intros H. destruct insight; try discriminate H.
  unfold processed_result in H. cbn [Json.get Py.bind] in H.
  injection H as <-. split; reflexivity.
Qed.

Section ExtractorShape.

Variable json_loads : string -> result json.
Variable clock : nat -> Z.

(** The loop returns the list it was given followed by one record per
    insight processed, each built at its position and clock reading. *)
Lemma process_insights_built (hits : list SearchHit) (insights : list json)
    (i : nat) (acc : list AlertRecord) (ticks : nat) :
  exists built,
    (process_insights clock hits i insights acc ticks).1.1 = acc ++ built
    /\ forall k r, built !! k = Some r ->
         exists insight,
           processed_result hits (clock (ticks + k)) (i + k) insight = Ok r.
Proof.
  revert i acc ticks.
  induction insights as [|insight rest IH]; intros i acc ticks.
  - exists []. simpl. rewrite app_nil_r. split; [reflexivity|].
    intros k r H. discriminate H.
  - cbn [process_insights].
    destruct (processed_result hits (clock ticks) i insight) as [r|e] eqn:Hr.
    + destruct (IH (S i) (acc ++ [r]) (S ticks)) as (built & Heq & Hk).
      exists (r :: built). split.
      * rewrite Heq, <- app_assoc. reflexivity.
      * intros [|k] r' Hlook.
        -- injection Hlook as <-. exists insight.
           rewrite !Nat.add_0_r. exact Hr.
        -- destruct (Hk k r' Hlook) as [j Hj]. exists j.
           rewrite !Nat.add_succ_r. exact Hj.
    + exists []. simpl. rewrite app_nil_r. split; [reflexivity|].
      intros k r H. discriminate H.
Qed.

(** The result is a run of built records, numbered from 0, followed by
    nothing or by one fallback record per hit, numbered from 0. *)
Lemma analyze_shape (self : MarketScanner) (hits : list SearchHit)
    (config : Config) :
  exists built tail,
    fst (analyze_snippets_with_openai json_loads clock self hits config)
    = built ++ tail
    /\ (forall k r, built !! k = Some r ->
          exists insight,
            processed_result hits (clock k) k insight = Ok r)
    /\ (forall k r, tail !! k = Some r ->
          exists now hit, hits !! k = Some hit
                          /\ r = fallback_result now k hit).
Proof.
  assert (forall t k r,
             imap (fun k hit => fallback_result (clock (t + k)) (0 + k) hit)
               hits !! k = Some r ->
             exists now hit, hits !! k = Some hit
                             /\ r = fallback_result now k hit) as Hfb.
  { intros t k r Hk. rewrite list_lookup_imap in Hk.
    destruct (hits !! k) as [hit|]; [|discriminate].
    injection Hk as <-. eauto. }
  unfold analyze_snippets_with_openai.
  destruct (openai_client self) as [client|].
  - destruct (model_insights json_loads client (build_prompt config hits))
      as [insights|e].
    + destruct (process_insights_built hits insights 0 [] 0)
        as (built & Hbuilt & Hk).
      destruct (process_insights clock hits 0 insights [] 0)
        as [[done ticks] [e|]]; cbn [fst snd] in *; subst done.
      * exists built, (imap (fun k hit =>
                               fallback_result (clock (ticks + k)) (0 + k) hit)
                         hits).
        rewrite fallback_results_spec. split; [reflexivity|].
        split; [exact Hk|apply Hfb].
      * exists built, []. rewrite app_nil_r. split; [reflexivity|].
        split; [exact Hk|]. intros k r H. discriminate H.
    + exists [], (imap (fun k hit =>
                          fallback_result (clock (0 + k)) (0 + k) hit) hits).
      cbn [fst]. rewrite fallback_results_spec. split; [reflexivity|].
      split; [intros k r H; discriminate H|apply Hfb].
  - exists [], []. split; [reflexivity|].
    split; intros k r H; discriminate H.
Qed.

End ExtractorShape.

(** In every record the extractor returns, on either path, the
    intelligence type is the category. *)
Theorem intelligence_type_is_category
    (json_loads : string -> result json) (clock : nat -> Z)
    (self : MarketScanner) (hits : list SearchHit) (config : Config)
    (r : AlertRecord) :
  r ∈ fst (analyze_snippets_with_openai json_loads clock self hits config) ->
  a_intelligence_type r = a_category r.
Proof.
  destruct (analyze_shape json_loads clock self hits config)
    as (built & tail & -> & Hbuilt & Htail).
  intros Hin. apply elem_of_app in Hin as [Hin|Hin];
    apply list_elem_of_lookup in Hin as [k Hk].
  - destruct (Hbuilt k r Hk) as [insight Hok].
    apply (processed_result_fields _ _ _ _ _ Hok).
  - destruct (Htail k r Hk) as (now & hit & _ & ->). reflexivity.
Qed.

Lemma intelligence_type_is_category_witness :
  Forall (fun r => a_intelligence_type r = a_category r)
    (fst (analyze_snippets_with_openai
            (loads_table mixed_answer_text mixed_answer) fixed_clock
            (scanner_answering mixed_answer_text) example_hits uk_config)).
Proof.
  apply Forall_forall. intros r Hr.
  apply (intelligence_type_is_category
           (loads_table mixed_answer_text mixed_answer) fixed_clock
           (scanner_answering mixed_answer_text) example_hits uk_config).
  exact Hr.
Defined.

Lemma empty_answer_gives_no_alert_witness :
  analyze_snippets_with_openai
    (loads_table good_answer_text good_answer) fixed_clock
    silent_scanner example_hits uk_config
  = ([], []).
Proof.
  eapply empty_answer_gives_no_alert.
  - reflexivity.
  - left. reflexivity.
Defined.

Lemma loop_failure_keeps_built_records_witness :
  exists r,
    a_category r = JStr "Technology"
    /\ fst (analyze_snippets_with_openai
              (loads_table mixed_answer_text mixed_answer) fixed_clock
              (scanner_answering mixed_answer_text) example_hits uk_config)
       = [r;
          fallback_result 1717000000 0
            (search_result gov_item "Recent" "water infrastructure");
          fallback_result 1717000000 1
            (search_result us_item "2024-05-01" "water infrastructure")].
Proof.
  destruct (loop_failure_keeps_built_records
              (loads_table mixed_answer_text mixed_answer) fixed_clock
              (scanner_answering mixed_answer_text) _ example_hits uk_config
              mixed_answer_text "see above"
              {[ "category" := JStr "Technology" ]} eq_refl eq_refl eq_refl
              eq_refl)
    as (r & Hr & Hall).
  exists r. split.
  - injection Hr as <-. reflexivity.
  - rewrite Hall. reflexivity.
Defined.

(** ** Insight extractor: the ids of a result are distinct *)

Lemma has_char_append (c : ascii) (s t : string) :
  has_char c (s +:+ t) = has_char c s || has_char c t.
Proof.
  induction s as [|c' s IH]; [reflexivity|].
  rewrite append_cons. cbn [has_char]. rewrite IH, orb_assoc. reflexivity.
Qed.

Lemma pretty_N_go_no_underscore (x : N) (s : string) :
  has_char "_" s = false -> has_char "_" (pretty_N_go x s) = false.
Proof.
  revert s. induction (N.lt_wf_0 x) as [x _ IH]; intros s Hs.
  destruct (decide (x = 0)%N) as [->|Hx].
  - rewrite pretty_N_go_0. exact Hs.
  - rewrite pretty_N_go_step by lia. apply IH.
    + apply N.div_lt; lia.
    + cbn [has_char]. rewrite Hs, orb_false_r.
      unfold pretty_N_char. repeat case_match; reflexivity.
Qed.

Lemma str_nat_no_underscore (n : nat) : has_char "_" (str_nat n) = false.
Proof.
  unfold str_nat, pretty, pretty_nat, pretty, pretty_N.
  case_decide; [reflexivity|].
  apply pretty_N_go_no_underscore. reflexivity.
Qed.

(** Two texts that end with an underscore followed by an underscore-free
    field agree on that field when they are equal. *)
Lemma last_field_eq (x y d1 d2 : string) :
  has_char "_" d1 = false ->
  has_char "_" d2 = false ->
  x +:+ "_" +:+ d1 = y +:+ "_" +:+ d2 ->
  d1 = d2.
Proof.
  assert (forall s, "" +:+ s = s) as Hnil by reflexivity.
  assert (forall s, "_" +:+ s = String "_" s) as Hsep by reflexivity.
  intros H1 H2. revert y. induction x as [|c x IH]; intros [|c' y] H;
    rewrite ?append_cons, ?Hnil, ?Hsep in H.
  - congruence.
  - injection H as _ H.
    rewrite H, has_char_append in H1. cbn [has_char Ascii.eqb Bool.eqb] in H1.
    rewrite orb_true_r in H1. discriminate.
  - injection H as _ H.
    rewrite <- H, has_char_append in H2. cbn [has_char Ascii.eqb Bool.eqb] in H2.
    rewrite orb_true_r in H2. discriminate.
  - injection H as _ H. apply (IH y). exact H.
Qed.

Lemma numbered_id_inj (x y : string) (i j : nat) :
  x +:+ "_" +:+ str_nat i = y +:+ "_" +:+ str_nat j -> i = j.
Proof.
  intros H. apply last_field_eq in H; try apply str_nat_no_underscore.
  apply (inj pretty). exact H.
Qed.

(** The ids of the records returned by one call are pairwise distinct:
    the built records are numbered by position, the fallback records by
    hit, and the two kinds differ by their prefix. *)
Theorem returned_ids_are_distinct
    (json_loads : string -> result json) (clock : nat -> Z)
    (self : MarketScanner) (hits : list SearchHit) (config : Config) :
  NoDup (a_id <$>
           fst (analyze_snippets_with_openai json_loads clock self hits
                  config)).
Proof.
  destruct (analyze_shape json_loads clock self hits config)
    as (built & tail & -> & Hbuilt & Htail).
  assert (forall k r, built !! k = Some r ->
            exists x, a_id r = "insight_" +:+ x +:+ "_" +:+ str_nat k) as Hb.
  { intros k r Hk. destruct (Hbuilt k r Hk) as [insight Hok].
    eexists. apply (processed_result_fields _ _ _ _ _ Hok). }
  assert (forall k r, tail !! k = Some r ->
            exists x, a_id r = "fallback_" +:+ x +:+ "_" +:+ str_nat k) as Ht.
  { intros k r Hk. destruct (Htail k r Hk) as (now & hit & _ & ->).
    eexists. reflexivity. }
  clear Hbuilt Htail.
  rewrite fmap_app. apply NoDup_app. split; [|split].
  - apply NoDup_alt. intros i j id Hi Hj.
    rewrite list_lookup_fmap in Hi, Hj.
    destruct (built !! i) as [ri|] eqn:Eri; [|discriminate].
    destruct (built !! j) as [rj|] eqn:Erj; [|discriminate].
    destruct (Hb i ri Eri) as [x Hx]. destruct (Hb j rj Erj) as [y Hy].
    cbn in Hi, Hj. injection Hi as Hi. injection Hj as Hj.
    rewrite Hx in Hi. rewrite Hy in Hj. rewrite <- Hj in Hi.
    rewrite !(append_cons _ _ (_ +:+ _)) in Hi.
    injection Hi as Hi. exact (numbered_id_inj _ _ _ _ Hi).
  - intros id Hin1 Hin2.
    apply list_elem_of_fmap in Hin1 as (r1 & -> & Hr1).
    apply list_elem_of_fmap in Hin2 as (r2 & Heq & Hr2).
    apply list_elem_of_lookup in Hr1 as [i Hi].
    apply list_elem_of_lookup in Hr2 as [j Hj].
    destruct (Hb i r1 Hi) as [x Hx]. destruct (Ht j r2 Hj) as [y Hy].
    rewrite Hx, Hy in Heq. rewrite !(append_cons _ _ (_ +:+ _)) in Heq.
    discriminate Heq.
  - apply NoDup_alt. intros i j id Hi Hj.
    rewrite list_lookup_fmap in Hi, Hj.
    destruct (tail !! i) as [ri|] eqn:Eri; [|discriminate].
    destruct (tail !! j) as [rj|] eqn:Erj; [|discriminate].
    destruct (Ht i ri Eri) as [x Hx]. destruct (Ht j rj Erj) as [y Hy].
    cbn in Hi, Hj. injection Hi as Hi. injection Hj as Hj.
    rewrite Hx in Hi. rewrite Hy in Hj. rewrite <- Hj in Hi.
    rewrite !(append_cons _ _ (_ +:+ _)) in Hi.
    injection Hi as Hi. exact (numbered_id_inj _ _ _ _ Hi).
Qed.

(** ** Crawling *)

Example strip_example :
  strip ("  a b " +:+ nl) = "a b" /\ strip "   " = "" /\ strip "" = "".
Proof. repeat split; reflexivity. Qed.

Example split_ws_example :
  split_ws ("  a  bc " +:+ nl +:+ " d") = ["a"; "bc"; "d"]
  /\ split_ws "   " = [] /\ split_ws "" = [] /\ split_ws "word" = ["word"].
Proof. repeat split; reflexivity. Qed.

Example crawl_urls_example :
  crawl_urls example_fetch example_title example_urls 0
  = ([ {| c_url := "https://a.example/long"; c_title := "page";
          c_content := long_text; c_query := "Direct URL";
          c_word_count := 25 |};
       {| c_url := "https://c.example/long"; c_title := "Framework";
          c_content := "   " +:+ long_text +:+ nl; c_query := "capital";
          c_word_count := 25 |} ],
     [UiWarning
        "Failed to crawl https://down.example/: Network error accessing https://down.example/: timed out";
      UiWarning "Insufficient content extracted from https://b.example/short"]).
Proof. vm_compute. reflexivity. Qed.

Section CrawlerFacts.

Variable fetch : string -> result string.
Variable title_of : string -> string.

(** The messages do not influence the pages. *)
Lemma crawl_loop_log (urls : list UrlInfo) (processed : gset string)
    (acc : list CrawledPage) (log log' : list ui_msg) :
  fst (crawl_loop fetch title_of urls processed acc log)
  = fst (crawl_loop fetch title_of urls processed acc log').
Proof.
  revert processed acc log log'.
  induction urls as [|info rest IH]; intros processed acc log log';
    cbn [crawl_loop]; [reflexivity|].
  case_bool_decide; [apply IH|].
  destruct (fetch (info_url info)) as [content|e]; [|apply IH].
  destruct (truthy content && _); apply IH.
Qed.

(** Every page of the result is in the list given or was fetched, with
    more than 100 characters once stripped, from an entry of [urls]. *)
Lemma crawl_loop_pages (urls : list UrlInfo) (processed : gset string)
    (acc : list CrawledPage) (log : list ui_msg) (p : CrawledPage) :
  p ∈ fst (crawl_loop fetch title_of urls processed acc log) ->
  p ∈ acc
  \/ exists info content,
       info ∈ urls
       /\ fetch (info_url info) = Ok content
       /\ (100 < String.length (strip content))%nat
       /\ p = crawled_page title_of info content.
Proof.
  revert processed acc log.
  induction urls as [|info rest IH]; intros processed acc log;
    cbn [crawl_loop]; [cbn; auto|].
  assert (forall processed' log',
             p ∈ fst (crawl_loop fetch title_of rest processed' acc log') ->
             p ∈ acc
             \/ exists info' content,
                  info' ∈ info :: rest
                  /\ fetch (info_url info') = Ok content
                  /\ (100 < String.length (strip content))%nat
                  /\ p = crawled_page title_of info' content) as Hskip.
  { intros processed' log' Hin.
    destruct (IH _ _ _ Hin) as [Hold|(i & c & Hi & Hrest)]; [left; exact Hold|].
    right. exists i, c. split; [right; exact Hi|exact Hrest]. }
  case_bool_decide as Hseen; [apply Hskip|].
  destruct (fetch (info_url info)) as [content|e] eqn:Hfetch; [|apply Hskip].
  destruct (truthy content); cbn [andb]; [|apply Hskip].
  destruct (100 <? String.length (strip content))%nat eqn:Hlen; [|apply Hskip].
  intros Hin.
  destruct (IH _ _ _ Hin) as [Hold|(i & c & Hi & Hrest)].
  - apply elem_of_app in Hold as [Hold|Hnew]; [left; exact Hold|].
    apply list_elem_of_singleton in Hnew. right.
    exists info, content. split; [left|]. split; [exact Hfetch|].
    split; [apply Nat.ltb_lt; exact Hlen|exact Hnew].
  - right. exists i, c. split; [right; exact Hi|exact Hrest].
Qed.

(** The urls of the pages stay distinct and inside the set of processed
    urls. *)
Lemma crawl_loop_nodup (urls : list UrlInfo) (processed : gset string)
    (acc : list CrawledPage) (log : list ui_msg) :
  NoDup (c_url <$> acc) ->
  (forall p, p ∈ acc -> c_url p ∈ processed) ->
  NoDup (c_url <$> fst (crawl_loop fetch title_of urls processed acc log)).
Proof.
  revert processed acc log.
  induction urls as [|info rest IH]; intros processed acc log Hnd Hsub;
    cbn [crawl_loop]; [exact Hnd|].
  case_bool_decide as Hseen; [apply IH; assumption|].
  assert (forall p, p ∈ acc -> c_url p ∈ processed ∪ {[info_url info]})
    as Hsub' by (intros p Hp; specialize (Hsub p Hp); set_solver).
  destruct (fetch (info_url info)) as [content|e]; [|apply IH; assumption].
  destruct (truthy content && _); [|apply IH; assumption].
  apply IH.
  - rewrite fmap_app. apply NoDup_app. split; [exact Hnd|]. split.
    + intros u Hu Hu'. cbn in Hu'. apply list_elem_of_singleton in Hu'.
      subst u. apply list_elem_of_fmap in Hu as (p & Hp & Hin).
      apply Hseen. unfold crawled_page in Hp. cbn in Hp.
      rewrite Hp. apply Hsub, Hin.
    + cbn. apply NoDup_singleton.
  - intros p Hp. apply elem_of_app in Hp as [Hp|Hp]; [apply Hsub', Hp|].
    apply list_elem_of_singleton in Hp. subst p. cbn. set_solver.
Qed.

(** Entries of a url already processed change nothing. *)
Lemma crawl_loop_skip (urls : list UrlInfo) (processed : gset string)
    (acc : list CrawledPage) (log : list ui_msg) (bad : string) :
  bad ∈ processed ->
  fst (crawl_loop fetch title_of urls processed acc log)
  = fst (crawl_loop fetch title_of
           (filter (fun info => info_url info <> bad) urls)
           processed acc log).
Proof.
  intros Hbad. revert processed acc log Hbad.
  induction urls as [|info rest IH]; intros processed acc log Hbad;
    [reflexivity|].
  rewrite filter_cons. cbn [crawl_loop].
  destruct (decide (info_url info <> bad)) as [Hne|Heq].
  - cbn [crawl_loop]. case_bool_decide; [apply IH, Hbad|].
    assert (bad ∈ processed ∪ {[info_url info]}) as Hbad' by set_solver.
    destruct (fetch (info_url info)) as [content|e]; [|apply IH, Hbad'].
    destruct (truthy content && _); apply IH, Hbad'.
  - assert (info_url info = bad) as -> by (destruct (decide (info_url info = bad)); [assumption|contradiction]).
    rewrite bool_decide_eq_true_2 by exact Hbad. apply IH, Hbad.
Qed.

End CrawlerFacts.

(** No url is crawled twice: the pages returned have pairwise distinct
    urls, whatever duplicates the input holds. *)
Theorem crawled_urls_are_distinct (fetch : string -> result string)
    (title_of : string -> string) (urls : list UrlInfo) (depth : nat) :
  NoDup (c_url <$> fst (crawl_urls fetch title_of urls depth)).
Proof.
  unfold crawl_urls. apply crawl_loop_nodup.
  - constructor.
  - intros p Hp. inversion Hp.
Qed.

(** Every page returned was fetched from the url of an input entry, and
    its text, once stripped, has more than 100 characters; its word count
    is the number of whitespace-separated words of the text. *)
Theorem crawled_page_content (fetch : string -> result string)
    (title_of : string -> string) (urls : list UrlInfo) (depth : nat)
    (p : CrawledPage) :
  p ∈ fst (crawl_urls fetch title_of urls depth) ->
  (exists info, info ∈ urls /\ c_url p = info_url info
                /\ c_query p = info_query info)
  /\ fetch (c_url p) = Ok (c_content p)
  /\ (100 < String.length (strip (c_content p)))%nat
  /\ c_word_count p = length (split_ws (c_content p)).
Proof.
  unfold crawl_urls. intros Hin.
  destruct (crawl_loop_pages _ _ _ _ _ _ _ Hin)
    as [Hnil|(info & content & Hi & Hf & Hlen & ->)];
    [inversion Hnil|].
  split; [exists info; auto|]. cbn. auto.
Qed.

Lemma crawled_page_content_witness :
  Forall (fun p =>
            example_fetch (c_url p) = Ok (c_content p)
            /\ (100 < String.length (strip (c_content p)))%nat)
    (fst (crawl_urls example_fetch example_title example_urls 0)).
Proof.
  apply Forall_forall. intros p Hp.
  destruct (crawled_page_content example_fetch example_title example_urls 0
              p Hp) as (_ & Hf & Hlen & _).
  split; [exact Hf|exact Hlen].
Defined.

Section CrawlerIsolation.

Variable fetch : string -> result string.
Variable title_of : string -> string.

Lemma crawl_loop_extra (urls : list UrlInfo) (processed : gset string)
    (acc : list CrawledPage) (log log' : list ui_msg) (bad : string) :
  Forall (fun info => info_url info <> bad) urls ->
  fst (crawl_loop fetch title_of urls (processed ∪ {[bad]}) acc log)
  = fst (crawl_loop fetch title_of urls processed acc log').
Proof.
  intros Hall. revert processed acc log log'.
  induction Hall as [|info rest Hne _ IH]; intros processed acc log log';
    cbn [crawl_loop]; [reflexivity|].
  rewrite (bool_decide_ext (info_url info ∈ processed ∪ {[bad]})
             (info_url info ∈ processed)) by set_solver.
  case_bool_decide; [apply IH|].
  replace (processed ∪ {[bad]} ∪ {[info_url info]})
    with (processed ∪ {[info_url info]} ∪ {[bad]}) by set_solver.
  destruct (fetch (info_url info)) as [content|e]; [|apply IH].
  destruct (truthy content && _); apply IH.
Qed.

Lemma crawl_loop_without (urls : list UrlInfo) (processed : gset string)
    (acc : list CrawledPage) (log log' : list ui_msg) (bad : string) :
  unproductive fetch bad ->
  fst (crawl_loop fetch title_of urls processed acc log)
  = fst (crawl_loop fetch title_of
           (filter (fun info => info_url info <> bad) urls)
           processed acc log').
Proof.
  intros Hbad. revert processed acc log log'.
  induction urls as [|info rest IH]; intros processed acc log log';
    [reflexivity|].
  rewrite filter_cons.
  destruct (decide (info_url info <> bad)) as [Hne|Heq].
  - cbn [crawl_loop]. case_bool_decide; [apply IH|].
    destruct (fetch (info_url info)) as [content|e]; [|apply IH].
    destruct (truthy content && _); apply IH.
  - assert (info_url info = bad) as Hurl
        by (destruct (decide (info_url info = bad)); [assumption|contradiction]).
    cbn [crawl_loop]. rewrite Hurl.
    case_bool_decide as Hseen; [apply IH|].
    assert (forall l1, fst (crawl_loop fetch title_of rest
                              (processed ∪ {[bad]}) acc l1)
                       = fst (crawl_loop fetch title_of
                                (filter (fun info => info_url info <> bad) rest)
                                processed acc log')) as Hrest.
    { intros l1.
      rewrite (crawl_loop_skip fetch title_of rest _ acc l1 bad)
        by set_solver.
      apply crawl_loop_extra. apply Forall_forall. intros i Hi.
      apply list_elem_of_filter in Hi. tauto. }
    unfold unproductive in Hbad.
    destruct (fetch bad) as [content|e]; [|apply Hrest].
    assert (truthy content && (100 <? String.length (strip content))%nat
            = false) as ->; [|apply Hrest].
    destruct Hbad as [->|Hshort]; [reflexivity|].
    apply andb_false_iff. right. apply Nat.ltb_ge. exact Hshort.
Qed.

Lemma crawl_loop_length (urls : list UrlInfo) (processed : gset string)
    (acc : list CrawledPage) (log : list ui_msg) :
  (length (fst (crawl_loop fetch title_of urls processed acc log))
   <= length acc + length urls)%nat.
Proof.
  revert processed acc log.
  induction urls as [|info rest IH]; intros processed acc log;
    cbn [crawl_loop length]; [cbn; lia|].
  assert (forall P l, (length (fst (crawl_loop fetch title_of rest P acc l))
                       <= length acc + S (length rest))%nat) as Hskip
    by (intros P l; specialize (IH P acc l); lia).
  case_bool_decide; [apply Hskip|].
  destruct (fetch (info_url info)) as [content|e]; [|apply Hskip].
  destruct (truthy content && _); [|apply Hskip].
  etransitivity; [apply IH|]. rewrite length_app. cbn. lia.
Qed.

End CrawlerIsolation.

(** A url whose fetch raises, or whose text is too short, costs nothing
    but a warning: the pages returned are those of the list without its
    entries. *)
Theorem unproductive_url_leaves_other_pages (fetch : string -> result string)
    (title_of : string -> string) (urls : list UrlInfo) (depth : nat)
    (bad : string) :
  unproductive fetch bad ->
  fst (crawl_urls fetch title_of urls depth)
  = fst (crawl_urls fetch title_of
           (filter (fun info => info_url info <> bad) urls) depth).
Proof. intros Hbad. unfold crawl_urls. apply crawl_loop_without, Hbad. Qed.

Lemma unproductive_url_leaves_other_pages_witness :
  fst (crawl_urls example_fetch example_title example_urls 0)
  = fst (crawl_urls example_fetch example_title
           [UrlDict "https://a.example/long" (Some "") (Some "Direct URL");
            UrlDict "https://b.example/short" (Some "Short") None;
            UrlStr "https://a.example/long";
            UrlDict "https://c.example/long" (Some "Framework")
              (Some "capital")] 0).
Proof.
  apply (unproductive_url_leaves_other_pages example_fetch example_title
           example_urls 0 "https://down.example/").
  exact I.
Defined.

(** ** Page analysis *)

Section PageAnalysisFacts.

Variable chat : ChatRequest -> result (list (option string)).
Variable json_loads : string -> result json.
Variable strftime : nat -> string.

Lemma analyze_pages_spec (pages : list CrawledPage) (ticks : nat)
    (acc : list AnalysisResult) (log : list ui_msg) :
  fst (analyze_pages chat json_loads strftime pages ticks acc log)
  = acc ++ imap (fun k page =>
                   page_result chat json_loads (strftime (ticks + k)) page)
             pages.
Proof.
  revert ticks acc log.
  induction pages as [|page rest IH]; intros ticks acc log.
  - cbn. rewrite app_nil_r. reflexivity.
  - cbn [analyze_pages imap]. unfold page_result at 1.
    rewrite Nat.add_0_r.
    destruct (analyze_page chat json_loads (strftime ticks) page) as [a|e];
      rewrite IH, <- app_assoc; cbn [app]; do 2 f_equal;
      apply imap_ext; intros k p _; cbn; rewrite Nat.add_succ_r; reflexivity.
Qed.


End PageAnalysisFacts.

(** The analysis returns exactly one result per page, in the pages'
    order, each with the url and the title of its page: a page whose
    analysis fails is kept as an error record, never dropped. *)
Theorem one_result_per_page
    (chat : ChatRequest -> result (list (option string)))
    (json_loads : string -> result json) (strftime : nat -> string)
    (pages : list CrawledPage) :
  (fun r => (result_url r, result_title r))
  <$> fst (analyze_with_openai (Some chat) json_loads strftime pages)
  = (fun page => (c_url page, c_title page)) <$> pages.
Proof.
  unfold analyze_with_openai. rewrite analyze_pages_spec. cbn [app].
  apply list_eq. intros i.
  rewrite !list_lookup_fmap, list_lookup_imap.
  destruct (pages !! i) as [page|]; [|reflexivity].
  cbn. unfold page_result.
  destruct (analyze_page chat json_loads _ page) as [a|e] eqn:Ha;
    [|reflexivity].
  unfold analyze_page in Ha.
  destruct (chat _) as [s|]; [|discriminate Ha]. cbn [Py.bind] in Ha.
  destruct (chat _) as [en|]; [|discriminate Ha]. cbn [Py.bind] in Ha.
  destruct (chat _) as [se|]; [|discriminate Ha]. cbn [Py.bind] in Ha.
  destruct (first_choice s); [|discriminate Ha]. cbn [Py.bind] in Ha.
  injection Ha as <-. reflexivity.
Qed.



(** ** The scan *)

Lemma queries_truthy (config : Config) (kw : string)
    (trigger : option Trigger) :
  truthy_list (fst (construct_search_queries config kw trigger)) = true.
Proof.
  unfold construct_search_queries.
  assert (truthy_list
            (take 3 (queries_of_components (base_components config kw)))
          = true) as Hstanding.
  { unfold queries_of_components. rewrite base_components_truthy.
    reflexivity. }
  destruct trigger as [t|]; [|exact Hstanding].
  destruct (String.eqb (t_type t) "sourcing_package");
    [reflexivity|exact Hstanding].
Qed.

Lemma unique_urls_sub (all_urls : list UrlInfo) (seen : gset string)
    (info : UrlInfo) :
  info ∈ unique_urls all_urls seen -> info ∈ all_urls.
Proof.
  revert seen. induction all_urls as [|i rest IH]; intros seen;
    cbn [unique_urls]; [auto|].
  case_bool_decide as Hseen.
  - intros Hin. right. exact (IH _ Hin).
  - intros Hin.
    apply elem_of_cons in Hin as [->|Hin]; [left|right; exact (IH _ Hin)].
Qed.

Section ScanFacts.

Variable fetch : string -> result string.
Variable title_of : string -> string.
Variable chat : option (ChatRequest -> result (list (option string))).
Variable json_loads : string -> result json.
Variable strftime : nat -> string.

(** What a returning scan returns: nothing, or the analysis of pages
    crawled from the first [num_results] distinct direct urls. *)
Lemma scan_returns (self : MarketScanner) (keys : ApiKeys) (config : Config)
    (kw direct_urls : string) (num_results depth : nat)
    (trigger : option Trigger) (rs : list AnalysisResult) :
  fst (fst (execute_market_scan fetch title_of chat json_loads strftime self
              keys config kw direct_urls num_results depth trigger))
  = Ok rs ->
  rs = []
  \/ rs = fst (analyze_with_openai chat json_loads strftime
                 (fst (crawl_urls fetch title_of
                         (take num_results
                            (unique_urls (direct_url_list direct_urls) ∅))
                         depth))).
Proof.
  unfold execute_market_scan.
  destruct (validate_api_keys keys) as [valid log0].
  destruct valid; cbn [negb]; [|intros [= <-]; auto].
  set (direct := if truthy direct_urls then direct_url_list direct_urls
                 else []).
  assert (forall searched log1 (trigger1 : option Trigger),
             (forall found, searched = Ok found -> found = []) ->
             fst (fst (match searched with
              | Raise e => (Raise e, log1, trigger1)
              | Ok search_results =>
                  let all_urls := direct ++ (hit_info <$> search_results) in
                  if negb (truthy_list all_urls) then
                    (Ok [], log1 ++ [UiWarning "No URLs found to crawl"],
                     trigger1)
                  else
                    let '(crawled_content, log2) :=
                      crawl_urls fetch title_of
                        (take num_results (unique_urls all_urls ∅)) depth in
                    if negb (truthy_list crawled_content) then
                      (Ok [],
                       log1 ++ log2
                       ++ [UiWarning "No content successfully crawled"],
                       trigger1)
                    else
                      let '(analyzed_results, log3) :=
                        analyze_with_openai chat json_loads strftime
                          crawled_content in
                      (Ok analyzed_results, log1 ++ log2 ++ log3, trigger1)
              end)) = Ok rs ->
             rs = []
             \/ rs = fst (analyze_with_openai chat json_loads strftime
                            (fst (crawl_urls fetch title_of
                                    (take num_results
                                       (unique_urls
                                          (direct_url_list direct_urls) ∅))
                                    depth)))) as Hrest.
  { intros searched log1 trigger1 Hfound.
    destruct searched as [found|e]; [|discriminate].
    rewrite (Hfound found eq_refl). cbn [fmap list_fmap]. rewrite app_nil_r.
    cbn zeta.
    destruct (truthy_list direct) eqn:Hd; cbn [negb]; [|intros [= <-]; auto].
    assert (direct = direct_url_list direct_urls) as ->.
    { unfold direct in *. destruct (truthy direct_urls); [reflexivity|].
      discriminate Hd. }
    destruct (crawl_urls fetch title_of _ depth) as [crawled log2].
    destruct (truthy_list crawled); cbn [negb]; [|intros [= <-]; auto].
    destruct (analyze_with_openai chat json_loads strftime crawled)
      as [analyzed log3] eqn:Ha.
    intros [= <-]. right. cbn [fst]. rewrite Ha. reflexivity. }
  destruct (negb (truthy direct_urls) || (length direct <? num_results)%nat).
  - destruct (construct_search_queries config kw trigger)
      as [queries trigger'] eqn:Hq.
    assert (truthy_list queries = true) as ->.
    { pose proof (queries_truthy config kw trigger) as H.
      rewrite Hq in H. exact H. }
    unfold execute_google_search_with_int.
    destruct (google_service self); cbv beta iota zeta; [discriminate|].
    apply (Hrest (Ok [])
             (log0 ++ [UiError "Google Search API not configured"]) trigger').
    intros found [= <-]. reflexivity.
  - apply (Hrest (Ok []) log0 trigger). intros found [= <-]. reflexivity.
Qed.

End ScanFacts.

Lemma page_result_url (chat : ChatRequest -> result (list (option string)))
    (json_loads : string -> result json) (now : string) (page : CrawledPage) :
  result_url (page_result chat json_loads now page) = c_url page.
Proof.
  unfold page_result.
  destruct (analyze_page chat json_loads now page) as [a|e] eqn:Ha;
    [|reflexivity].
  unfold analyze_page in Ha.
  destruct (chat _) as [s|]; [|discriminate Ha]. cbn [Py.bind] in Ha.
  destruct (chat _) as [en|]; [|discriminate Ha]. cbn [Py.bind] in Ha.
  destruct (chat _) as [se|]; [|discriminate Ha]. cbn [Py.bind] in Ha.
  destruct (first_choice s); [|discriminate Ha]. cbn [Py.bind] in Ha.
  injection Ha as <-. reflexivity.
Qed.

Lemma analyze_result_urls
    (chat : option (ChatRequest -> result (list (option string))))
    (json_loads : string -> result json) (strftime : nat -> string)
    (pages : list CrawledPage) :
  result_url <$> fst (analyze_with_openai chat json_loads strftime pages)
  = match chat with
    | Some _ => c_url <$> pages
    | None => []
    end.
Proof.
  unfold analyze_with_openai. destruct chat as [chat|]; [|reflexivity].
  rewrite analyze_pages_spec. cbn [app]. apply list_eq. intros i.
  rewrite !list_lookup_fmap, list_lookup_imap.
  destruct (pages !! i) as [page|]; [|reflexivity].
  cbn. rewrite page_result_url. reflexivity.
Qed.

(** A scan that returns never returns more than [num_results] results,
    and no two of them are for the same url. *)
Theorem scan_result_is_bounded (fetch : string -> result string)
    (title_of : string -> string)
    (chat : option (ChatRequest -> result (list (option string))))
    (json_loads : string -> result json) (strftime : nat -> string)
    (self : MarketScanner) (keys : ApiKeys) (config : Config)
    (kw direct_urls : string) (num_results depth : nat)
    (trigger : option Trigger) (rs : list AnalysisResult) :
  fst (fst (execute_market_scan fetch title_of chat json_loads strftime self
              keys config kw direct_urls num_results depth trigger))
  = Ok rs ->
  (length rs <= num_results)%nat /\ NoDup (result_url <$> rs).
Proof.
  intros Hrun. apply scan_returns in Hrun as [-> | ->].
  - split; [cbn; lia|constructor].
  - split.
    + rewrite <- (length_fmap result_url), analyze_result_urls.
      destruct chat; [|cbn; lia].
      rewrite length_fmap. unfold crawl_urls.
      etransitivity; [apply crawl_loop_length|].
      cbn [length Nat.add]. rewrite length_take. lia.
    + rewrite analyze_result_urls. destruct chat; [|constructor].
      unfold crawl_urls. apply crawl_loop_nodup.
      * constructor.
      * intros p Hp. inversion Hp.
Qed.

Lemma scan_result_is_bounded_witness :
  exists rs,
    fst (fst (execute_market_scan example_fetch example_title
                (Some example_chat) refusing_loads example_strftime
                two_hit_scanner full_keys uk_config "" example_direct_urls 1 0
                None))
    = Ok rs
    /\ (length rs <= 1)%nat.
Proof.
  eexists. split; [vm_compute; reflexivity|].
  eapply (scan_result_is_bounded example_fetch example_title
            (Some example_chat) refusing_loads example_strftime
            two_hit_scanner full_keys uk_config "" example_direct_urls 1 0
            None).
  vm_compute. reflexivity.
Defined.

(** Every result of a scan is for one of the direct urls: a stripped,
    non-empty line of the [direct_urls] text.  The search never adds a
    result. *)
Theorem scan_results_come_from_direct_urls (fetch : string -> result string)
    (title_of : string -> string)
    (chat : option (ChatRequest -> result (list (option string))))
    (json_loads : string -> result json) (strftime : nat -> string)
    (self : MarketScanner) (keys : ApiKeys) (config : Config)
    (kw direct_urls : string) (num_results depth : nat)
    (trigger : option Trigger) (rs : list AnalysisResult)
    (r : AnalysisResult) :
  fst (fst (execute_market_scan fetch title_of chat json_loads strftime self
              keys config kw direct_urls num_results depth trigger))
  = Ok rs ->
  r ∈ rs ->
  exists line,
    line ∈ split_on "010"%char direct_urls
    /\ strip line <> ""
    /\ result_url r = strip line.
Proof.
  intros Hrun Hr. apply scan_returns in Hrun as [->| ->]; [inversion Hr|].
  assert (result_url r ∈ result_url <$>
            fst (analyze_with_openai chat json_loads strftime
                   (fst (crawl_urls fetch title_of
                           (take num_results
                              (unique_urls (direct_url_list direct_urls) ∅))
                           depth)))) as Hurl
    by (apply list_elem_of_fmap; eauto).
  rewrite analyze_result_urls in Hurl.
  destruct chat; [|inversion Hurl].
  apply list_elem_of_fmap in Hurl as (p & Hp & Hin).
  unfold crawl_urls in Hin.
  destruct (crawl_loop_pages _ _ _ _ _ _ _ Hin)
    as [Hnil|(info & content & Hi & _ & _ & ->)]; [inversion Hnil|].
  apply elem_of_take in Hi as (k & Hk & _).
  apply list_elem_of_lookup_2 in Hk. apply unique_urls_sub in Hk.
  unfold direct_url_list in Hk.
  apply list_elem_of_fmap in Hk as (line & -> & Hline).
  apply list_elem_of_In, filter_In in Hline as [Hline Htruthy].
  exists line. split; [apply list_elem_of_In; exact Hline|].
  split; [|rewrite Hp; reflexivity].
  intros Hempty. rewrite Hempty in Htruthy. discriminate Htruthy.
Qed.

Lemma scan_results_come_from_direct_urls_witness :
  exists line,
    line ∈ split_on "010"%char example_direct_urls
    /\ strip line <> ""
    /\ "https://c.example/long" = strip line.
Proof.
  eapply (scan_results_come_from_direct_urls example_fetch example_title
            (Some example_chat) refusing_loads example_strftime
            two_hit_scanner full_keys uk_config "" example_direct_urls 2 0
            None _
            (page_result example_chat refusing_loads "2024-06-01 09:00:00"
               {| c_url := "https://c.example/long"; c_title := "page";
                  c_content := "   " +:+ long_text +:+ nl;
                  c_query := "Direct URL"; c_word_count := 25 |})).
  - vm_compute. reflexivity.
  - right. left.
Defined.

(** With valid keys and a configured search service, a scan that has no
    direct urls, or fewer than [num_results] of them, does not return: the
    search is called with the number of results in place of the
    configuration, and the [AttributeError] leaves the function.  The
    queries were built before, so a pending trigger has been consumed. *)
Theorem scan_through_search_raises (fetch : string -> result string)
    (title_of : string -> string)
    (chat : option (ChatRequest -> result (list (option string))))
    (json_loads : string -> result json) (strftime : nat -> string)
    (self : MarketScanner) (service : SearchParams -> result SearchResponse)
    (keys : ApiKeys) (config : Config) (kw direct_urls : string)
    (num_results depth : nat) (trigger : option Trigger) :
  fst (validate_api_keys keys) = true ->
  google_service self = Some service ->
  direct_urls = ""
  \/ (length (direct_url_list direct_urls) < num_results)%nat ->
  execute_market_scan fetch title_of chat json_loads strftime self keys
    config kw direct_urls num_results depth trigger
  = (Raise (PyExn AttributeError "'int' object has no attribute 'get'"),
     [],
     snd (construct_search_queries config kw trigger)).
Proof.
  intros Hvalid Hsvc Hfew. unfold execute_market_scan.
  unfold validate_api_keys in *.
  destruct (key_present (key_openai keys) && key_present (key_google keys)
            && key_present (key_google_cx keys)); [|discriminate Hvalid].
  cbn [negb].
  assert (negb (truthy direct_urls)
          || (length (if truthy direct_urls
                      then direct_url_list direct_urls else [])
              <? num_results)%nat = true) as ->.
  { destruct Hfew as [->|Hlt]; [reflexivity|].
    destruct (truthy direct_urls); [|reflexivity].
    apply Nat.ltb_lt in Hlt. rewrite Hlt. reflexivity. }
  pose proof (queries_truthy config kw trigger) as Hq.
  destruct (construct_search_queries config kw trigger)
    as [queries trigger'].
  cbn [fst snd] in *. rewrite Hq.
  unfold execute_google_search_with_int. rewrite Hsvc. reflexivity.
Qed.

Lemma scan_through_search_raises_witness :
  execute_market_scan example_fetch example_title (Some example_chat)
    refusing_loads example_strftime configured_scanner full_keys uk_config
    "AMP 8" example_direct_urls 15 1 (Some package_trigger)
  = (Raise (PyExn AttributeError "'int' object has no attribute 'get'"),
     [], None).
Proof.
  eapply (scan_through_search_raises example_fetch example_title
            (Some example_chat) refusing_loads example_strftime
            configured_scanner _ full_keys uk_config "AMP 8"
            example_direct_urls 15 1 (Some package_trigger)).
  - reflexivity.
  - reflexivity.
  - right. vm_compute. lia.
Defined.

(** When a key is missing or empty the scan stops at once: it returns an
    empty list with the one message about the keys, builds no query and
    leaves the trigger in place. *)
Theorem scan_without_keys_stops (fetch : string -> result string)
    (title_of : string -> string)
    (chat : option (ChatRequest -> result (list (option string))))
    (json_loads : string -> result json) (strftime : nat -> string)
    (self : MarketScanner) (keys : ApiKeys) (config : Config)
    (kw direct_urls : string) (num_results depth : nat)
    (trigger : option Trigger) :
  key_present (key_openai keys) = false
  \/ key_present (key_google keys) = false
  \/ key_present (key_google_cx keys) = false ->
  execute_market_scan fetch title_of chat json_loads strftime self keys
    config kw direct_urls num_results depth trigger
  = (Ok [],
     [UiError "API keys are missing. Please ensure Google Search and OpenAI API keys are configured."],
     trigger).
Proof.
  intros Hmissing. unfold execute_market_scan, validate_api_keys.
  assert (key_present (key_openai keys) && key_present (key_google keys)
          && key_present (key_google_cx keys) = false) as ->.
  { destruct Hmissing as [->|[->| ->]]; rewrite ?andb_false_r; reflexivity. }
  reflexivity.
Qed.

Lemma scan_without_keys_stops_witness :
  execute_market_scan example_fetch example_title (Some example_chat)
    refusing_loads example_strftime configured_scanner missing_model_key
    uk_config "" example_direct_urls 1 0 (Some package_trigger)
  = (Ok [],
     [UiError "API keys are missing. Please ensure Google Search and OpenAI API keys are configured."],
     Some package_trigger).
Proof.
  apply scan_without_keys_stops. left. reflexivity.
Defined.

(** ** Query builders of [smart_markets.py] *)

Lemma append_assoc (a b c : string) : (a +:+ b) +:+ c = a +:+ b +:+ c.
Proof.
  induction a as [|x a IH]; [reflexivity|].
  rewrite !append_cons, IH. reflexivity.
Qed.

Lemma occurs_in_app_l (needle a b : string) :
  occurs_in needle a -> occurs_in needle (a +:+ b).
Proof.
  intros (pre & post & ->). exists pre, (post +:+ b).
  rewrite !append_assoc. reflexivity.
Qed.

Lemma occurs_in_app_r (needle a b : string) :
  occurs_in needle b -> occurs_in needle (a +:+ b).
Proof.
  intros (pre & post & ->). exists (a +:+ pre), post.
  rewrite !append_assoc. reflexivity.
Qed.

Ltac find_uk :=
  solve [ apply str_in_spec; reflexivity
        | apply occurs_in_app_l; find_uk
        | apply occurs_in_app_r; find_uk ].

(** A market category outside the five (Infrastructure, Technology,
    Services, Materials, Equipment) has no query at all.  For the five,
    there are two or three queries, and each names the UK whatever the
    geographic scope of the configuration is. *)
Theorem market_category_queries (category : string)
    (industry_sector : option string) (config : Config) :
  let queries :=
    SmartMarkets.build_market_category_queries category industry_sector
      config in
  (category ∉ market_categories_with_queries -> queries = [])
  /\ (category ∈ market_categories_with_queries ->
      (2 <= length queries <= 3)%nat)
  /\ Forall (occurs_in "UK") queries.
Proof.
  cbn zeta. unfold SmartMarkets.build_market_category_queries.
  destruct (String.eqb_spec category "Infrastructure") as [->|H1].
  { split; [intros H; exfalso; apply H; apply list_in_spec; reflexivity|].
    split; [intros _; cbn; lia|]. cbn [take]. repeat constructor; find_uk. }
  destruct (String.eqb_spec category "Technology") as [->|H2].
  { split; [intros H; exfalso; apply H; apply list_in_spec; reflexivity|].
    split; [intros _; cbn; lia|]. cbn [take]. repeat constructor; find_uk. }
  destruct (String.eqb_spec category "Services") as [->|H3].
  { split; [intros H; exfalso; apply H; apply list_in_spec; reflexivity|].
    split; [intros _; cbn; lia|]. cbn [take]. repeat constructor; find_uk. }
  destruct (String.eqb_spec category "Materials") as [->|H4].
  { split; [intros H; exfalso; apply H; apply list_in_spec; reflexivity|].
    split; [intros _; cbn; lia|]. cbn [take]. repeat constructor; find_uk. }
  destruct (String.eqb_spec category "Equipment") as [->|H5].
  { split; [intros H; exfalso; apply H; apply list_in_spec; reflexivity|].
    split; [intros _; cbn; lia|]. cbn [take]. repeat constructor; find_uk. }
  split; [reflexivity|]. split; [|constructor].
  intros Hin. unfold market_categories_with_queries in Hin.
  rewrite !elem_of_cons in Hin. rewrite elem_of_nil in Hin. tauto.
Qed.

Lemma market_category_queries_witness :
  SmartMarkets.build_market_category_queries "Market Trends" None eu_config
  = []
  /\ (2 <= length (SmartMarkets.build_market_category_queries "Services"
                     (Some "water") eu_config) <= 3)%nat.
Proof.
  split.
  - apply (market_category_queries "Market Trends" None eu_config).
    apply list_in_false. reflexivity.
  - apply (market_category_queries "Services" (Some "water") eu_config).
    apply list_in_spec. reflexivity.
Defined.

Lemma omap_length_le {A B} (f : A -> option B) (l : list A) :
  (length (omap f l) <= length l)%nat.
Proof.
  induction l as [|x l IH]; [reflexivity|].
  cbn. destruct (f x); cbn; lia.
Qed.

(** Supplier queries are built for the first two suppliers only: there
    are at most two of them, and suppliers after the second change
    nothing. *)
Theorem supplier_queries_use_two_suppliers (intel_type : string)
    (config config' : Config) (names : list string) :
  suppliers config = Some names ->
  suppliers config' = Some (take 2 names) ->
  geographic_scope config' = geographic_scope config ->
  (length (SmartMarkets.build_supplier_intelligence_queries intel_type config)
   <= 2)%nat
  /\ SmartMarkets.build_supplier_intelligence_queries intel_type config'
     = SmartMarkets.build_supplier_intelligence_queries intel_type config.
Proof.
  intros Hs Hs' Hgeo.
  unfold SmartMarkets.build_supplier_intelligence_queries,
    SmartMarkets.geo_filter, scope_of.
  rewrite Hs, Hs', Hgeo. cbn [default from_option id].
  rewrite take_take. cbn [Nat.min].
  split; [|reflexivity].
  rewrite length_take. etransitivity; [apply Nat.le_min_r|].
  etransitivity; [apply omap_length_le|]. rewrite length_take. lia.
Qed.

Lemma supplier_queries_use_two_suppliers_witness :
  (length (SmartMarkets.build_supplier_intelligence_queries
             "Financial Intelligence" eu_config) <= 2)%nat.
Proof.
  apply (supplier_queries_use_two_suppliers "Financial Intelligence"
           eu_config
           {| geo_focus := None; sub_sectors := None; categories := None;
              keywords := None; geographic_scope := Some ["EU"];
              time_range := None;
              suppliers := Some ["Acme Pumps"; "Bolt Valves"];
              intelligence_types := None; market_categories := None |}
           ["Acme Pumps"; "Bolt Valves"; "Crest Pipes"]);
    reflexivity.
Defined.

(** ** Alert generation *)

Lemma execute_google_search_cons (scanner : MarketScanner) (cx : string)
    (query : string) (rest : list string) (config : Config) :
  fst (execute_google_search scanner cx (query :: rest) config)
  = fst (execute_google_search scanner cx [query] config)
    ++ fst (execute_google_search scanner cx rest config).
Proof.
  unfold execute_google_search.
  destruct (google_service scanner) as [service|]; [|reflexivity].
  change (query :: rest) with ([query] ++ rest).
  rewrite search_queries_app. reflexivity.
Qed.

Lemma search_each_hits (scanner : MarketScanner) (cx : string)
    (queries : list string) (config : Config) (acc : list SearchHit)
    (log : list SmartMarkets.page_msg) :
  fst (SmartMarkets.search_each scanner cx queries config acc log)
  = acc ++ fst (execute_google_search scanner cx queries config).
Proof.
  revert acc log. induction queries as [|query rest IH]; intros acc log.
  - cbn [SmartMarkets.search_each fst].
    assert (fst (execute_google_search scanner cx [] config) = []) as ->.
    { unfold execute_google_search.
      destruct (google_service scanner); reflexivity. }
    rewrite app_nil_r. reflexivity.
  - cbn [SmartMarkets.search_each]. rewrite execute_google_search_cons.
    destruct (execute_google_search scanner cx [query] config)
      as [results msgs].
    rewrite IH, <- app_assoc. reflexivity.
Qed.


(** Generating the alerts of a market category searches its queries one
    call at a time, yet the outcome is that of one search of the whole
    list: with no hit the session state is left as it was; with hits, the
    list stored under the category's key is exactly the analysis of those
    hits.  No other key of the session state is ever written. *)
Theorem generated_alerts_are_the_analysis_of_the_hits
    (json_loads : string -> result json) (clock : nat -> Z)
    (category : string) (industry_sector : option string)
    (scanner : MarketScanner) (cx : string) (config : Config)
    (session_state : gmap string (list AlertRecord)) :
  let hits :=
    fst (execute_google_search scanner cx
           (SmartMarkets.build_market_category_queries category
              industry_sector config) config) in
  let state' :=
    fst (SmartMarkets.generate_market_category_alerts json_loads clock
           category industry_sector scanner cx config session_state) in
  (hits = [] -> state' = session_state)
  /\ (hits <> [] ->
      state' !! AlertStore.alerts_key category
      = Some (fst (analyze_snippets_with_openai json_loads clock scanner hits
                     config)))
  /\ (forall key,
        key <> AlertStore.alerts_key category ->
        state' !! key = session_state !! key).
Proof.
  cbn zeta.
  unfold SmartMarkets.generate_market_category_alerts,
    SmartMarkets.generate_alerts.
  pose proof (search_each_hits scanner cx
                (SmartMarkets.build_market_category_queries category
                   industry_sector config) config [] []) as Hhits.
  destruct (SmartMarkets.search_each scanner cx _ config [] [])
    as [found log].
  cbn [fst app] in Hhits. rewrite <- Hhits.
  destruct found as [|hit found]; cbn [truthy_list].
  - split; [reflexivity|]. split; [intros H; contradiction|reflexivity].
  - destruct (analyze_snippets_with_openai json_loads clock scanner
                (hit :: found) config) as [analyzed msgs].
    cbn [fst]. split; [discriminate|]. split.
    + intros _. apply lookup_insert_eq.
    + intros key Hne. apply lookup_insert_ne. congruence.
Qed.



(** ** Keyword classification *)

Example process_scan_results_example :
  exists a1 a2 a3,
    Classify.process_scan_results_to_alerts Classify.example_scan_results
    = (Ok [a1; a2; a3],
       [UiWarning "Skipping invalid result at index 1: <class 'str'>";
        UiWarning "Skipping invalid result at index 3: <class 'NoneType'>"])
    /\ (Classify.sa_id a1, Classify.sa_category a1, Classify.sa_impact_level a1)
       = (1%nat, "Regulatory & Compliance", "High")
    /\ (Classify.sa_id a2, Classify.sa_category a2, Classify.sa_impact_level a2)
       = (2%nat, "Market Trends", "Low")
    /\ (Classify.sa_id a3, Classify.sa_category a3, Classify.sa_impact_level a3)
       = (3%nat, "Financial Intelligence", "Medium").
Proof.
  do 3 eexists. split; [vm_compute; reflexivity|].
  repeat split; reflexivity.
Qed.

Lemma scan_alert_ok (id : nat) (scan_result : gmap string json)
    (a : Classify.ScanAlert) :
  Classify.scan_alert id scan_result = Ok a ->
  Classify.sa_id a = id
  /\ Classify.sa_impact_level a ∈ impact_levels
  /\ Classify.sa_category a ∈ Classify.categories_of_classifier.
Proof.
  unfold Classify.scan_alert, Classify.determine_alert_category,
    Classify.determine_impact_level.
  destruct (Classify.content_lower scan_result) as [content|e];
    [|discriminate].
  cbn [Py.bind]. intros [= <-]. cbn. split; [reflexivity|]. split.
  - repeat match goal with
           | |- context [if ?b then _ else _] => destruct b
           end; apply list_in_spec; reflexivity.
  - repeat match goal with
           | |- context [if ?b then _ else _] => destruct b
           end; apply list_in_spec; reflexivity.
Qed.

Lemma process_entries_inv (entries : list json) (i : nat)
    (acc : list Classify.ScanAlert) (log : list ui_msg)
    (alerts : list Classify.ScanAlert) :
  fst (Classify.process_entries i entries acc log) = Ok alerts ->
  exists built,
    alerts = acc ++ built
    /\ length built = length (List.filter Classify.is_dict entries)
    /\ length (snd (Classify.process_entries i entries acc log))
       = (length log
          + length (List.filter (fun j => negb (Classify.is_dict j)) entries))%nat
    /\ (forall k a, built !! k = Some a ->
          Classify.sa_id a = (length acc + k + 1)%nat
          /\ Classify.sa_impact_level a ∈ impact_levels
          /\ Classify.sa_category a ∈ Classify.categories_of_classifier).
Proof.
  revert i acc log.
  induction entries as [|entry rest IH]; intros i acc log.
  - cbn. intros [= <-]. exists []. rewrite app_nil_r.
    split; [reflexivity|]. split; [reflexivity|]. split; [lia|].
    intros k a Hlook. discriminate Hlook.
  - assert (Classify.is_dict entry = false ->
            fst (Classify.process_entries (S i) rest acc
                   (log ++ [UiWarning
                              ("Skipping invalid result at index "
                               +:+ str_nat i +:+ ": <class '"
                               +:+ Json.type_name entry +:+ "'>")]))
            = Ok alerts ->
            exists built,
              alerts = acc ++ built
              /\ length built
                 = length (List.filter Classify.is_dict (entry :: rest))
              /\ length (snd (Classify.process_entries (S i) rest acc
                   (log ++ [UiWarning
                              ("Skipping invalid result at index "
                               +:+ str_nat i +:+ ": <class '"
                               +:+ Json.type_name entry +:+ "'>")])))
                 = (length log
                    + length (List.filter
                                (fun j => negb (Classify.is_dict j))
                                (entry :: rest)))%nat
              /\ (forall k a, built !! k = Some a ->
                    Classify.sa_id a = (length acc + k + 1)%nat
                    /\ Classify.sa_impact_level a ∈ impact_levels
                    /\ Classify.sa_category a
                       ∈ Classify.categories_of_classifier)) as Hskip.
    { intros Hnot Hrun.
      destruct (IH _ _ _ Hrun) as (built & -> & Hlen & Hlog & Hk).
      exists built. cbn [List.filter]. rewrite Hnot. cbn [negb length].
      split; [reflexivity|]. split; [exact Hlen|]. split; [|exact Hk].
      rewrite Hlog, length_app. cbn. lia. }
    destruct entry; cbn [Classify.process_entries];
      try (apply Hskip; reflexivity).
    destruct (Classify.scan_alert (length acc + 1) m) as [alert|e] eqn:Ha;
      [|discriminate].
    intros Hrun.
    destruct (IH _ _ _ Hrun) as (built & -> & Hlen & Hlog & Hk).
    destruct (scan_alert_ok _ _ _ Ha) as (Hid & Himp & Hcat).
    exists (alert :: built). rewrite <- app_assoc. cbn [List.filter
      Classify.is_dict negb length app].
    split; [reflexivity|]. split; [lia|]. split; [exact Hlog|].
    intros [|k] a Hlook.
    + injection Hlook as <-. split; [lia|auto].
    + destruct (Hk k a Hlook) as (Hid' & Hrest).
      split; [|exact Hrest]. rewrite Hid', length_app. cbn. lia.
Qed.

(** Every alert made by the keyword classifier has an impact level among
    High, Medium and Low, and a category among the five the classifier
    knows. *)
Theorem classified_alerts_are_valid (results : json)
    (alerts : list Classify.ScanAlert) :
  fst (Classify.process_scan_results_to_alerts results) = Ok alerts ->
  Forall (fun a =>
            Classify.sa_impact_level a ∈ impact_levels
            /\ Classify.sa_category a ∈ Classify.categories_of_classifier)
    alerts.
Proof.
  unfold Classify.process_scan_results_to_alerts.
  destruct results; try (intros [= <-]; constructor).
  intros Hrun.
  destruct (process_entries_inv _ _ _ _ _ Hrun) as (built & -> & _ & _ & Hk).
  cbn [app]. apply Forall_lookup. intros k a Hlook.
  destruct (Hk k a Hlook) as (_ & H). exact H.
Qed.

Lemma classified_alerts_are_valid_witness :
  exists alerts,
    fst (Classify.process_scan_results_to_alerts
           Classify.example_scan_results) = Ok alerts
    /\ Forall (fun a =>
                 Classify.sa_impact_level a ∈ impact_levels
                 /\ Classify.sa_category a
                    ∈ Classify.categories_of_classifier) alerts.
Proof.
  eexists. split; [vm_compute; reflexivity|].
  apply (classified_alerts_are_valid Classify.example_scan_results).
  vm_compute. reflexivity.
Defined.

(** The alerts are numbered 1, 2, 3, ... without gap: entries that are
    not dictionaries are skipped with one warning each and take no
    number.  There is one alert per dictionary entry. *)
Theorem classified_alerts_are_numbered (entries : list json)
    (alerts : list Classify.ScanAlert) :
  fst (Classify.process_scan_results_to_alerts (JArr entries)) = Ok alerts ->
  Classify.sa_id <$> alerts = seq 1 (length alerts)
  /\ length alerts = length (List.filter Classify.is_dict entries)
  /\ length (snd (Classify.process_scan_results_to_alerts (JArr entries)))
     = length (List.filter (fun j => negb (Classify.is_dict j)) entries).
Proof.
  unfold Classify.process_scan_results_to_alerts. intros Hrun.
  destruct (process_entries_inv _ _ _ _ _ Hrun)
    as (built & -> & Hlen & Hlog & Hk).
  cbn [app length Nat.add] in *. split; [|split; [exact Hlen|exact Hlog]].
  apply list_eq. intros k. rewrite list_lookup_fmap.
  destruct (built !! k) as [a|] eqn:Hlook.
  - destruct (Hk k a Hlook) as (Hid & _). cbn.
    rewrite lookup_seq_lt by (apply lookup_lt_Some in Hlook; exact Hlook).
    rewrite Hid. f_equal. lia.
  - cbn. symmetry. apply lookup_seq_ge. apply lookup_ge_None. exact Hlook.
Qed.

Lemma classified_alerts_are_numbered_witness :
  exists alerts,
    fst (Classify.process_scan_results_to_alerts
           Classify.example_scan_results) = Ok alerts
    /\ Classify.sa_id <$> alerts = [1; 2; 3]%nat.
Proof.
  eexists. split; [vm_compute; reflexivity|].
  refine (proj1 (classified_alerts_are_numbered Classify.example_entries
                   _ _)).
  vm_compute. reflexivity.
Defined.

Lemma content_lower_ok_iff (m : gmap string json) :
  (exists s, Classify.content_lower m = Ok s)
  <-> m !! "content" = None \/ exists s, m !! "content" = Some (JStr s).
Proof.
  unfold Classify.content_lower. split.
  - intros [s Hs]. destruct (m !! "content") as [j|]; [|auto].
    right. destruct j; try discriminate Hs. eauto.
  - intros [->|[s ->]]; cbn; eauto.
Qed.

Lemma scan_alert_ok_iff (id : nat) (m : gmap string json) :
  (exists a, Classify.scan_alert id m = Ok a)
  <-> m !! "content" = None \/ exists s, m !! "content" = Some (JStr s).
Proof.
  rewrite <- content_lower_ok_iff.
  unfold Classify.scan_alert, Classify.determine_alert_category,
    Classify.determine_impact_level.
  destruct (Classify.content_lower m) as [content|e]; cbn [Py.bind].
  - split; eauto.
  - split; intros [x Hx]; discriminate Hx.
Qed.

Lemma process_entries_ok_iff (entries : list json) (i : nat)
    (acc : list Classify.ScanAlert) (log : list ui_msg) :
  (exists alerts,
      fst (Classify.process_entries i entries acc log) = Ok alerts)
  <-> Forall Classify.content_is_text entries.
Proof.
  revert i acc log.
  induction entries as [|entry rest IH]; intros i acc log.
  - cbn. split; [constructor|eauto].
  - assert (Classify.is_dict entry = false ->
            Classify.content_is_text entry) as Hnot.
    { intros Hd m ->. discriminate Hd. }
    rewrite Forall_cons.
    destruct entry; cbn [Classify.process_entries];
      try (rewrite IH; split; [intros H; split; [apply Hnot; reflexivity|exact H]|tauto]).
    destruct (Classify.scan_alert (length acc + 1) m) as [alert|e] eqn:Ha.
    + rewrite IH. split; [|tauto]. intros H. split; [|exact H].
      intros m' [= <-]. apply (scan_alert_ok_iff (length acc + 1)). eauto.
    + cbn [fst]. split.
      * intros [alerts H]. discriminate H.
      * intros [Htext _]. exfalso.
        destruct (proj2 (scan_alert_ok_iff (length acc + 1) m)
                    (Htext m eq_refl)) as [a Hok].
        congruence.
Qed.

(** The classifier returns exactly when the content of every dictionary
    entry is a string or is absent.  One dictionary whose content is
    anything else, [null] included, makes the call raise, and no alert is
    returned for any entry. *)
Theorem classifier_returns_iff_contents_are_text (entries : list json) :
  (exists alerts,
      fst (Classify.process_scan_results_to_alerts (JArr entries))
      = Ok alerts)
  <-> Forall Classify.content_is_text entries.
Proof. apply process_entries_ok_iff. Qed.

(** ** Pinning *)

Lemma existsb_id_spec (id : string) (l : list AlertRecord) :
  existsb (fun p => String.eqb (a_id p) id) l = true <-> id ∈ a_id <$> l.
Proof.
  rewrite existsb_exists, list_elem_of_fmap. split.
  - intros (p & Hp & Heq). apply String.eqb_eq in Heq.
    exists p. split; [auto|apply list_elem_of_In; exact Hp].
  - intros (p & -> & Hp). exists p.
    split; [apply list_elem_of_In; exact Hp|apply String.eqb_refl].
Qed.

(** Pinning the same alert again changes nothing: after one pin the
    alert's id is in the list, a second pin leaves the list as it is, and
    a list whose ids were distinct keeps them distinct. *)
Theorem pinning_twice_pins_once (alert : AlertRecord)
    (pinned : option (list AlertRecord)) :
  let once := fst (Pins.pin_alert alert pinned) in
  a_id alert ∈ a_id <$> once
  /\ Pins.pin_alert alert (Some once)
     = (once,
        SmartMarkets.Shown (UiWarning "Intelligence insight already pinned!"))
  /\ (NoDup (a_id <$> default [] pinned) -> NoDup (a_id <$> once)).
Proof.
  cbn zeta.
  assert (a_id alert ∈ a_id <$> fst (Pins.pin_alert alert pinned)) as Hin.
  { unfold Pins.pin_alert.
    destruct (existsb _ (default [] pinned)) eqn:Hex; cbn [negb fst].
    - apply existsb_id_spec. exact Hex.
    - rewrite fmap_app. apply elem_of_app. right. left. }
  split; [exact Hin|]. split.
  - apply existsb_id_spec in Hin. unfold Pins.pin_alert at 1.
    cbn [default from_option id]. rewrite Hin. reflexivity.
  - intros Hnd. unfold Pins.pin_alert.
    destruct (existsb _ (default [] pinned)) eqn:Hex; cbn [negb fst];
      [exact Hnd|].
    rewrite fmap_app. apply NoDup_app. split; [exact Hnd|]. split.
    + intros id Hid Hid'. apply list_elem_of_singleton in Hid'. subst id.
      apply existsb_id_spec in Hid. congruence.
    + apply NoDup_singleton.
Qed.

(** ** The view by impact *)

Lemma group_by_impact_spec (alerts high medium low : list AlertRecord)
    (h m l : list AlertRecord) :
  Views.group_by_impact alerts high medium low = Ok (h, m, l) ->
  h = high ++ List.filter (has_level "High") alerts
  /\ m = medium ++ List.filter (has_level "Medium") alerts
  /\ l = low ++ List.filter (has_level "Low") alerts.
Proof.
  revert high medium low.
  induction alerts as [|alert rest IH]; intros high medium low.
  - cbn. intros [= <- <- <-]. rewrite !app_nil_r. auto.
  - cbn [Views.group_by_impact List.filter]. unfold Views.impact_group.
    destruct (a_impact_level alert) as [|b|z|q|s|js|jm] eqn:Himp;
      cbn [Py.bind]; try discriminate.
    1-4: assert (forall level, has_level level alert = false) as Hno
        by (intros level; unfold has_level; rewrite Himp; reflexivity);
      rewrite !Hno; apply IH.
    assert (forall level, has_level level alert = String.eqb s level) as Hs
      by (intros level; unfold has_level; rewrite Himp; reflexivity).
    rewrite !Hs.
    destruct (String.eqb_spec s "High") as [->|Hh].
    { cbn. intros H. destruct (IH _ _ _ H) as (-> & -> & ->).
      rewrite <- app_assoc. auto. }
    destruct (String.eqb_spec s "Medium") as [->|Hm].
    { cbn. intros H. destruct (IH _ _ _ H) as (-> & -> & ->).
      rewrite <- app_assoc. auto. }
    destruct (String.eqb_spec s "Low") as [->|Hl].
    { cbn. intros H. destruct (IH _ _ _ H) as (-> & -> & ->).
      rewrite <- app_assoc. auto. }
    assert (list_in s ["High"; "Medium"; "Low"] = false) as ->.
    { apply list_in_false. rewrite !elem_of_cons, elem_of_nil. tauto. }
    apply IH.
Qed.

(** The view by impact shows the alerts whose impact level is the string
    High, then those of Medium, then those of Low, each once and in their
    order.  An alert with any other impact level, which the extractor
    lets through, is in no section. *)
Theorem view_by_impact_shows_three_levels (alerts : list AlertRecord)
    (sections : list (string * list AlertRecord)) :
  Views.render_alerts_by_impact alerts = Ok sections ->
  Views.shown_alerts sections
  = List.filter (has_level "High") alerts
    ++ List.filter (has_level "Medium") alerts
    ++ List.filter (has_level "Low") alerts.
Proof.
  unfold Views.render_alerts_by_impact.
  destruct (Views.group_by_impact alerts [] [] []) as [[[h m] l]|e] eqn:Hg;
    [|discriminate].
  cbn [Py.bind]. intros [= <-].
  destruct (group_by_impact_spec _ _ _ _ _ _ _ Hg) as (-> & -> & ->).
  cbn [app]. unfold Views.shown_alerts. cbn [List.filter snd].
  destruct (List.filter (has_level "High") alerts);
    destruct (List.filter (has_level "Medium") alerts);
    destruct (List.filter (has_level "Low") alerts);
    cbn; rewrite ?app_nil_r; reflexivity.
Qed.

Lemma view_by_impact_shows_three_levels_witness :
  Views.render_alerts_by_impact [critical_alert; low_alert]
  = Ok [("Medium", [low_alert])]
  /\ Views.shown_alerts [("Medium", [low_alert])] = [low_alert].
Proof.
  split; [reflexivity|].
  apply (view_by_impact_shows_three_levels [critical_alert; low_alert]).
  reflexivity.
Defined.

(** ** The timeline archive *)

Lemma timeline_archive_keys_differ (c1 c2 : string) :
  Timeline.archive_key c1 <> Timeline.timeline_key c2.
Proof. unfold Timeline.archive_key, Timeline.timeline_key. discriminate. Qed.

Lemma with_archive_lookup (category : string)
    (state : gmap string (list Timeline.TimelineEntry)) (key : string) :
  key <> Timeline.archive_key category ->
  Timeline.with_archive category state !! key = state !! key.
Proof.
  intros Hne. unfold Timeline.with_archive.
  destruct (state !! Timeline.archive_key category); [reflexivity|].
  rewrite lookup_insert_ne by congruence. reflexivity.
Qed.

Lemma with_archive_archive (category : string)
    (state : gmap string (list Timeline.TimelineEntry)) :
  Timeline.with_archive category state !! Timeline.archive_key category
  = Some (default [] (state !! Timeline.archive_key category)).
Proof.
  unfold Timeline.with_archive.
  destruct (state !! Timeline.archive_key category) as [l|] eqn:H.
  - rewrite H. reflexivity.
  - rewrite lookup_insert_eq. reflexivity.
Qed.

(** Archiving an entry appends it to the archive of the category and
    removes from the timeline every entry with the same id, leaving the
    other entries in their order. *)
Theorem archived_entry_leaves_the_timeline (entry : Timeline.TimelineEntry)
    (category : string)
    (state : gmap string (list Timeline.TimelineEntry))
    (timeline : list Timeline.TimelineEntry) :
  state !! Timeline.timeline_key category = Some timeline ->
  let state' := Timeline.archive_timeline_entry entry category state in
  state' !! Timeline.timeline_key category
  = Some (filter (fun item => Timeline.te_id item <> Timeline.te_id entry)
            timeline)
  /\ state' !! Timeline.archive_key category
     = Some (default [] (state !! Timeline.archive_key category) ++ [entry])
  /\ (forall key,
        key <> Timeline.timeline_key category ->
        key <> Timeline.archive_key category ->
        state' !! key = state !! key).
Proof.
  intros Htl. cbn zeta. unfold Timeline.archive_timeline_entry.
  assert (Timeline.append_to_archive category entry
            (Timeline.with_archive category state)
          !! Timeline.timeline_key category = Some timeline) as Hsame.
  { unfold Timeline.append_to_archive.
    rewrite lookup_insert_ne by apply timeline_archive_keys_differ.
    rewrite with_archive_lookup; [exact Htl|].
    intros H. symmetry in H. exact (timeline_archive_keys_differ _ _ H). }
  rewrite Hsame. split; [apply lookup_insert_eq|]. split.
  - rewrite lookup_insert_ne.
    + unfold Timeline.append_to_archive.
      rewrite lookup_insert_eq, with_archive_archive. reflexivity.
    + intros H. symmetry in H. exact (timeline_archive_keys_differ _ _ H).
  - intros key Hk1 Hk2. rewrite lookup_insert_ne by congruence.
    unfold Timeline.append_to_archive.
    rewrite lookup_insert_ne by congruence.
    apply with_archive_lookup, Hk2.
Qed.

Lemma archived_entry_leaves_the_timeline_witness :
  Timeline.archive_timeline_entry (timeline_entry "event_Infrastructure_1" 5)
    "Infrastructure"
    {[ Timeline.timeline_key "Infrastructure" :=
         [timeline_entry "event_Infrastructure_0" 9;
          timeline_entry "event_Infrastructure_1" 5;
          timeline_entry "event_Infrastructure_2" 3;
          timeline_entry "event_Infrastructure_1" 1] ]}
  !! Timeline.timeline_key "Infrastructure"
  = Some [timeline_entry "event_Infrastructure_0" 9;
          timeline_entry "event_Infrastructure_2" 3].
Proof.
  refine (proj1 (archived_entry_leaves_the_timeline _ "Infrastructure" _
                   [timeline_entry "event_Infrastructure_0" 9;
                    timeline_entry "event_Infrastructure_1" 5;
                    timeline_entry "event_Infrastructure_2" 3;
                    timeline_entry "event_Infrastructure_1" 1] _)).
  apply lookup_singleton_eq.
Defined.

Lemma archive_loop_spec (cutoff : Z) (category : string)
    (data : list Timeline.TimelineEntry) (count : nat)
    (state : gmap string (list Timeline.TimelineEntry))
    (archive : list Timeline.TimelineEntry) :
  state !! Timeline.archive_key category = Some archive ->
  Timeline.archive_loop cutoff category data count state
  = ((count
      + length (List.filter
                  (fun e => (Timeline.te_timestamp e <? cutoff)%Z) data))%nat,
     <[Timeline.archive_key category :=
         archive ++ List.filter
                      (fun e => (Timeline.te_timestamp e <? cutoff)%Z) data]>
       state).
Proof.
  revert count state archive.
  induction data as [|entry rest IH]; intros count state archive Harch.
  - cbn. rewrite Nat.add_0_r, app_nil_r, insert_id by exact Harch.
    reflexivity.
  - cbn [Timeline.archive_loop List.filter].
    destruct (Timeline.te_timestamp entry <? cutoff)%Z.
    + rewrite (IH _ _ (archive ++ [entry])).
      * unfold Timeline.append_to_archive. rewrite Harch.
        cbn [default from_option id length].
        rewrite insert_insert_eq, <- app_assoc. f_equal. lia.
      * unfold Timeline.append_to_archive. rewrite Harch.
        apply lookup_insert_eq.
    + apply IH, Harch.
Qed.

(** Archiving the old entries copies them: the entries older than 90
    days are appended to the archive, in order, and counted, but every
    other key of the session state, the timeline itself included, stays
    as it was.  Nothing is moved out of the timeline. *)
Theorem archive_old_entries_copies (now : Z)
    (data : list Timeline.TimelineEntry) (category : string)
    (state : gmap string (list Timeline.TimelineEntry)) :
  let old := List.filter (Timeline.is_old now) data in
  let '(count, state') :=
    Timeline.archive_old_entries now data category state in
  count = length old
  /\ state' !! Timeline.archive_key category
     = Some (default [] (state !! Timeline.archive_key category) ++ old)
  /\ (forall key,
        key <> Timeline.archive_key category ->
        state' !! key = state !! key).
Proof.
  cbn zeta. unfold Timeline.archive_old_entries.
  rewrite (archive_loop_spec _ _ _ _ _ _ (with_archive_archive category state)).
  split; [reflexivity|]. split.
  - rewrite lookup_insert_eq. reflexivity.
  - intros key Hne. rewrite lookup_insert_ne by congruence.
    apply with_archive_lookup, Hne.
Qed.

(** ** The report *)

Example analyze_market_intelligence_example :
  exists md,
    Report.analyze_market_intelligence example_report_input = Ok md
    /\ Report.total_sources md = 4%nat
    /\ Report.successful_analyses md = 3%nat
    /\ Report.market_sentiment md = "Positive"
    /\ Report.market_challenges md
       = ["Supply pressure is easing"; "Orders decline"]
    /\ Report.companies md
       = [JStr "Kier"; JStr "Skanska"; JStr "Kier"; JStr "Skanska";
          JStr "Kier"; JStr "Skanska"].
Proof. eexists. split; [vm_compute; reflexivity|]. repeat split. Qed.

Lemma add_result_ok (a : Analysis) (md md' : Report.MarketData) :
  Report.add_result a md = Ok md' ->
  exists sentiment,
    Json.get (an_sentiment a) "sentiment" JNull = Ok sentiment
    /\ an_summary a <> None
    /\ Report.total_sources md' = Report.total_sources md
    /\ Report.successful_analyses md' = Report.successful_analyses md
    /\ Report.market_sentiment md' = Report.market_sentiment md
    /\ length (Report.positive_indicators md')
       = (length (Report.positive_indicators md)
          + if Report.is_str sentiment "Positive" then 1 else 0)%nat
    /\ length (Report.negative_indicators md')
       = (length (Report.negative_indicators md)
          + if Report.is_str sentiment "Negative" then 1 else 0)%nat.
Proof.
  unfold Report.add_result.
  repeat (destruct (Report.entity_list _ _); cbn [Py.bind]; [|discriminate]).
  unfold Report.summary_lower.
  destruct (an_summary a) as [s|]; cbn [Py.bind]; [|discriminate].
  destruct (Json.get (an_sentiment a) "sentiment" JNull) as [sentiment|];
    cbn [Py.bind]; [|discriminate].
  intros [= <-]. exists sentiment. cbn.
  split; [reflexivity|]. split; [discriminate|].
  do 3 (split; [reflexivity|]).
  destruct sentiment as [|b|z|q|t|l|m]; cbn; try (split; lia).
  destruct (String.eqb_spec t "Positive") as [->|Hp].
  - cbn. rewrite length_app. cbn. split; lia.
  - destruct (String.eqb t "Negative"); rewrite ?length_app; cbn; split; lia.
Qed.

Lemma get_sentiment_default (j d d' sentiment : json) :
  Json.get j "sentiment" d = Ok sentiment ->
  exists sentiment',
    Json.get j "sentiment" d' = Ok sentiment'
    /\ ((exists m, j = JObj m /\ m !! "sentiment" = None
                   /\ sentiment = d /\ sentiment' = d')
        \/ sentiment' = sentiment).
Proof.
  destruct j; try discriminate. cbn.
  destruct (m !! "sentiment") as [v|] eqn:Hv; cbn; intros [= <-].
  - eauto.
  - eexists. split; [reflexivity|]. left. eauto.
Qed.

Lemma add_results_ok (results : list AnalysisResult)
    (md md' : Report.MarketData) :
  Report.add_results results md = Ok md' ->
  exists sentiments,
    Report.sentiments_of results = Ok sentiments
    /\ length sentiments = length (List.filter Report.is_analysed results)
    /\ Report.total_sources md' = Report.total_sources md
    /\ Report.successful_analyses md' = Report.successful_analyses md
    /\ Report.market_sentiment md' = Report.market_sentiment md
    /\ length (Report.positive_indicators md')
       = (length (Report.positive_indicators md)
          + Report.count_str "Positive" sentiments)%nat
    /\ length (Report.negative_indicators md')
       = (length (Report.negative_indicators md)
          + Report.count_str "Negative" sentiments)%nat.
Proof.
  revert md. induction results as [|[a|f] rest IH]; intros md.
  - cbn. intros [= <-]. exists []. cbn. repeat split; lia.
  - cbn [Report.add_results Report.sentiments_of List.filter
         Report.is_analysed].
    destruct (Report.add_result a md) as [md1|] eqn:Ha; cbn [Py.bind];
      [|discriminate].
    intros Hrest.
    destruct (add_result_ok _ _ _ Ha)
      as (s & Hs & _ & Ht & Hsu & Hm & Hp & Hn).
    destruct (IH _ Hrest) as (ss & Hss & Hlen & Ht' & Hsu' & Hm' & Hp' & Hn').
    destruct (get_sentiment_default _ _ (JStr "Neutral") _ Hs)
      as (s' & Hs' & Hrel).
    rewrite Hs', Hss. cbn [Py.bind]. exists (s' :: ss).
    split; [reflexivity|]. cbn [length]. split; [lia|].
    split; [congruence|]. split; [congruence|]. split; [congruence|].
    assert (Report.is_str s' "Positive" = Report.is_str s "Positive"
            /\ Report.is_str s' "Negative" = Report.is_str s "Negative")
      as [Ep En].
    { destruct Hrel as [(m & _ & _ & -> & ->)| ->]; split; reflexivity. }
    unfold Report.count_str in *. cbn [List.filter]. rewrite Ep, En.
    rewrite Hp', Hn', Hp, Hn.
    destruct (Report.is_str s "Positive"), (Report.is_str s "Negative");
      cbn [length]; lia.
  - cbn [Report.add_results Report.sentiments_of List.filter
         Report.is_analysed]. apply IH.
Qed.

(** When the report is built, its counts are those of the input, and its
    overall sentiment agrees with its own indicator lists: Positive when
    the positive indicators outnumber the negative ones, Negative in the
    opposite case, Neutral on a tie, failed pages counting for
    nothing. *)
Theorem report_sentiment_follows_indicators (results : list AnalysisResult)
    (md : Report.MarketData) :
  Report.analyze_market_intelligence results = Ok md ->
  let positive := length (Report.positive_indicators md) in
  let negative := length (Report.negative_indicators md) in
  Report.total_sources md = length results
  /\ Report.successful_analyses md
     = length (List.filter Report.is_analysed results)
  /\ Report.market_sentiment md
     = if (negative <? positive)%nat then "Positive"
       else if (positive <? negative)%nat then "Negative"
       else "Neutral".
Proof.
  unfold Report.analyze_market_intelligence.
  destruct (Report.add_results results _) as [md1|] eqn:Hadd;
    cbn [Py.bind]; [|discriminate].
  destruct (add_results_ok _ _ _ Hadd)
    as (ss & Hss & Hlen & Ht & Hsu & Hm & Hp & Hn).
  rewrite Hss. cbn [Py.bind]. intros [= <-]. cbn in *.
  split; [exact Ht|]. split; [exact Hsu|].
  rewrite Hp, Hn, Hm.
  destruct ss as [|s ss]; [reflexivity|]. cbn [truthy_list].
  reflexivity.
Qed.

Lemma report_sentiment_follows_indicators_witness :
  exists md,
    Report.analyze_market_intelligence example_report_input = Ok md
    /\ Report.total_sources md = 4%nat
    /\ Report.market_sentiment md = "Positive".
Proof.
  eexists. split; [vm_compute; reflexivity|].
  refine ((fun H => conj (proj1 H) (proj2 (proj2 H)))
            (report_sentiment_follows_indicators example_report_input _ _)).
  vm_compute. reflexivity.
Defined.

Lemma add_results_raises (results : list AnalysisResult)
    (md : Report.MarketData) (a : Analysis) :
  Analysed a ∈ results ->
  (forall md0, exists e, Report.add_result a md0 = Raise e) ->
  exists e, Report.add_results results md = Raise e.
Proof.
  intros Hin Hbad. revert md.
  induction results as [|r rest IH]; intros md; [inversion Hin|].
  apply elem_of_cons in Hin as [<-|Hin].
  - cbn [Report.add_results]. destruct (Hbad md) as [e ->]. eauto.
  - destruct r as [b|f]; cbn [Report.add_results]; [|exact (IH Hin md)].
    destruct (Report.add_result b md) as [md1|e]; cbn [Py.bind]; eauto.
Qed.

(** The report cannot be built from a page analysed without a summary:
    when the model returned no content for the summary, the analysis keeps
    the page with [None] as its summary, and the report raises on it. *)
Theorem report_raises_on_missing_summary (results : list AnalysisResult)
    (a : Analysis) :
  Analysed a ∈ results ->
  an_summary a = None ->
  exists e, Report.analyze_market_intelligence results = Raise e.
Proof.
  intros Hin Hnone. unfold Report.analyze_market_intelligence.
  destruct (add_results_raises results
              {| Report.total_sources := length results;
                 Report.successful_analyses :=
                   length (List.filter Report.is_analysed results);
                 Report.companies := []; Report.technologies := [];
                 Report.financial_figures := [];
                 Report.risks_opportunities := [];
                 Report.market_challenges := [];
                 Report.positive_indicators := [];
                 Report.negative_indicators := [];
                 Report.key_projects := [];
                 Report.market_sentiment := "Neutral" |} a Hin)
    as [e He].
  - intros md0. unfold Report.add_result.
    repeat (destruct (Report.entity_list _ _); cbn [Py.bind]; [|eauto]).
    unfold Report.summary_lower. rewrite Hnone. cbn [Py.bind]. eauto.
  - rewrite He. cbn [Py.bind]. eauto.
Qed.

Lemma report_raises_on_missing_summary_witness :
  exists e,
    Report.analyze_market_intelligence
      [example_failure; example_analysis None sentiment_empty]
    = Raise e.
Proof.
  eapply (report_raises_on_missing_summary _ _).
  - right. left.
  - reflexivity.
Defined.
